(** * glb2stl: binary glTF to STL conversion

    A shallow embedding of [glb2stl.py] and the properties of its chunk
    parser, mesh extractor, normal computation, the two STL writers and the
    fallback extractor.

    Python values are modelled as the script manipulates them: byte strings
    as lists of bytes, unbounded integers as [Z], exceptions as a result
    type, open files as explicit state, the parsed JSON scene as a tree, and
    floats as IEEE 754 binary64 values ([spec_float] with its operations).

    What belongs to Python's libraries is modelled from their documented
    behaviour: [struct] (little-endian integers and binary32 floats, with
    its errors), [format(x, '.6f')], list and numpy indexing with negative
    indices, slicing. [json.loads] is a parameter. Three conventions are
    fixed: the host of [struct]'s native ['f'] is little-endian;
    [np.linalg.norm] of three components is the root of the sum of their
    squares taken left to right; any path can be opened for writing, except
    in [main_io] and the functions it calls, which keep the failure of
    [open]. The command line is taken as already read: [main] receives the
    two paths and the [--ascii] flag; console output is left out. *)

From Stdlib Require Import ZArith List String Ascii Bool Lia.
From Stdlib.Strings Require Import Byte.
From Stdlib Require Import SpecFloat.
From Stdlib Require Import Reals Lra.
Import ListNotations.

Open Scope Z_scope.

(* ================================================================= *)
(** ** Exceptions and the two monads of the script *)

(** The exceptions the script can meet; all of them derive from Python's
    [Exception], so [main]'s handler catches every one. *)
Inductive exn : Type :=
| ValueError (msg : string)
| StructError
| KeyError
| IndexError
| TypeError
| AttributeError
| OverflowError
| JSONDecodeError
| FileNotFoundError.

Inductive result (A : Type) : Type :=
| Ok (a : A)
| Raise (e : exn).

Arguments Ok {A} a.
Arguments Raise {A} e.

Definition is_ok {A} (r : result A) : bool :=
  match r with Ok _ => true | Raise _ => false end.

Class Monad (M : Type -> Type) : Type := {
  ret : forall {A}, A -> M A;
  bind : forall {A B}, M A -> (A -> M B) -> M B
}.

Declare Scope monad_scope.
Delimit Scope monad_scope with monad.
Notation "x <- c ;; k" := (bind c (fun x => k))
  (at level 61, c at next level, right associativity) : monad_scope.
Notation "' p <- c ;; k" := (bind c (fun x => let 'p := x in k))
  (at level 61, p pattern, c at next level, right associativity) : monad_scope.
Notation "c ;;; k" := (bind c (fun _ => k))
  (at level 61, right associativity) : monad_scope.
Open Scope monad_scope.

#[export] Instance result_monad : Monad result := {
  ret := fun A a => Ok a;
  bind := fun A B r k => match r with Ok a => k a | Raise e => Raise e end
}.

(** Code that raises while it mutates a state [S] (an open file, the file
    system): the state reached so far survives the exception. *)
Definition stateful (S A : Type) : Type := S -> result A * S.

#[export] Instance stateful_monad (S : Type) : Monad (stateful S) := {
  ret := fun A a s => (Ok a, s);
  bind := fun A B m k s =>
    match m s with
    | (Ok a, s') => k a s'
    | (Raise e, s') => (Raise e, s')
    end
}.

Definition lift {S A} (r : result A) : stateful S A := fun s => (r, s).

(** [for x in xs: body(x)], collecting what the body appends. *)
Fixpoint for_each {M} `{Monad M} {A B} (body : A -> M B) (xs : list A)
  : M (list B) :=
  match xs with
  | [] => ret []
  | x :: rest =>
      y <- body x ;;
      ys <- for_each body rest ;;
      ret (y :: ys)
  end.

(** [range(start, stop, step)] for a positive step. *)
Definition py_range (start stop step : Z) : list Z :=
  map (fun k => start + step * Z.of_nat k)
      (seq 0 (Z.to_nat ((stop - start + step - 1) / step))).

(* ================================================================= *)
(** ** Byte strings and [struct] for integers *)

Definition bytes : Type := list byte.

Definition byte_of_Z (z : Z) : byte :=
  match Byte.of_N (Z.to_N (z mod 256)) with
  | Some b => b
  | None => x00
  end.

Definition Z_of_byte (b : byte) : Z := Z.of_N (Byte.to_N b).

Definition b_ (s : string) : bytes := list_byte_of_string s.

Definition zeros (n : nat) : bytes := repeat x00 n.

Definition bytes_eqb (a b : bytes) : bool :=
  if list_eq_dec Byte.byte_eq_dec a b then true else false.

(** Little-endian value of a byte string. *)
Fixpoint le_decode (b : bytes) : Z :=
  match b with
  | [] => 0
  | x :: rest => Z_of_byte x + 256 * le_decode rest
  end.

(** The [n] low bytes of [z], least significant first. *)
Fixpoint le_encode (n : nat) (z : Z) : bytes :=
  match n with
  | O => []
  | S n' => byte_of_Z z :: le_encode n' (z / 256)
  end.

(** [struct.unpack('<I', b)[0]]: exactly four bytes, or [struct.error]. *)
Definition unpack_I (b : bytes) : result Z :=
  if (List.length b =? 4)%nat then Ok (le_decode b) else Raise StructError.

(** [struct.pack('<I', n)] and [struct.pack('<H', n)]: out of range raises. *)
Definition pack_I (n : Z) : result bytes :=
  if (0 <=? n) && (n <? 2 ^ 32) then Ok (le_encode 4 n) else Raise StructError.

Definition pack_H (n : Z) : result bytes :=
  if (0 <=? n) && (n <? 2 ^ 16) then Ok (le_encode 2 n) else Raise StructError.

(** [b[start:stop]] with Python's clamping of negative and overlong bounds. *)
Definition slice_bound (n x : Z) : Z :=
  if x <? 0 then Z.max 0 (x + n) else Z.min x n.

Definition py_slice (b : bytes) (start stop : Z) : bytes :=
  let n := Z.of_nat (List.length b) in
  let lo := slice_bound n start in
  let hi := slice_bound n stop in
  firstn (Z.to_nat (hi - lo)) (skipn (Z.to_nat lo) b).

(* ================================================================= *)
(** ** Files *)

(** A file opened for reading: its content and the read position. *)
Record handle : Type := { content : bytes; pos : nat }.

Definition open_rb (data : bytes) : handle := {| content := data; pos := 0 |}.

(** [f.read(n)]: the next [n] bytes, fewer at the end of the file. *)
Definition read (n : Z) : stateful handle bytes := fun h =>
  let chunk := firstn (Z.to_nat n) (skipn (pos h) (content h)) in
  (Ok chunk, {| content := content h; pos := pos h + List.length chunk |}).

(* ================================================================= *)
(** ** The scene: what [json.loads] returns *)

#[local] Set Warnings "-register-all".

Inductive json : Type :=
| JNull
| JBool (b : bool)
| JInt (n : Z)
| JReal (literal : string)
| JStr (s : string)
| JArr (items : list json)
| JObj (members : list (string * json)).

Fixpoint assoc (k : string) (ms : list (string * json)) : option json :=
  match ms with
  | [] => None
  | (k', v) :: rest => if String.eqb k k' then Some v else assoc k rest
  end.

(** [xs[i]] on a list: negative indices count from the end. *)
Definition py_index {A} (xs : list A) (i : Z) : result A :=
  let n := Z.of_nat (List.length xs) in
  let j := if i <? 0 then i + n else i in
  if (0 <=? j) && (j <? n) then
    match nth_error xs (Z.to_nat j) with
    | Some x => Ok x
    | None => Raise IndexError
    end
  else Raise IndexError.

(** [operator.index]: the integers, and the booleans that are integers. *)
Definition as_index (v : json) : result Z :=
  match v with
  | JInt n => Ok n
  | JBool b => Ok (if b then 1 else 0)
  | _ => Raise TypeError
  end.

(** [c[k]] *)
Definition getitem (c k : json) : result json :=
  match c with
  | JObj ms =>
      match k with
      | JStr s => match assoc s ms with Some v => Ok v | None => Raise KeyError end
      | JArr _ | JObj _ => Raise TypeError
      | _ => Raise KeyError
      end
  | JArr xs => i <- as_index k ;; py_index xs i
  | JStr s =>
      i <- as_index k ;;
      c <- py_index (list_ascii_of_string s) i ;;
      ret (JStr (String c EmptyString))
  | _ => Raise TypeError
  end.

(** [c.get(key, default)] *)
Definition dict_get (c : json) (key : string) (default : json) : result json :=
  match c with
  | JObj ms => Ok (match assoc key ms with Some v => v | None => default end)
  | _ => Raise AttributeError
  end.

(** [len(c)] *)
Definition py_len (c : json) : result Z :=
  match c with
  | JArr xs => Ok (Z.of_nat (List.length xs))
  | JObj ms => Ok (Z.of_nat (List.length ms))
  | JStr s => Ok (Z.of_nat (String.length s))
  | _ => Raise TypeError
  end.

(* ================================================================= *)
(** ** [parse_glb] *)

Section Parser.

(** [json.loads] belongs to Python's library: the parser is stated for any
    decoder of the JSON chunk. *)
Variable json_loads : bytes -> result json.

(** The body of [parse_glb] under [with open(filename, 'rb') as f]. *)
Definition parse_glb_stream : stateful handle (json * bytes) :=
  magic <- read 4 ;;
  if negb (bytes_eqb magic (b_ "glTF")) then
    lift (Raise (ValueError "Not a valid glTF binary file"))
  else
    version <- (b <- read 4 ;; lift (unpack_I b)) ;;
    total_length <- (b <- read 4 ;; lift (unpack_I b)) ;;
    chunk_length <- (b <- read 4 ;; lift (unpack_I b)) ;;
    chunk_type <- read 4 ;;
    if negb (bytes_eqb chunk_type (b_ "JSON")) then
      lift (Raise (ValueError "Expected JSON chunk first"))
    else
      json_data <- read chunk_length ;;
      scene <- lift (json_loads json_data) ;;
      chunk_length <- (b <- read 4 ;; lift (unpack_I b)) ;;
      chunk_type <- read 4 ;;
      if negb (bytes_eqb chunk_type (b_ "BIN" ++ [x00])) then
        lift (Raise (ValueError "Expected BIN chunk"))
      else
        bin_data <- read chunk_length ;;
        ret (scene, bin_data).

End Parser.

(* ================================================================= *)
(** ** Floats *)

(** The arithmetic the normal computation needs, as an interface: numpy
    computes it on binary64 values; the geometric reading of the result is
    the same formula over the real numbers. *)
Class Scalar (F : Type) : Type := {
  s_zero : F;
  s_add : F -> F -> F;
  s_sub : F -> F -> F;
  s_mul : F -> F -> F;
  s_div : F -> F -> F;
  s_sqrt : F -> F;
  s_ltb : F -> F -> bool
}.

Definition float64 : Type := spec_float.

#[export] Instance float64_scalar : Scalar float64 := {
  s_zero := S754_zero false;
  s_add := SFadd 53 1024;
  s_sub := SFsub 53 1024;
  s_mul := SFmul 53 1024;
  s_div := SFdiv 53 1024;
  s_sqrt := SFsqrt 53 1024;
  s_ltb := SFltb
}.

#[export] Instance real_scalar : Scalar R := {
  s_zero := 0%R;
  s_add := Rplus;
  s_sub := Rminus;
  s_mul := Rmult;
  s_div := Rdiv;
  s_sqrt := sqrt;
  s_ltb := fun x y => if Rlt_dec x y then true else false
}.

Definition is_finite (x : float64) : bool :=
  match x with
  | S754_zero _ | S754_finite _ _ _ => true
  | S754_infinity _ | S754_nan => false
  end.

(** The binary64 value of an integer (exact below 2^53). *)
Definition f64_of_Z (n : Z) : float64 := binary_normalize 53 1024 n 0 false.

(** *** The binary32 wire format of [struct]'s ['f'] *)

(** [m * 2^e] for [0 < m < 2^53], with the 53-bit mantissa binary64 keeps. *)
Definition f64_of_dyadic (s : bool) (m e : Z) : float64 :=
  let k := 53 - (Z.log2 m + 1) in
  match m * 2 ^ k with
  | Zpos p => S754_finite s p (e - k)
  | _ => S754_zero s
  end.

(** Decoding a binary32 bit pattern: sign, 8 exponent bits, 23 fraction bits. *)
Definition float_of_bits32 (w : Z) : float64 :=
  let s := Z.testbit w 31 in
  let E := (w / 2 ^ 23) mod 256 in
  let M := w mod 2 ^ 23 in
  if E =? 255 then (if M =? 0 then S754_infinity s else S754_nan)
  else if E =? 0 then (if M =? 0 then S754_zero s else f64_of_dyadic s M (-149))
  else f64_of_dyadic s (2 ^ 23 + M) (E - 150).

(** [n / d] rounded to the nearest integer, ties to even ([d > 0]). *)
Definition round_half_even (n d : Z) : Z :=
  let q := n / d in
  let r := n mod d in
  if 2 * r <? d then q
  else if d <? 2 * r then q + 1
  else if Z.even q then q else q + 1.

Definition sign_bit (s : bool) : Z := if s then 2 ^ 31 else 0.

(** Encoding as binary32, rounding to nearest-even; a finite value that
    rounds beyond the binary32 range is [struct]'s [OverflowError].
    [spec_float] has a single NaN, encoded here as the quiet NaN
    [0x7fc00000]; [struct.pack] keeps the sign and the payload of the NaN it
    is given, which this encoding does not tell apart. *)
Definition bits32_of_float (x : float64) : result Z :=
  match x with
  | S754_zero s => Ok (sign_bit s)
  | S754_infinity s => Ok (sign_bit s + 255 * 2 ^ 23)
  | S754_nan => Ok (255 * 2 ^ 23 + 2 ^ 22)
  | S754_finite s m e =>
      let d := Z.log2 (Zpos m) + 1 in
      let t := Z.max (d + e - 24) (-149) in
      let q := if t <=? e then Zpos m * 2 ^ (e - t)
               else round_half_even (Zpos m) (2 ^ (t - e)) in
      let '(q, t) := if q =? 2 ^ 24 then (2 ^ 23, t + 1) else (q, t) in
      if 104 <? t then Raise OverflowError
      else Ok (sign_bit s + (t + 149) * 2 ^ 23 + q)
  end.

(** [struct.pack('<f', x)] *)
Definition pack_f (x : float64) : result bytes :=
  w <- bits32_of_float x ;; ret (le_encode 4 w).

(** One ['f'] field of [struct.unpack], given its four bytes. *)
Definition unpack_f (b : bytes) : float64 := float_of_bits32 (le_decode b).

Definition vec3 (F : Type) : Type := (F * F * F)%type.

(** [struct.pack('<fff', x, y, z)] *)
Definition pack_fff (v : vec3 float64) : result bytes :=
  let '(x, y, z) := v in
  bx <- pack_f x ;; by_ <- pack_f y ;; bz <- pack_f z ;;
  ret (bx ++ by_ ++ bz).

(** [struct.unpack('<fff', b)] *)
Definition unpack_fff (b : bytes) : result (vec3 float64) :=
  if (List.length b =? 12)%nat then
    Ok (unpack_f (firstn 4 b), unpack_f (firstn 4 (skipn 4 b)),
        unpack_f (firstn 4 (skipn 8 b)))
  else Raise StructError.

(** [struct.unpack('<III', b)] *)
Definition unpack_III (b : bytes) : result (Z * Z * Z) :=
  if (List.length b =? 12)%nat then
    Ok (le_decode (firstn 4 b), le_decode (firstn 4 (skipn 4 b)),
        le_decode (firstn 4 (skipn 8 b)))
  else Raise StructError.

(** [struct.unpack('f' * n, b)]: native byte order, here a little-endian
    host; the buffer must hold exactly [4 * n] bytes. *)
Fixpoint unpack_floats (n : nat) (b : bytes) : list float64 :=
  match n with
  | O => []
  | S n' => unpack_f (firstn 4 b) :: unpack_floats n' (skipn 4 b)
  end.

Definition unpack_f_times (n : Z) (b : bytes) : result (list float64) :=
  if Z.of_nat (List.length b) =? 4 * n then Ok (unpack_floats (Z.to_nat n) b)
  else Raise StructError.

(* ================================================================= *)
(** ** The normal of a face *)

Section Normal.

Context {F : Type} `{Scalar F}.

#[local] Infix "+" := s_add.
#[local] Infix "-" := s_sub.
#[local] Infix "*" := s_mul.

(** [v1 - v0] on two rows of the vertex array. *)
Definition vsub (a b : vec3 F) : vec3 F :=
  let '(a0, a1, a2) := a in
  let '(b0, b1, b2) := b in
  (a0 - b0, a1 - b1, a2 - b2).

Definition cross (u v : vec3 F) : vec3 F :=
  let '(u0, u1, u2) := u in
  let '(v0, v1, v2) := v in
  (u1 * v2 - u2 * v1, u2 * v0 - u0 * v2, u0 * v1 - u1 * v0).

(** [np.linalg.norm] of a vector of three: the root of its dot product
    with itself.  Each product and each sum is rounded on its own; a numpy
    build that fuses the multiplications and additions of the dot product
    can give a norm, and so a normal, that differs in its last bit. *)
Definition linalg_norm (n : vec3 F) : F :=
  let '(n0, n1, n2) := n in
  s_sqrt (n0 * n0 + n1 * n1 + n2 * n2).

(** [normal / norm] *)
Definition vdiv (n : vec3 F) (d : F) : vec3 F :=
  let '(n0, n1, n2) := n in
  (s_div n0 d, s_div n1 d, s_div n2 d).

(** Lines 100-116 of [write_stl_binary], repeated at 138-148 of
    [write_stl_ascii]. *)
Definition face_normal (v0 v1 v2 : vec3 F) : vec3 F :=
  let u := vsub v1 v0 in
  let v := vsub v2 v0 in
  let normal := cross u v in
  let norm := linalg_norm normal in
  if s_ltb s_zero norm then vdiv normal norm else normal.

(** The normal as section 4.3 of the specification words it: the unit
    vector along [edge1 x edge2], or the zero vector. *)
Definition NormalComputer (v0 v1 v2 : vec3 F) : vec3 F :=
  let '(e1x, e1y, e1z) := vsub v1 v0 in
  let '(e2x, e2y, e2z) := vsub v2 v0 in
  let nx := e1y * e2z - e1z * e2y in
  let ny := e1z * e2x - e1x * e2z in
  let nz := e1x * e2y - e1y * e2x in
  let magnitude := s_sqrt (nx * nx + ny * ny + nz * nz) in
  if s_ltb s_zero magnitude
  then (s_div nx magnitude, s_div ny magnitude, s_div nz magnitude)
  else (s_zero, s_zero, s_zero).

End Normal.

(* ================================================================= *)
(** ** [extract_mesh_from_glb] *)

Definition vertex : Type := vec3 float64.
Definition face : Type := (Z * Z * Z)%type.

(** [base + k] used as a slice bound: an integer, or [TypeError]. *)
Definition offset_plus (base : json) (k : Z) : result Z :=
  b <- as_index base ;; ret (b + k).

(** Lines 56-62: the accessors of the first primitive of the first mesh
    and their buffer views. *)
Definition find_mesh_data (scene : json) : result (json * json * json * json) :=
  meshes <- getitem scene (JStr "meshes") ;;
  mesh <- getitem meshes (JInt 0) ;;
  primitives <- getitem mesh (JStr "primitives") ;;
  mesh_idx <- getitem primitives (JInt 0) ;;
  accessors <- getitem scene (JStr "accessors") ;;
  attributes <- getitem mesh_idx (JStr "attributes") ;;
  position <- getitem attributes (JStr "POSITION") ;;
  positions_accessor <- getitem accessors position ;;
  accessors <- getitem scene (JStr "accessors") ;;
  indices <- getitem mesh_idx (JStr "indices") ;;
  indices_accessor <- getitem accessors indices ;;
  views <- getitem scene (JStr "bufferViews") ;;
  view <- getitem positions_accessor (JStr "bufferView") ;;
  positions_view <- getitem views view ;;
  views <- getitem scene (JStr "bufferViews") ;;
  view <- getitem indices_accessor (JStr "bufferView") ;;
  indices_view <- getitem views view ;;
  ret (positions_accessor, indices_accessor, positions_view, indices_view).

(** Lines 69-73: the loop over [range(pos_count)]. *)
Definition read_vertices (bin_data : bytes) (pos_offset pos_count : json)
  : result (list vertex) :=
  stop <- as_index pos_count ;;
  for_each (fun i =>
      offset <- offset_plus pos_offset (i * 12) ;;
      unpack_fff (py_slice bin_data offset (offset + 12)))
    (py_range 0 stop 1).

(** Lines 79-83: the loop over [range(0, idx_count, 3)]. *)
Definition read_faces (bin_data : bytes) (idx_offset idx_count : json)
  : result (list face) :=
  stop <- as_index idx_count ;;
  for_each (fun i =>
      offset <- offset_plus idx_offset (i * 4) ;;
      unpack_III (py_slice bin_data offset (offset + 12)))
    (py_range 0 stop 3).

Definition extract_mesh_from_glb (scene : json) (bin_data : bytes)
  : result (list vertex * list face) :=
  (* Find the mesh data, get buffer views *)
  '(positions_accessor, indices_accessor, positions_view, indices_view) <-
    find_mesh_data scene ;;
  (* Extract vertices *)
  pos_offset <- dict_get positions_view "byteOffset" (JInt 0) ;;
  pos_count <- getitem positions_accessor (JStr "count") ;;
  vertices <- read_vertices bin_data pos_offset pos_count ;;
  (* Extract faces (indices) *)
  idx_offset <- dict_get indices_view "byteOffset" (JInt 0) ;;
  idx_count <- getitem indices_accessor (JStr "count") ;;
  faces <- read_faces bin_data idx_offset idx_count ;;
  ret (vertices, faces).

(* ================================================================= *)
(** ** The STL writers *)

(** [f.write(b)] on a file opened for writing: the state is what the file
    holds so far. *)
Definition write (b : bytes) : stateful bytes unit :=
  fun buf => (Ok tt, buf ++ b).

Definition len {A} (xs : list A) : Z := Z.of_nat (List.length xs).

Definition binary_header : bytes :=
  b_ "Converted from glTF/GBL format" ++ zeros 50.

(** [x, y, z = vertices[vertex_idx]; f.write(struct.pack('<fff', x, y, z))] *)
Definition write_vertex (vertices : list vertex) (vertex_idx : Z)
  : stateful bytes unit :=
  v <- lift (py_index vertices vertex_idx) ;;
  p <- lift (pack_fff v) ;;
  write p.

(** Lines 98-127: the body of [for face in faces]. *)
Definition write_face_binary (vertices : list vertex) (face : face)
  : stateful bytes unit :=
  let '(a, b, c) := face in
  (* Calculate face normal *)
  v0 <- lift (py_index vertices a) ;;
  v1 <- lift (py_index vertices b) ;;
  v2 <- lift (py_index vertices c) ;;
  let normal := face_normal v0 v1 v2 in
  (* Write normal *)
  (p <- lift (pack_fff normal) ;; write p) ;;;
  (* Write three vertices *)
  for_each (write_vertex vertices) [a; b; c] ;;;
  (* Attribute byte count *)
  (p <- lift (pack_H 0) ;; write p).

Definition write_stl_binary (vertices : list vertex) (faces : list face)
  : stateful bytes unit :=
  (* Header (80 bytes) *)
  write binary_header ;;;
  (* Number of faces *)
  (n <- lift (pack_I (len faces)) ;; write n) ;;;
  (* Write each face *)
  for_each (write_face_binary vertices) faces ;;;
  ret tt.

(** *** Text output *)

Definition nl : string := String (ascii_of_nat 10) EmptyString.

Definition digit_char (d : Z) : ascii := ascii_of_nat (48 + Z.to_nat d).

Fixpoint decimal_digits (fuel : nat) (n : Z) (acc : string) : string :=
  match fuel with
  | O => acc
  | S fuel' =>
      let acc' := String (digit_char (n mod 10)) acc in
      if n <? 10 then acc' else decimal_digits fuel' (n / 10) acc'
  end.

(** The decimal numeral of a natural number. *)
Definition decimal (n : Z) : string :=
  decimal_digits (S (Z.to_nat (Z.log2 n))) n EmptyString.

(** Exactly [k] decimal digits of [n], the high ones first. *)
Fixpoint fixed_digits (k : nat) (n : Z) (acc : string) : string :=
  match k with
  | O => acc
  | S k' => fixed_digits k' (n / 10) (String (digit_char (n mod 10)) acc)
  end.

(** [format(x, '.6f')]: the exact binary value, correctly rounded (ties to
    even) to six decimals; the non-finite values by name. *)
Definition format_6f (x : float64) : string :=
  match x with
  | S754_nan => "nan"
  | S754_infinity s => (if s then "-inf" else "inf")%string
  | S754_zero s => ((if s then "-" else "") ++ "0.000000")%string
  | S754_finite s m e =>
      let scaled :=
        if 0 <=? e then Zpos m * 2 ^ e * 10 ^ 6
        else round_half_even (Zpos m * 10 ^ 6) (2 ^ (- e)) in
      ((if s then "-" else "") ++ decimal (scaled / 10 ^ 6) ++ "."
         ++ fixed_digits 6 (scaled mod 10 ^ 6) "")%string
  end.

(** [f.write(s)] on a text file. *)
Definition write_text (s : string) : stateful bytes unit := write (b_ s).

Definition normal_line (n : vec3 float64) : string :=
  let '(n0, n1, n2) := n in
  ("facet normal " ++ format_6f n0 ++ " " ++ format_6f n1 ++ " "
     ++ format_6f n2 ++ nl)%string.

Definition vertex_line (v : vertex) : string :=
  let '(x, y, z) := v in
  ("    vertex " ++ format_6f x ++ " " ++ format_6f y ++ " "
     ++ format_6f z ++ nl)%string.

(** Lines 136-158: the body of [for face in faces]. *)
Definition write_face_ascii (vertices : list vertex) (face : face)
  : stateful bytes unit :=
  let '(a, b, c) := face in
  (* Calculate normal *)
  v0 <- lift (py_index vertices a) ;;
  v1 <- lift (py_index vertices b) ;;
  v2 <- lift (py_index vertices c) ;;
  let normal := face_normal v0 v1 v2 in
  write_text (normal_line normal) ;;;
  write_text ("  outer loop" ++ nl) ;;;
  for_each (fun vertex_idx =>
      v <- lift (py_index vertices vertex_idx) ;;
      write_text (vertex_line v))
    [a; b; c] ;;;
  write_text ("  endloop" ++ nl) ;;;
  write_text ("endfacet" ++ nl).

Definition write_stl_ascii (vertices : list vertex) (faces : list face)
  : stateful bytes unit :=
  write_text ("solid glTF_converted" ++ nl) ;;;
  for_each (write_face_ascii vertices) faces ;;;
  write_text ("endsolid glTF_converted" ++ nl).

(* ================================================================= *)
(** ** The file system, [simple_extraction] and [main] *)

Definition filesystem : Type := string -> option bytes.

Definition store (path : string) (data : bytes) (fs : filesystem) : filesystem :=
  fun p => if String.eqb p path then Some data else fs p.

(** [with open(path, 'rb') as f: data = f.read()] *)
Definition read_file (path : string) : stateful filesystem bytes := fun fs =>
  match fs path with
  | Some data => (Ok data, fs)
  | None => (Raise FileNotFoundError, fs)
  end.

(** [with open(path, 'wb') as f: body]: the file is created empty and keeps
    whatever [body] wrote, also when [body] raises. *)
Definition with_open_w {A} (path : string) (body : stateful bytes A)
  : stateful filesystem A := fun fs =>
  let '(r, buf) := body [] in (r, store path buf fs).

Definition fallback_header : bytes := b_ "Simple extraction" ++ zeros 63.

(** Lines 215-232 of [simple_extraction]: the pseudo-vertices and the fan
    over them, or nothing when fewer than three vertices come out. *)
Definition fallback_mesh (data : bytes)
  : result (option (list vertex * list face)) :=
  floats <- unpack_f_times (len data / 4)
              (py_slice data 0 (len data - len data mod 4)) ;;
  (* Group into vertices *)
  vertices <- for_each (fun i =>
      x <- py_index floats i ;;
      y <- py_index floats (i + 1) ;;
      z <- py_index floats (i + 2) ;;
      ret (x, y, z))
    (py_range 0 (len floats - 2) 3) ;;
  if len vertices <? 3 then ret None
  else
    (* Create simple faces (triangle fan) *)
    let faces := map (fun i => (0, i, i + 1)) (py_range 1 (len vertices - 1) 1) in
    let vertices := firstn 100 vertices in
    let faces := firstn 98 faces in
    ret (Some (vertices, faces)).

(** Lines 240-245: the body of [for face in faces]. *)
Definition write_face_fallback (vertices : list vertex) (face : face)
  : stateful bytes unit :=
  let '(a, b, c) := face in
  (* Zero normal *)
  (p <- lift (pack_fff (f64_of_Z 0, f64_of_Z 0, f64_of_Z 0)) ;; write p) ;;;
  for_each (write_vertex vertices) [a; b; c] ;;;
  (p <- lift (pack_H 0) ;; write p).

(** Lines 235-245: the body of [with open(output_file, 'wb') as f]. *)
Definition write_fallback (vertices : list vertex) (faces : list face)
  : stateful bytes unit :=
  write fallback_header ;;;
  (n <- lift (pack_I (len faces)) ;; write n) ;;;
  for_each (write_face_fallback vertices) faces ;;;
  ret tt.

Definition simple_extraction (input_file output_file : string)
  : stateful filesystem unit :=
  data <- read_file input_file ;;
  mesh <- lift (fallback_mesh data) ;;
  match mesh with
  | None => ret tt
  | Some (vertices, faces) =>
      with_open_w output_file (write_fallback vertices faces)
  end.

Section Main.

Variable json_loads : bytes -> result json.

(** [parse_glb(filename)] *)
Definition parse_glb (filename : string) : stateful filesystem (json * bytes) :=
  data <- read_file filename ;;
  lift (fst (parse_glb_stream json_loads (open_rb data))).

(** [vertices[:,k].min()] and [.max()] in the bounds report: the column
    exists once the array has a row. *)
Definition vertex_bounds (vertices : list vertex) : result unit :=
  match vertices with
  | [] => Raise IndexError
  | _ :: _ => Ok tt
  end.

(** The body of [main]'s [try]. *)
Definition convert (input_file output_file : string) (use_ascii : bool)
  : stateful filesystem unit :=
  '(scene, bin_data) <- parse_glb input_file ;;
  meshes <- lift (dict_get scene "meshes" (JArr [])) ;;
  lift (py_len meshes) ;;;
  '(vertices, faces) <- lift (extract_mesh_from_glb scene bin_data) ;;
  lift (vertex_bounds vertices) ;;;
  if use_ascii
  then with_open_w output_file (write_stl_ascii vertices faces)
  else with_open_w output_file (write_stl_binary vertices faces).

(** [main] once the two paths and the [--ascii] flag are read from the
    command line: any exception of the conversion hands over to
    [simple_extraction]. *)
Definition main (input_file output_file : string) (use_ascii : bool)
  : stateful filesystem unit := fun fs =>
  match convert input_file output_file use_ascii fs with
  | (Ok tt, fs') => (Ok tt, fs')
  | (Raise e, fs') => simple_extraction input_file output_file fs'
  end.

End Main.

(* ================================================================= *)
(** * Vocabulary of the statements and sample inputs *)

Definition member (key : string) (value : json) : string * json := (key, value).

(** A scene with one mesh of one primitive: accessor 0 holds the positions
    at the start of the payload, accessor 1 the indices at [idx_offset]. *)
Definition sample_scene (pos_count idx_offset idx_count : Z) : json :=
  JObj [member "meshes" (JArr [JObj [member "primitives" (JArr [JObj
           [member "attributes" (JObj [member "POSITION" (JInt 0)]);
            member "indices" (JInt 1)]])]]);
        member "accessors" (JArr
           [JObj [member "bufferView" (JInt 0); member "count" (JInt pos_count)];
            JObj [member "bufferView" (JInt 1); member "count" (JInt idx_count)]]);
        member "bufferViews" (JArr
           [JObj []; JObj [member "byteOffset" (JInt idx_offset)]])].

(** Words of four bytes, little-endian, one after the other. *)
Definition words (ws : list Z) : bytes := List.concat (map (le_encode 4) ws).

Definition f32_one : Z := 1065353216.

(** The positions (0,0,0), (1,0,0), (0,1,0), then some indices. *)
Definition sample_payload (indices : list Z) : bytes :=
  words [0; 0; 0; f32_one; 0; 0; 0; f32_one; 0] ++ words indices.

(** A container around a payload; the JSON chunk is left to the decoder. *)
Definition sample_glb (bin_data : bytes) : bytes :=
  b_ "glTF" ++ le_encode 4 2 ++ le_encode 4 (30 + len bin_data)
  ++ le_encode 4 2 ++ b_ "JSON" ++ b_ "{}"
  ++ le_encode 4 (len bin_data) ++ b_ "BIN" ++ [x00] ++ bin_data.

Definition sample_fs (data : bytes) : filesystem :=
  store "model.glb" data (fun _ => None).

Definition f64_one : float64 := f64_of_Z 1.
Definition f64_zero : float64 := f64_of_Z 0.

(** [x] is a value [struct.pack('<f', x)] accepts. *)
Definition fits_binary32 (x : float64) : bool := is_ok (bits32_of_float x).

Definition vec_fits (v : vec3 float64) : bool :=
  let '(x, y, z) := v in
  fits_binary32 x && fits_binary32 y && fits_binary32 z.

(** Row [i] of the vertex array, for an index within it. *)
Definition vertex_at (vertices : list vertex) (i : Z) : vertex :=
  nth (Z.to_nat i) vertices (f64_zero, f64_zero, f64_zero).

Definition in_range (vertices : list vertex) (i : Z) : Prop :=
  0 <= i < len vertices.

Definition face_in_range (vertices : list vertex) (f : face) : Prop :=
  let '(a, b, c) := f in
  in_range vertices a /\ in_range vertices b /\ in_range vertices c.

(** A face the binary writer can encode: its indices lie within the vertex
    array (the invariant of the data model) and the numbers handed to
    [struct.pack] are within the binary32 range. *)
Definition writable (vertices : list vertex) (f : face) : Prop :=
  let '(a, b, c) := f in
  in_range vertices a /\ in_range vertices b /\ in_range vertices c
  /\ vec_fits (face_normal (vertex_at vertices a) (vertex_at vertices b)
                 (vertex_at vertices c)) = true
  /\ vec_fits (vertex_at vertices a) = true
  /\ vec_fits (vertex_at vertices b) = true
  /\ vec_fits (vertex_at vertices c) = true.

(** The record of one triangle as section 4.4 lays it out: the normal
    [normal_of v0 v1 v2] of the three vertices looked up, those vertices in
    the order [a], [b], [c], then the attribute byte count 0. *)
Definition stl_record (vertices : list vertex)
    (normal_of : vertex -> vertex -> vertex -> vec3 float64)
    (f : face) (rec : bytes) : Prop :=
  let '(a, b, c) := f in
  exists v0 v1 v2 n p0 p1 p2,
    py_index vertices a = Ok v0
    /\ py_index vertices b = Ok v1
    /\ py_index vertices c = Ok v2
    /\ pack_fff (normal_of v0 v1 v2) = Ok n
    /\ pack_fff v0 = Ok p0
    /\ pack_fff v1 = Ok p1
    /\ pack_fff v2 = Ok p2
    /\ rec = n ++ (p0 ++ p1 ++ p2) ++ le_encode 2 0
    /\ List.length n = 12%nat
    /\ List.length (p0 ++ p1 ++ p2) = 36%nat
    /\ List.length (le_encode 2 0) = 2%nat.

(** The records of the binary writer carry the computed normal. *)
Definition binary_record (vertices : list vertex) : face -> bytes -> Prop :=
  stl_record vertices face_normal.

Definition zero_vector : vec3 float64 := (f64_zero, f64_zero, f64_zero).

(** The records of the fallback carry the zero vector. *)
Definition fallback_record (vertices : list vertex) : face -> bytes -> Prop :=
  stl_record vertices (fun _ _ _ => zero_vector).

Definition finite3 (v : vec3 float64) : bool :=
  let '(x, y, z) := v in is_finite x && is_finite y && is_finite z.

Definition is_zero (x : float64) : bool :=
  match x with S754_zero _ => true | _ => false end.

(** A vector whose three components are zeros. *)
Definition is_zero3 (v : vec3 float64) : bool :=
  let '(x, y, z) := v in is_zero x && is_zero y && is_zero z.

(** The fallback's reading of a file: float [j] is the word at byte [4 j],
    pseudo-vertex [k] the three floats from byte [12 k] on, as many as whole
    groups of twelve bytes fit. *)
Definition float_at (data : bytes) (j : nat) : float64 :=
  unpack_f (firstn 4 (skipn (4 * j) data)).

Definition pseudo_vertex (data : bytes) (k : nat) : vertex :=
  (float_at data (3 * k), float_at data (3 * k + 1), float_at data (3 * k + 2)).

Definition pseudo_vertices (data : bytes) : list vertex :=
  map (pseudo_vertex data) (seq 0 (List.length data / 12)).

(** The triangle fan over [n] vertices: (0, i, i+1) for i in [1, n-1). *)
Definition fan (n : Z) : list face :=
  map (fun i => (0, i, i + 1)) (py_range 1 (n - 1) 1).

(** The binary32 patterns of the NaNs. *)
Definition nan_bits (w : Z) : bool :=
  ((w / 2 ^ 23) mod 256 =? 255) && negb (w mod 2 ^ 23 =? 0).

(** The binary64 value nearest to 0.000001. *)
Definition f64_millionth : float64 :=
  SFdiv 53 1024 (f64_of_Z 1) (f64_of_Z 1000000).

Definition is_digit (c : ascii) : bool :=
  let n := nat_of_ascii c in ((48 <=? n) && (n <=? 57))%nat.

Fixpoint all_digits (s : string) : bool :=
  match s with
  | EmptyString => true
  | String c rest => is_digit c && all_digits rest
  end.

(** The number a string of decimal digits denotes, after the digits [acc]. *)
Fixpoint digits_value (s : string) (acc : Z) : Z :=
  match s with
  | EmptyString => acc
  | String c rest =>
      digits_value rest (10 * acc + (Z.of_nat (nat_of_ascii c) - 48))
  end.

(** The text before the first point, and the text after it. *)
Fixpoint split_at_point (s : string) : option (string * string) :=
  match s with
  | EmptyString => None
  | String c rest =>
      if Ascii.eqb c "." then Some (EmptyString, rest)
      else match split_at_point rest with
           | Some (before, after) => Some (String c before, after)
           | None => None
           end
  end.

Definition strip_minus (s : string) : string :=
  match s with
  | String c rest => if Ascii.eqb c "-" then rest else s
  | EmptyString => s
  end.

(** Fixed-point notation with six decimals: an optional minus sign, one
    digit or more, a point, exactly six digits, and nothing else (so no
    exponent). *)
Definition is_fixed6 (s : string) : bool :=
  match split_at_point (strip_minus s) with
  | Some (int_part, frac_part) =>
      negb (String.eqb int_part EmptyString) && all_digits int_part
      && (String.length frac_part =? 6)%nat && all_digits frac_part
  | None => false
  end.

(** The text of one facet as section 4.4 lists its lines. *)
Definition facet_text (vertices : list vertex) (f : face) : string :=
  let '(a, b, c) := f in
  (normal_line (face_normal (vertex_at vertices a) (vertex_at vertices b)
                  (vertex_at vertices c))
   ++ ("  outer loop" ++ nl)
   ++ vertex_line (vertex_at vertices a)
   ++ vertex_line (vertex_at vertices b)
   ++ vertex_line (vertex_at vertices c)
   ++ ("  endloop" ++ nl)
   ++ ("endfacet" ++ nl))%string.

Definition join (lines : list string) : string :=
  fold_right String.append EmptyString lines.

Definition ascii_text (vertices : list vertex) (faces : list face) : string :=
  (("solid glTF_converted" ++ nl)
   ++ join (map (facet_text vertices) faces)
   ++ ("endsolid glTF_converted" ++ nl))%string.

(** ** Vocabulary of the further properties *)

(** What [parse_glb] computes, read off the bytes of the file: each field
    at its offset, the second chunk where the first one ends. *)
Definition parse_glb_bytes (json_loads : bytes -> result json) (data : bytes)
  : result (json * bytes) :=
  if negb (bytes_eqb (firstn 4 data) (b_ "glTF")) then
    Raise (ValueError "Not a valid glTF binary file")
  else
    version <- unpack_I (firstn 4 (skipn 4 data)) ;;
    total_length <- unpack_I (firstn 4 (skipn 8 data)) ;;
    chunk_length <- unpack_I (firstn 4 (skipn 12 data)) ;;
    if negb (bytes_eqb (firstn 4 (skipn 16 data)) (b_ "JSON")) then
      Raise (ValueError "Expected JSON chunk first")
    else
      let json_data := firstn (Z.to_nat chunk_length) (skipn 20 data) in
      let after := (20 + List.length json_data)%nat in
      scene <- json_loads json_data ;;
      chunk_length <- unpack_I (firstn 4 (skipn after data)) ;;
      if negb (bytes_eqb (firstn 4 (skipn (after + 4) data)) (b_ "BIN" ++ [x00])) then
        Raise (ValueError "Expected BIN chunk")
      else
        Ok (scene, firstn (Z.to_nat chunk_length) (skipn (after + 8) data)).

(** The twelve-byte header with any version and total length. *)
Definition glb_header (version total : Z) : bytes :=
  b_ "glTF" ++ le_encode 4 version ++ le_encode 4 total.

(** A file up to the end of its JSON chunk. *)
Definition glb_json_part (version total : Z) (json_data : bytes) : bytes :=
  glb_header version total
  ++ le_encode 4 (len json_data) ++ b_ "JSON" ++ json_data.

(** A whole container: the binary chunk declares [bin_length] bytes and
    [rest] is everything that follows its header. *)
Definition glb_container (version total : Z) (json_data : bytes)
    (bin_length : Z) (rest : bytes) : bytes :=
  glb_json_part version total json_data
  ++ le_encode 4 bin_length ++ (b_ "BIN" ++ [x00]) ++ rest.

(** The twelve bytes of the payload from [offset] on. *)
Definition chunk12 (bin_data : bytes) (offset : Z) : bytes :=
  firstn 12 (skipn (Z.to_nat offset) bin_data).

(** Twelve bytes read as three binary32 floats, and as three unsigned
    32-bit integers. *)
Definition floats3 (b : bytes) : vertex :=
  (unpack_f (firstn 4 b), unpack_f (firstn 4 (skipn 4 b)),
   unpack_f (firstn 4 (skipn 8 b))).

Definition words3 (b : bytes) : face :=
  (le_decode (firstn 4 b), le_decode (firstn 4 (skipn 4 b)),
   le_decode (firstn 4 (skipn 8 b))).

(** [count] consecutive groups of twelve bytes from [offset] on. *)
Definition decoded_vertices (bin_data : bytes) (offset count : Z) : list vertex :=
  map (fun k => floats3 (chunk12 bin_data (offset + 12 * Z.of_nat k)))
      (seq 0 (Z.to_nat count)).

Definition decoded_faces (bin_data : bytes) (offset count : Z) : list face :=
  map (fun k => words3 (chunk12 bin_data (offset + 12 * Z.of_nat k)))
      (seq 0 (Z.to_nat count)).

(** Line 56: the first primitive of the first mesh. *)
Definition first_primitive (scene : json) : result json :=
  meshes <- getitem scene (JStr "meshes") ;;
  mesh <- getitem meshes (JInt 0) ;;
  primitives <- getitem mesh (JStr "primitives") ;;
  getitem primitives (JInt 0).

(** Lines 177 and 181 of [main]: the mesh the bytes of a file decode to. *)
Definition decode_glb (json_loads : bytes -> result json) (data : bytes)
  : result (list vertex * list face) :=
  '(scene, bin_data) <- fst (parse_glb_stream json_loads (open_rb data)) ;;
  extract_mesh_from_glb scene bin_data.

(** None of the three words of twelve bytes is a NaN pattern. *)
Definition no_nan3 (b : bytes) : bool :=
  negb (nan_bits (le_decode (firstn 4 b)))
  && negb (nan_bits (le_decode (firstn 4 (skipn 4 b))))
  && negb (nan_bits (le_decode (firstn 4 (skipn 8 b)))).

(** The positions of [sample_payload], decoded. *)
Definition sample_vertices : list vertex :=
  [(f64_zero, f64_zero, f64_zero); (f64_one, f64_zero, f64_zero);
   (f64_zero, f64_one, f64_zero)].

(** The dot product and the opposite of a vector, in exact arithmetic. *)
Definition dot (u v : vec3 R) : R :=
  let '(u0, u1, u2) := u in
  let '(v0, v1, v2) := v in
  (u0 * v0 + u1 * v1 + u2 * v2)%R.

Definition vneg (u : vec3 R) : vec3 R :=
  let '(u0, u1, u2) := u in (- u0, - u1, - u2)%R.

(** A value an unsigned 32-bit field holds, and a face of three of them. *)
Definition index_word (i : Z) : Prop := 0 <= i < 2 ^ 32.

Definition face_words (f : face) : Prop :=
  let '(a, b, c) := f in index_word a /\ index_word b /\ index_word c.

(** The binary32 word of plus infinity, and a payload whose second
    position has it as first coordinate. *)
Definition f32_inf : Z := 255 * 2 ^ 23.

Definition inf_payload : bytes :=
  words [0; 0; 0; f32_inf; 0; 0; 0; f32_one; 0] ++ words [0; 1; 2].

Definition inf_vertices : list vertex :=
  [(f64_zero, f64_zero, f64_zero); (S754_infinity false, f64_zero, f64_zero);
   (f64_zero, f64_one, f64_zero)].

(** ** [main] with the failure of [open] kept *)

Section OpenForWriting.

(** [open(path, 'wb')] and [open(path, 'w')] raise on a path that cannot be
    opened for writing (a directory that does not exist, a permission
    refused): [open_error path] is the exception raised there, [None] where
    the path opens. *)
Variable open_error : string -> option exn.

Variable json_loads : bytes -> result json.

(** [with open(path, 'wb') as f: body] *)
Definition open_w {A} (path : string) (body : stateful bytes A)
  : stateful filesystem A := fun fs =>
  match open_error path with
  | Some e => (Raise e, fs)
  | None => with_open_w path body fs
  end.

(** [simple_extraction], lines 204-247. *)
Definition simple_extraction_io (input_file output_file : string)
  : stateful filesystem unit :=
  data <- read_file input_file ;;
  mesh <- lift (fallback_mesh data) ;;
  match mesh with
  | None => ret tt
  | Some (vertices, faces) =>
      open_w output_file (write_fallback vertices faces)
  end.

(** The body of [main]'s [try], lines 176-193. *)
Definition convert_io (input_file output_file : string) (use_ascii : bool)
  : stateful filesystem unit :=
  '(scene, bin_data) <- parse_glb json_loads input_file ;;
  meshes <- lift (dict_get scene "meshes" (JArr [])) ;;
  lift (py_len meshes) ;;;
  '(vertices, faces) <- lift (extract_mesh_from_glb scene bin_data) ;;
  lift (vertex_bounds vertices) ;;;
  if use_ascii
  then open_w output_file (write_stl_ascii vertices faces)
  else open_w output_file (write_stl_binary vertices faces).

(** [main], lines 175-202: the handler catches what the [try] raises, and
    nothing catches what the fallback raises. *)
Definition main_io (input_file output_file : string) (use_ascii : bool)
  : stateful filesystem unit := fun fs =>
  match convert_io input_file output_file use_ascii fs with
  | (Ok tt, fs') => (Ok tt, fs')
  | (Raise e, fs') => simple_extraction_io input_file output_file fs'
  end.

End OpenForWriting.

(** A directory that does not exist: nothing under it opens for writing. *)
Definition missing_directory (path : string) : option exn :=
  if String.prefix "missing/" path then Some FileNotFoundError else None.

(* ================================================================= *)
(** * Properties *)

(** ** Bytes and integers on the wire *)

Lemma le_encode_length (n : nat) (z : Z) : List.length (le_encode n z) = n.
Proof.
  revert z; induction n as [|n IH]; intros z; simpl; [reflexivity|].
  now rewrite IH.
Qed.

Lemma Z_of_byte_of_Z (z : Z) : Z_of_byte (byte_of_Z z) = z mod 256.
Proof.
  unfold Z_of_byte, byte_of_Z.
  assert (Hr : 0 <= z mod 256 < 256) by (apply Z.mod_pos_bound; lia).
  destruct (Byte.of_N (Z.to_N (z mod 256))) as [b|] eqn:E.
  - apply Byte.to_of_N in E. rewrite E. lia.
  - apply Byte.of_N_None_iff in E. lia.
Qed.

Lemma le_decode_encode (n : nat) (z : Z) :
  le_decode (le_encode n z) = z mod 256 ^ Z.of_nat n.
Proof.
  revert z; induction n as [|n IH]; intros z.
  - simpl. now rewrite Z.mod_1_r.
  - cbn [le_encode le_decode]. rewrite Z_of_byte_of_Z, IH.
    rewrite Nat2Z.inj_succ, Z.pow_succ_r by lia.
    rewrite Z.rem_mul_r by lia. reflexivity.
Qed.

Lemma pack_I_ok (n : Z) : 0 <= n < 2 ^ 32 -> pack_I n = Ok (le_encode 4 n).
Proof.
  intros [H0 H1]. unfold pack_I.
  destruct (Z.leb_spec 0 n); [|lia].
  destruct (Z.ltb_spec n (2 ^ 32)); [reflexivity|lia].
Qed.

Lemma pack_f_length (x : float64) (b : bytes) :
  pack_f x = Ok b -> List.length b = 4%nat.
Proof.
  unfold pack_f. destruct (bits32_of_float x); simpl; [|discriminate].
  intros [= <-]. reflexivity.
Qed.

Lemma pack_fff_length (v : vec3 float64) (b : bytes) :
  pack_fff v = Ok b -> List.length b = 12%nat.
Proof.
  destruct v as [[x y] z]. unfold pack_fff.
  destruct (pack_f x) eqn:Ex; simpl; [|discriminate].
  destruct (pack_f y) eqn:Ey; simpl; [|discriminate].
  destruct (pack_f z) eqn:Ez; simpl; [|discriminate].
  intros [= <-]. rewrite !length_app.
  now rewrite (pack_f_length _ _ Ex), (pack_f_length _ _ Ey), (pack_f_length _ _ Ez).
Qed.

Example pack_f_one : pack_f (f64_of_Z 1) = Ok [x00; x00; x80; x3f].
Proof. reflexivity. Qed.

Example unpack_f_one : unpack_f [x00; x00; x80; x3f] = f64_of_Z 1.
Proof. reflexivity. Qed.

Example pack_f_overflow :
  pack_f (S754_finite false 4503599627370496 76) = Raise OverflowError.
Proof. reflexivity. Qed.

Lemma bytes_eqb_false (a b : bytes) : a <> b -> bytes_eqb a b = false.
Proof.
  intros H. unfold bytes_eqb. now destruct (list_eq_dec Byte.byte_eq_dec a b).
Qed.

(** ** Loops *)

Lemma py_range_unit (stop i : Z) : In i (py_range 0 stop 1) <-> 0 <= i < stop.
Proof.
  unfold py_range. rewrite in_map_iff. split.
  - intros (k & <- & Hk). apply in_seq in Hk.
    replace ((stop - 0 + 1 - 1) / 1) with stop in Hk by (rewrite Z.div_1_r; lia).
    lia.
  - intros H. exists (Z.to_nat i). split; [lia|].
    apply in_seq. replace ((stop - 0 + 1 - 1) / 1) with stop by (rewrite Z.div_1_r; lia).
    lia.
Qed.

(** A loop whose body raises only [e], and does raise it at some element,
    raises [e]. *)
Lemma for_each_raise {A B} (body : A -> result B) (e : exn) (xs : list A) (x : A) :
  In x xs -> body x = Raise e ->
  (forall y e', In y xs -> body y = Raise e' -> e' = e) ->
  for_each body xs = Raise e.
Proof.
  induction xs as [|y ys IH]; intros Hin Hx Honly; [contradiction|].
  cbn [for_each bind result_monad].
  destruct (body y) as [r|e'] eqn:Ey.
  - destruct Hin as [->|Hin]; [congruence|].
    rewrite IH; auto. intros z e'' Hz. apply Honly. now right.
  - f_equal. apply (Honly y); [now left|assumption].
Qed.

(** A loop over a state raises as soon as it reaches an element on which
    the body raises whatever the state. *)
Lemma for_each_stateful_raise {S A B} (body : A -> stateful S B) (xs : list A) (x : A) :
  In x xs -> (forall s, exists e s', body x s = (Raise e, s')) ->
  forall s, exists e s', for_each body xs s = (Raise e, s').
Proof.
  induction xs as [|y ys IH]; intros Hin Hx s; [contradiction|].
  cbn [for_each bind stateful_monad].
  destruct (body y s) as [[r|e'] s1] eqn:Ey.
  - destruct Hin as [->|Hin].
    + destruct (Hx s) as (e & s' & E). congruence.
    + destruct (IH Hin Hx s1) as (e & s' & E). rewrite E. eauto.
  - eauto.
Qed.

(* ================================================================= *)
(** ** The chunk parser *)

(** C6: a file whose first four bytes are not the magic tag makes the parser
    raise its format error ([ValueError]) once those bytes are read: the
    read position is still within the first four bytes, short of every
    chunk header, and the JSON decoder has no part in the result. *)
Theorem parse_glb_rejects_bad_magic
    (json_loads : bytes -> result json) (data : bytes) :
  firstn 4 data <> b_ "glTF" ->
  parse_glb_stream json_loads (open_rb data)
  = (Raise (ValueError "Not a valid glTF binary file"),
     {| content := data; pos := Nat.min 4 (List.length data) |}).
Proof.
  intros Hmagic. unfold parse_glb_stream, open_rb.
  cbn [bind stateful_monad read content pos skipn Z.to_nat Nat.add].
  change (Pos.to_nat 4) with 4%nat.
  rewrite (bytes_eqb_false _ _ Hmagic). cbn [negb lift].
  rewrite length_firstn. reflexivity.
Qed.

Lemma parse_glb_rejects_bad_magic_witness :
  parse_glb_stream (fun _ => Ok JNull) (open_rb (b_ "glTX...."))
  = (Raise (ValueError "Not a valid glTF binary file"),
     {| content := b_ "glTX...."; pos := 4 |}).
Proof.
  apply (parse_glb_rejects_bad_magic (fun _ => Ok JNull) (b_ "glTX....")).
  vm_compute. discriminate.
Defined.

(* ================================================================= *)
(** ** The index buffer *)

Lemma for_each_length {A B} (body : A -> result B) (xs : list A) (ys : list B) :
  for_each body xs = Ok ys -> List.length ys = List.length xs.
Proof.
  revert ys; induction xs as [|x xs IH]; intros ys; cbn [for_each bind result_monad ret].
  - intros [= <-]. reflexivity.
  - destruct (body x); [|discriminate].
    destruct (for_each body xs); [|discriminate].
    intros [= <-]. simpl. f_equal. now apply IH.
Qed.

(** The face loop runs once per started group of three: it decodes
    [ceil(idx_count / 3)] triangles whenever it completes. *)
Lemma read_faces_length (bin_data : bytes) (idx_offset : json) (idx_count : Z)
    (faces : list face) :
  read_faces bin_data idx_offset (JInt idx_count) = Ok faces ->
  0 <= idx_count -> len faces = (idx_count + 2) / 3.
Proof.
  unfold read_faces. cbn [as_index bind result_monad].
  intros E Hc. apply for_each_length in E. unfold len. rewrite E.
  unfold py_range. rewrite length_map, length_seq.
  replace (idx_count - 0 + 3 - 1) with (idx_count + 2) by lia.
  apply Z2Nat.id. apply Z.div_pos; lia.
Qed.

(** C1: the face loop decodes [ceil(idx_count / 3)] triangles whenever it
    completes, not [floor(idx_count / 3)]. On a payload of three positions
    and twelve indices whose accessor declares ten of them, the extractor
    returns four triangles, the last one made of the tenth index and of the
    two indices past the declared count; when the payload ends with the
    tenth index the extraction fails instead. Neither run yields the three
    triangles of the claim. *)
Theorem ten_indices_decode_four_triangles :
  (forall bin_data idx_offset idx_count faces,
      read_faces bin_data idx_offset (JInt idx_count) = Ok faces ->
      0 <= idx_count -> len faces = (idx_count + 2) / 3)
  /\ extract_mesh_from_glb (sample_scene 3 36 10)
       (sample_payload [0; 1; 2; 2; 1; 0; 0; 2; 1; 1; 0; 2])
     = Ok ([(f64_zero, f64_zero, f64_zero);
            (f64_one, f64_zero, f64_zero);
            (f64_zero, f64_one, f64_zero)],
           [(0, 1, 2); (2, 1, 0); (0, 2, 1); (1, 0, 2)])
  /\ extract_mesh_from_glb (sample_scene 3 36 10)
       (sample_payload [0; 1; 2; 2; 1; 0; 0; 2; 1; 1])
     = Raise StructError.
Proof.
  split; [exact read_faces_length|].
  split; vm_compute; reflexivity.
Qed.

(* ================================================================= *)
(** ** Failures of the conversion and the fallback *)

(** A twelve-byte slice that would end past the payload is short. *)
Lemma py_slice_short (b : bytes) (start : Z) :
  len b < start + 12 ->
  (List.length (py_slice b start (start + 12)) < 12)%nat.
Proof.
  unfold py_slice, len, slice_bound. intros H.
  rewrite length_firstn, length_skipn.
  set (n := Z.of_nat (List.length b)) in *.
  assert (Hn : 0 <= n) by (unfold n; lia).
  destruct (Z.ltb_spec (start + 12) 0); [lia|].
  destruct (Z.ltb_spec start 0); lia.
Qed.

Lemma unpack_fff_short (b : bytes) :
  (List.length b < 12)%nat -> unpack_fff b = Raise StructError.
Proof.
  intros H. unfold unpack_fff.
  destruct (Nat.eqb_spec (List.length b) 12); [lia|reflexivity].
Qed.

Lemma unpack_fff_raises (b : bytes) (e : exn) :
  unpack_fff b = Raise e -> e = StructError.
Proof.
  unfold unpack_fff. destruct (List.length b =? 12)%nat; congruence.
Qed.

Lemma read_vertices_overrun (bin_data : bytes) (off count i : Z) :
  0 <= i < count -> len bin_data < off + i * 12 + 12 ->
  read_vertices bin_data (JInt off) (JInt count) = Raise StructError.
Proof.
  intros Hi Hlen. unfold read_vertices. cbn [as_index bind result_monad].
  apply for_each_raise with (x := i).
  - now apply py_range_unit.
  - cbn [offset_plus as_index bind result_monad ret].
    apply unpack_fff_short, py_slice_short. lia.
  - intros y e' _. cbn [offset_plus as_index bind result_monad ret].
    intros E. now apply unpack_fff_raises in E.
Qed.

Lemma read_file_state (path : string) (fs fs' : filesystem) (r : result bytes) :
  read_file path fs = (r, fs') -> fs' = fs.
Proof.
  unfold read_file. destruct (fs path); now intros [= _ <-].
Qed.

Lemma parse_glb_state (json_loads : bytes -> result json) (path : string)
    (fs fs' : filesystem) (r : result (json * bytes)) :
  parse_glb json_loads path fs = (r, fs') -> fs' = fs.
Proof.
  unfold parse_glb, read_file. cbn [bind stateful_monad].
  destruct (fs path); cbn [lift]; now intros [= _ <-].
Qed.

(** What [main] does with a conversion that raised. *)
Lemma main_fallback (json_loads : bytes -> result json)
    (input_file output_file : string) (use_ascii : bool)
    (fs fs' : filesystem) (e : exn) :
  convert json_loads input_file output_file use_ascii fs = (Raise e, fs') ->
  main json_loads input_file output_file use_ascii fs
  = simple_extraction input_file output_file fs'.
Proof.
  intros E. unfold main. now rewrite E.
Qed.

(** A conversion whose extraction raises fails before any file is written. *)
Lemma convert_extract_raise (json_loads : bytes -> result json)
    (input_file output_file : string) (use_ascii : bool) (fs : filesystem)
    (scene : json) (bin_data : bytes) (e : exn) :
  parse_glb json_loads input_file fs = (Ok (scene, bin_data), fs) ->
  extract_mesh_from_glb scene bin_data = Raise e ->
  exists e', convert json_loads input_file output_file use_ascii fs = (Raise e', fs).
Proof.
  intros Hp He. unfold convert. cbn [bind stateful_monad]. rewrite Hp.
  cbn [lift]. destruct (dict_get scene "meshes" (JArr [])) as [meshes|e1]; [|eauto].
  destruct (py_len meshes) as [n|e2]; [|eauto].
  rewrite He. eauto.
Qed.

(** C4: when the POSITION accessor of the located primitive declares a
    count for which some vertex [i] would be read from bytes
    [off + 12 i .. off + 12 i + 12] ending past the payload, the vertex loop
    raises [struct.error], so does the extraction, and [main] runs
    [simple_extraction] on the same input and output paths, the file system
    untouched by the failed conversion. *)
Theorem position_overrun_falls_back
    (json_loads : bytes -> result json) (scene : json) (bin_data : bytes)
    (positions_accessor indices_accessor positions_view indices_view : json)
    (off count i : Z) (input_file output_file : string) (use_ascii : bool)
    (fs : filesystem) :
  find_mesh_data scene
    = Ok (positions_accessor, indices_accessor, positions_view, indices_view) ->
  dict_get positions_view "byteOffset" (JInt 0) = Ok (JInt off) ->
  getitem positions_accessor (JStr "count") = Ok (JInt count) ->
  0 <= i < count ->
  len bin_data < off + i * 12 + 12 ->
  parse_glb json_loads input_file fs = (Ok (scene, bin_data), fs) ->
  read_vertices bin_data (JInt off) (JInt count) = Raise StructError
  /\ extract_mesh_from_glb scene bin_data = Raise StructError
  /\ main json_loads input_file output_file use_ascii fs
     = simple_extraction input_file output_file fs.
Proof.
  intros Hfind Hoff Hcount Hi Hlen Hparse.
  pose proof (read_vertices_overrun bin_data off count i Hi Hlen) as Hv.
  assert (Hx : extract_mesh_from_glb scene bin_data = Raise StructError).
  { unfold extract_mesh_from_glb. rewrite Hfind. cbn [bind result_monad].
    rewrite Hoff. cbn [bind result_monad]. rewrite Hcount.
    cbn [bind result_monad]. now rewrite Hv. }
  repeat split; [exact Hv|exact Hx|].
  destruct (convert_extract_raise json_loads input_file output_file use_ascii
              fs scene bin_data StructError Hparse Hx) as (e' & E).
  now apply main_fallback with (e := e').
Qed.

Lemma position_overrun_falls_back_witness :
  read_vertices (sample_payload [0; 1; 2]) (JInt 0) (JInt 5) = Raise StructError
  /\ extract_mesh_from_glb (sample_scene 5 36 3) (sample_payload [0; 1; 2])
     = Raise StructError
  /\ main (fun _ => Ok (sample_scene 5 36 3)) "model.glb" "model.stl" false
       (sample_fs (sample_glb (sample_payload [0; 1; 2])))
     = simple_extraction "model.glb" "model.stl"
         (sample_fs (sample_glb (sample_payload [0; 1; 2]))).
Proof.
  apply (position_overrun_falls_back (fun _ => Ok (sample_scene 5 36 3))
           (sample_scene 5 36 3) (sample_payload [0; 1; 2])
           (JObj [member "bufferView" (JInt 0); member "count" (JInt 5)])
           (JObj [member "bufferView" (JInt 1); member "count" (JInt 3)])
           (JObj [])
           (JObj [member "byteOffset" (JInt 36)])
           0 5 4).
  - reflexivity.
  - reflexivity.
  - reflexivity.
  - lia.
  - vm_compute. reflexivity.
  - reflexivity.
Defined.

Lemma py_index_out_of_range {A} (xs : list A) (i : Z) :
  len xs <= i -> py_index xs i = Raise IndexError.
Proof.
  unfold py_index, len. intros H.
  destruct (Z.ltb_spec i 0); [lia|].
  destruct (Z.leb_spec 0 i); [|lia].
  destruct (Z.ltb_spec i (Z.of_nat (List.length xs))); [lia|reflexivity].
Qed.

Lemma store_other (path : string) (data : bytes) (fs : filesystem) (p : string) :
  p <> path -> store path data fs p = fs p.
Proof.
  intros H. unfold store. destruct (String.eqb_spec p path); congruence.
Qed.

Section OutOfRange.

Variable vertices : list vertex.
Variables a b c : Z.
Hypothesis beyond : len vertices <= a \/ len vertices <= b \/ len vertices <= c.

(** The three lookups of line 100 (and 138) cannot all succeed. *)
Lemma lookups_raise :
  (exists e, py_index vertices a = Raise e)
  \/ (exists v0 e, py_index vertices a = Ok v0 /\ py_index vertices b = Raise e)
  \/ (exists v0 v1 e, py_index vertices a = Ok v0 /\ py_index vertices b = Ok v1
                      /\ py_index vertices c = Raise e).
Proof.
  destruct (py_index vertices a) as [v0|e0] eqn:Ea; [|eauto].
  destruct (py_index vertices b) as [v1|e1] eqn:Eb; [|eauto 6].
  destruct (py_index vertices c) as [v2|e2] eqn:Ec; [|eauto 8].
  destruct beyond as [H|[H|H]]; apply py_index_out_of_range in H; congruence.
Qed.

Lemma write_face_binary_raises (s : bytes) :
  exists e s', write_face_binary vertices (a, b, c) s = (Raise e, s').
Proof.
  unfold write_face_binary. cbn [bind stateful_monad lift].
  destruct lookups_raise as [(e & Ea)|[(v0 & e & Ea & Eb)|(v0 & v1 & e & Ea & Eb & Ec)]].
  - rewrite Ea. eauto.
  - rewrite Ea, Eb. eauto.
  - rewrite Ea, Eb, Ec. eauto.
Qed.

Lemma write_face_ascii_raises (s : bytes) :
  exists e s', write_face_ascii vertices (a, b, c) s = (Raise e, s').
Proof.
  unfold write_face_ascii. cbn [bind stateful_monad lift].
  destruct lookups_raise as [(e & Ea)|[(v0 & e & Ea & Eb)|(v0 & v1 & e & Ea & Eb & Ec)]].
  - rewrite Ea. eauto.
  - rewrite Ea, Eb. eauto.
  - rewrite Ea, Eb, Ec. eauto.
Qed.

Lemma write_stl_binary_raises (faces : list face) (buf : bytes) :
  In (a, b, c) faces ->
  exists e buf', write_stl_binary vertices faces buf = (Raise e, buf').
Proof.
  intros Hin. unfold write_stl_binary. cbn [bind stateful_monad write lift].
  destruct (pack_I (len faces)) as [n|e]; [|eauto]. cbn [write].
  destruct (for_each_stateful_raise (write_face_binary vertices) faces
              (a, b, c) Hin write_face_binary_raises ((buf ++ binary_header) ++ n))
    as (e & s' & E).
  rewrite E. eauto.
Qed.

Lemma write_stl_ascii_raises (faces : list face) (buf : bytes) :
  In (a, b, c) faces ->
  exists e buf', write_stl_ascii vertices faces buf = (Raise e, buf').
Proof.
  intros Hin. unfold write_stl_ascii. cbn [bind stateful_monad write_text write].
  match goal with |- context [for_each _ faces ?st] =>
    destruct (for_each_stateful_raise (write_face_ascii vertices) faces
                (a, b, c) Hin write_face_ascii_raises st) as (e & s' & E) end.
  rewrite E. eauto.
Qed.

End OutOfRange.

(** C7: a decoded mesh with a triangle index at or beyond the number of
    vertices makes both writers raise (the bounds-checked lookup of the
    vertex array fails, nothing is read out of bounds), so the conversion
    fails and [main] runs [simple_extraction] on the same paths; the failed
    conversion has touched no file but the output file. *)
Theorem out_of_range_index_falls_back
    (json_loads : bytes -> result json) (scene : json) (bin_data : bytes)
    (vertices : list vertex) (faces : list face) (a b c : Z)
    (input_file output_file : string) (use_ascii : bool) (fs : filesystem) :
  In (a, b, c) faces ->
  len vertices <= a \/ len vertices <= b \/ len vertices <= c ->
  parse_glb json_loads input_file fs = (Ok (scene, bin_data), fs) ->
  extract_mesh_from_glb scene bin_data = Ok (vertices, faces) ->
  (forall buf, exists e buf',
      write_stl_binary vertices faces buf = (Raise e, buf'))
  /\ (forall buf, exists e buf',
        write_stl_ascii vertices faces buf = (Raise e, buf'))
  /\ exists fs',
       main json_loads input_file output_file use_ascii fs
       = simple_extraction input_file output_file fs'
       /\ forall p, p <> output_file -> fs' p = fs p.
Proof.
  intros Hin Hbeyond Hparse Hextract.
  split; [|split].
  - intros buf. now apply (write_stl_binary_raises vertices a b c Hbeyond).
  - intros buf. now apply (write_stl_ascii_raises vertices a b c Hbeyond).
  - assert (Hc : exists e fs',
               convert json_loads input_file output_file use_ascii fs = (Raise e, fs')
               /\ forall p, p <> output_file -> fs' p = fs p).
    { unfold convert. cbn [bind stateful_monad]. rewrite Hparse. cbn [lift].
      destruct (dict_get scene "meshes" (JArr [])) as [meshes|e1]; [|eauto].
      destruct (py_len meshes) as [n|e2]; [|eauto].
      rewrite Hextract.
      destruct (vertex_bounds vertices) as [[]|e3]; [|eauto].
      destruct use_ascii; unfold with_open_w.
      - destruct (write_stl_ascii_raises vertices a b c Hbeyond faces [] Hin)
          as (e & buf' & E).
        rewrite E. exists e, (store output_file buf' fs). split; [reflexivity|].
        intros p Hp. now apply store_other.
      - destruct (write_stl_binary_raises vertices a b c Hbeyond faces [] Hin)
          as (e & buf' & E).
        rewrite E. exists e, (store output_file buf' fs). split; [reflexivity|].
        intros p Hp. now apply store_other. }
    destruct Hc as (e & fs' & E & Hfs).
    exists fs'. split; [|exact Hfs].
    now apply main_fallback with (e := e).
Qed.

Lemma out_of_range_index_falls_back_witness :
  (forall buf, exists e buf',
      write_stl_binary
        [(f64_zero, f64_zero, f64_zero); (f64_one, f64_zero, f64_zero);
         (f64_zero, f64_one, f64_zero)] [(0, 1, 5)] buf = (Raise e, buf'))
  /\ (forall buf, exists e buf',
        write_stl_ascii
          [(f64_zero, f64_zero, f64_zero); (f64_one, f64_zero, f64_zero);
           (f64_zero, f64_one, f64_zero)] [(0, 1, 5)] buf = (Raise e, buf'))
  /\ exists fs',
       main (fun _ => Ok (sample_scene 3 36 3)) "model.glb" "model.stl" false
         (sample_fs (sample_glb (sample_payload [0; 1; 5])))
       = simple_extraction "model.glb" "model.stl" fs'
       /\ forall p, p <> "model.stl"%string ->
            fs' p = sample_fs (sample_glb (sample_payload [0; 1; 5])) p.
Proof.
  apply (out_of_range_index_falls_back (fun _ => Ok (sample_scene 3 36 3))
           (sample_scene 3 36 3) (sample_payload [0; 1; 5])
           [(f64_zero, f64_zero, f64_zero); (f64_one, f64_zero, f64_zero);
            (f64_zero, f64_one, f64_zero)] [(0, 1, 5)] 0 1 5).
  - simpl. auto.
  - right. right. unfold len. simpl. lia.
  - reflexivity.
  - vm_compute. reflexivity.
Defined.

(* ================================================================= *)
(** ** The binary writer *)

Lemma py_index_in_range (vertices : list vertex) (i : Z) :
  in_range vertices i -> py_index vertices i = Ok (vertex_at vertices i).
Proof.
  unfold in_range, py_index, vertex_at, len. intros [H0 H1].
  destruct (Z.ltb_spec i 0); [lia|].
  destruct (Z.leb_spec 0 i); [|lia].
  destruct (Z.ltb_spec i (Z.of_nat (List.length vertices))); [|lia].
  cbn [andb].
  destruct (nth_error vertices (Z.to_nat i)) as [v|] eqn:E.
  - now rewrite (nth_error_nth _ _ _ E).
  - apply nth_error_None in E. lia.
Qed.

Lemma fits_binary32_pack (x : float64) :
  fits_binary32 x = true -> exists b, pack_f x = Ok b.
Proof.
  unfold fits_binary32, pack_f. destruct (bits32_of_float x); [|discriminate].
  intros _. cbn. eauto.
Qed.

Lemma vec_fits_pack (v : vec3 float64) :
  vec_fits v = true -> exists p, pack_fff v = Ok p /\ List.length p = 12%nat.
Proof.
  destruct v as [[x y] z]. unfold vec_fits. rewrite !andb_true_iff.
  intros [[Hx Hy] Hz].
  destruct (fits_binary32_pack x Hx) as (bx & Ex).
  destruct (fits_binary32_pack y Hy) as (by_ & Ey).
  destruct (fits_binary32_pack z Hz) as (bz & Ez).
  exists (bx ++ by_ ++ bz).
  assert (E : pack_fff (x, y, z) = Ok (bx ++ by_ ++ bz)).
  { unfold pack_fff. now rewrite Ex, Ey, Ez. }
  split; [exact E|now apply pack_fff_length in E].
Qed.

Lemma write_vertex_ok (vertices : list vertex) (i : Z) (v : vertex)
    (p buf : bytes) :
  py_index vertices i = Ok v -> pack_fff v = Ok p ->
  write_vertex vertices i buf = (Ok tt, buf ++ p).
Proof.
  intros Hi Hp. unfold write_vertex. cbn [bind stateful_monad lift].
  now rewrite Hi, Hp.
Qed.

Lemma write_vertex_inv (vertices : list vertex) (i : Z) (buf buf' : bytes) (u : unit) :
  write_vertex vertices i buf = (Ok u, buf') ->
  exists v p, py_index vertices i = Ok v /\ pack_fff v = Ok p /\ buf' = buf ++ p.
Proof.
  unfold write_vertex. cbn [bind stateful_monad lift].
  destruct (py_index vertices i) as [v|e] eqn:Hv; [|discriminate].
  destruct (pack_fff v) as [p|e] eqn:Hp; [|discriminate].
  unfold write. intros [= _ <-]. exists v, p. repeat split; assumption.
Qed.

(** The three vertices of a face, once the normal is written. *)
Lemma write_vertices_ok (vertices : list vertex) (a b c : Z) (v0 v1 v2 : vertex)
    (p0 p1 p2 buf : bytes) :
  py_index vertices a = Ok v0 -> py_index vertices b = Ok v1 ->
  py_index vertices c = Ok v2 ->
  pack_fff v0 = Ok p0 -> pack_fff v1 = Ok p1 -> pack_fff v2 = Ok p2 ->
  for_each (write_vertex vertices) [a; b; c] buf
  = (Ok [tt; tt; tt], buf ++ (p0 ++ p1 ++ p2)).
Proof.
  intros Ha Hb Hc E0 E1 E2. cbn [for_each bind stateful_monad ret].
  rewrite (write_vertex_ok _ _ _ _ _ Ha E0), (write_vertex_ok _ _ _ _ _ Hb E1),
    (write_vertex_ok _ _ _ _ _ Hc E2).
  now rewrite !app_assoc.
Qed.

Lemma write_vertices_inv (vertices : list vertex) (a b c : Z) (buf buf' : bytes)
    (us : list unit) :
  for_each (write_vertex vertices) [a; b; c] buf = (Ok us, buf') ->
  exists v0 v1 v2 p0 p1 p2,
    py_index vertices a = Ok v0 /\ py_index vertices b = Ok v1
    /\ py_index vertices c = Ok v2
    /\ pack_fff v0 = Ok p0 /\ pack_fff v1 = Ok p1 /\ pack_fff v2 = Ok p2
    /\ buf' = buf ++ (p0 ++ p1 ++ p2).
Proof.
  cbn [for_each bind stateful_monad ret].
  destruct (write_vertex vertices a buf) as [[[]|e] s0] eqn:E0; [|discriminate].
  destruct (write_vertex vertices b s0) as [[[]|e] s1] eqn:E1; [|discriminate].
  destruct (write_vertex vertices c s1) as [[[]|e] s2] eqn:E2; [|discriminate].
  intros [= _ <-].
  apply write_vertex_inv in E0, E1, E2.
  destruct E0 as (v0 & p0 & Ha & P0 & ->), E1 as (v1 & p1 & Hb & P1 & ->),
    E2 as (v2 & p2 & Hc & P2 & ->).
  exists v0, v1, v2, p0, p1, p2. repeat split; try assumption.
  now rewrite !app_assoc.
Qed.

(** A loop whose body appends a record per element appends them in order. *)
Lemma for_each_appends {A} (body : A -> stateful bytes unit)
    (R : A -> bytes -> Prop) (xs : list A) :
  Forall (fun x => exists rec, R x rec /\ forall buf, body x buf = (Ok tt, buf ++ rec)) xs ->
  exists recs,
    Forall2 R xs recs
    /\ forall buf, exists us, for_each body xs buf = (Ok us, buf ++ List.concat recs).
Proof.
  induction 1 as [|x xs (rec & HR & Hbody) _ (recs & HF & Hloop)].
  - exists []. split; [constructor|]. intros buf. exists []. cbn. now rewrite app_nil_r.
  - exists (rec :: recs). split; [now constructor|]. intros buf.
    cbn [for_each bind stateful_monad ret]. rewrite Hbody.
    destruct (Hloop (buf ++ rec)) as (us & E). rewrite E.
    exists (tt :: us). cbn [List.concat]. now rewrite app_assoc.
Qed.

(** Conversely, a loop that completed appended one record per element. *)
Lemma for_each_appended {A} (body : A -> stateful bytes unit)
    (R : A -> bytes -> Prop) (xs : list A) :
  (forall x buf u buf', body x buf = (Ok u, buf') ->
                        exists rec, R x rec /\ buf' = buf ++ rec) ->
  forall buf us buf', for_each body xs buf = (Ok us, buf') ->
  exists recs, Forall2 R xs recs /\ buf' = buf ++ List.concat recs.
Proof.
  intros Hbody. induction xs as [|x xs IH]; intros buf us buf';
    cbn [for_each bind stateful_monad ret].
  - intros [= _ <-]. exists []. split; [constructor|]. cbn. now rewrite app_nil_r.
  - destruct (body x buf) as [[u|e] s1] eqn:E1; [|discriminate].
    destruct (for_each body xs s1) as [[us'|e] s2] eqn:E2; [|discriminate].
    intros [= _ <-].
    destruct (Hbody _ _ _ _ E1) as (rec & HR & ->).
    destruct (IH _ _ _ E2) as (recs & HF & ->).
    exists (rec :: recs). split; [now constructor|].
    cbn [List.concat]. now rewrite app_assoc.
Qed.

Lemma write_face_binary_ok (vertices : list vertex) (f : face) :
  writable vertices f ->
  exists rec, binary_record vertices f rec
    /\ forall buf, write_face_binary vertices f buf = (Ok tt, buf ++ rec).
Proof.
  destruct f as [[a b] c]. intros (Ha & Hb & Hc & Hn & H0 & H1 & H2).
  apply py_index_in_range in Ha, Hb, Hc.
  destruct (vec_fits_pack _ Hn) as (n & En & Ln).
  destruct (vec_fits_pack _ H0) as (p0 & E0 & L0).
  destruct (vec_fits_pack _ H1) as (p1 & E1 & L1).
  destruct (vec_fits_pack _ H2) as (p2 & E2 & L2).
  exists (n ++ (p0 ++ p1 ++ p2) ++ le_encode 2 0). split.
  - exists (vertex_at vertices a), (vertex_at vertices b), (vertex_at vertices c),
      n, p0, p1, p2.
    do 8 (split; [assumption || reflexivity|]).
    split; [exact Ln|]. split; [|reflexivity].
    rewrite !length_app. lia.
  - intros buf. unfold write_face_binary. cbn [bind stateful_monad lift].
    rewrite Ha, Hb, Hc, En. cbn [write].
    rewrite (write_vertices_ok vertices a b c _ _ _ p0 p1 p2 _ Ha Hb Hc E0 E1 E2).
    change (pack_H 0) with (Ok (le_encode 2 0)). unfold write.
    now rewrite <- !app_assoc.
Qed.

Lemma write_face_binary_inv (vertices : list vertex) (f : face)
    (buf buf' : bytes) (u : unit) :
  write_face_binary vertices f buf = (Ok u, buf') ->
  exists rec, binary_record vertices f rec /\ buf' = buf ++ rec.
Proof.
  destruct f as [[a b] c]. unfold write_face_binary.
  cbn [bind stateful_monad lift].
  destruct (py_index vertices a) as [v0|e] eqn:Ha; [|discriminate].
  destruct (py_index vertices b) as [v1|e] eqn:Hb; [|discriminate].
  destruct (py_index vertices c) as [v2|e] eqn:Hc; [|discriminate].
  destruct (pack_fff (face_normal v0 v1 v2)) as [n|e] eqn:En; [|discriminate].
  unfold write at 1.
  destruct (for_each (write_vertex vertices) [a; b; c] (buf ++ n))
    as [[us|e] s1] eqn:Ev; [|discriminate].
  change (pack_H 0) with (Ok (le_encode 2 0)). unfold write. intros [= _ <-].
  apply write_vertices_inv in Ev.
  destruct Ev as (w0 & w1 & w2 & p0 & p1 & p2 & Ha' & Hb' & Hc' & E0 & E1 & E2 & ->).
  assert (w0 = v0) by congruence. assert (w1 = v1) by congruence.
  assert (w2 = v2) by congruence. subst w0 w1 w2.
  exists (n ++ (p0 ++ p1 ++ p2) ++ le_encode 2 0). split.
  - exists v0, v1, v2, n, p0, p1, p2.
    do 8 (split; [assumption || reflexivity|]).
    split; [now apply pack_fff_length in En|]. split; [|reflexivity].
    apply pack_fff_length in E0, E1, E2. rewrite !length_app. lia.
  - now rewrite <- !app_assoc.
Qed.

Lemma stl_record_length (vertices : list vertex)
    (normal_of : vertex -> vertex -> vertex -> vec3 float64)
    (f : face) (rec : bytes) :
  stl_record vertices normal_of f rec -> List.length rec = 50%nat.
Proof.
  destruct f as [[a b] c].
  intros (v0 & v1 & v2 & n & p0 & p1 & p2 & _ & _ & _ & _ & _ & _ & _ & -> & Ln & Lp & La).
  rewrite !length_app in *. lia.
Qed.

Lemma concat_length_const (recs : list bytes) (k : nat) :
  Forall (fun r => List.length r = k) recs ->
  List.length (List.concat recs) = (k * List.length recs)%nat.
Proof.
  induction 1 as [|r recs Hr _ IH]; [simpl; lia|].
  cbn [List.concat List.length]. rewrite length_app, IH, Hr. lia.
Qed.

Lemma stl_records_length (vertices : list vertex)
    (normal_of : vertex -> vertex -> vertex -> vec3 float64)
    (faces : list face) (records : list bytes) :
  Forall2 (stl_record vertices normal_of) faces records ->
  Forall (fun rec => List.length rec = 50%nat) records.
Proof.
  induction 1 as [|f rec fs recs Hrec _ IH]; constructor; [|exact IH].
  now apply stl_record_length in Hrec.
Qed.

(** C2: for every vertex array and every array of [T] triangles, the file
    the binary writer produces is the 80-byte header, the count [T] as a
    little-endian 32-bit integer, then one 50-byte record per triangle in
    array order: the 12-byte normal, the 36 bytes of the vertices [a], [b],
    [c] in that order, and the 2-byte attribute count 0; [84 + 50 T] bytes
    in all. The writer does produce it when [T] is below 2^32 and every
    triangle is one it can encode (indices within the vertex array, numbers
    within the binary32 range). *)
Theorem write_stl_binary_layout (vertices : list vertex) (faces : list face) :
  (forall out,
      write_stl_binary vertices faces [] = (Ok tt, out) ->
      exists records,
        out = binary_header ++ le_encode 4 (len faces) ++ List.concat records
        /\ Forall2 (binary_record vertices) faces records
        /\ List.length binary_header = 80%nat
        /\ List.length (le_encode 4 (len faces)) = 4%nat
        /\ le_decode (le_encode 4 (len faces)) = len faces
        /\ Forall (fun rec => List.length rec = 50%nat) records
        /\ len out = 84 + 50 * len faces)
  /\ (len faces < 2 ^ 32 ->
      Forall (writable vertices) faces ->
      exists out, write_stl_binary vertices faces [] = (Ok tt, out)).
Proof.
  assert (H0 : 0 <= len faces) by (unfold len; lia).
  split.
  - intros out. unfold write_stl_binary. cbn [bind stateful_monad write lift app].
    unfold pack_I. destruct (Z.leb_spec 0 (len faces)); [|lia].
    destruct (Z.ltb_spec (len faces) (2 ^ 32)) as [HT|HT]; [|discriminate].
    cbn [andb]. unfold write at 1.
    destruct (for_each (write_face_binary vertices) faces
                (binary_header ++ le_encode 4 (len faces)))
      as [[us|e] s1] eqn:Eloop; [|discriminate].
    cbn [ret]. intros [= <-].
    destruct (for_each_appended (write_face_binary vertices)
                (binary_record vertices) faces
                (fun f buf u buf' => write_face_binary_inv vertices f buf buf' u)
                _ _ _ Eloop)
      as (records & HR & ->).
    pose proof (stl_records_length _ _ _ _ HR) as H50.
    exists records.
    split; [now rewrite <- app_assoc|].
    split; [exact HR|]. split; [reflexivity|].
    split; [apply le_encode_length|].
    split; [rewrite le_decode_encode; apply Z.mod_small; simpl; lia|].
    split; [exact H50|].
    unfold len in *. rewrite !length_app, le_encode_length.
    rewrite (concat_length_const records 50 H50).
    rewrite (Forall2_length HR).
    change (List.length binary_header) with 80%nat. lia.
  - intros HT Hfaces.
    destruct (for_each_appends (write_face_binary vertices)
                (binary_record vertices) faces) as (records & HR & Hloop).
    { eapply Forall_impl; [|exact Hfaces]. intros f. apply write_face_binary_ok. }
    unfold write_stl_binary. cbn [bind stateful_monad write lift app].
    rewrite pack_I_ok by lia. unfold write.
    destruct (Hloop (binary_header ++ le_encode 4 (len faces))) as (us & E).
    rewrite E. eexists. reflexivity.
Qed.

Lemma write_stl_binary_layout_witness :
  exists out,
    write_stl_binary
      [(f64_zero, f64_zero, f64_zero); (f64_one, f64_zero, f64_zero);
       (f64_zero, f64_one, f64_zero)] [(0, 1, 2); (2, 1, 0)] []
    = (Ok tt, out).
Proof.
  apply (proj2 (write_stl_binary_layout
                  [(f64_zero, f64_zero, f64_zero); (f64_one, f64_zero, f64_zero);
                   (f64_zero, f64_one, f64_zero)] [(0, 1, 2); (2, 1, 0)])).
  - reflexivity.
  - repeat constructor; vm_compute; congruence.
Defined.

(* ================================================================= *)
(** ** The normal *)

Lemma sum_squares_zero (x y z : R) :
  (x * x + y * y + z * z = 0 -> x = 0 /\ y = 0 /\ z = 0)%R.
Proof.
  intros H.
  assert (Hx : (0 <= x * x)%R) by nra.
  assert (Hy : (0 <= y * y)%R) by nra.
  assert (Hz : (0 <= z * z)%R) by nra.
  repeat split; nra.
Qed.

(** Over the reals a cross product of magnitude zero is the zero vector, so
    leaving it undivided leaves exactly the zero vector. *)
Lemma face_normal_real (v0 v1 v2 : vec3 R) :
  face_normal v0 v1 v2 = NormalComputer v0 v1 v2.
Proof.
  destruct v0 as [[x0 y0] z0], v1 as [[x1 y1] z1], v2 as [[x2 y2] z2].
  unfold face_normal, NormalComputer.
  cbn [vsub cross linalg_norm vdiv s_sub s_mul s_add s_sqrt s_ltb s_zero s_div
       real_scalar].
  match goal with |- context [sqrt (?a * ?a + ?b * ?b + ?c * ?c)] =>
    generalize a b c; intros nx ny nz end.
  set (sq := (nx * nx + ny * ny + nz * nz)%R).
  destruct (Rlt_dec 0 (sqrt sq)) as [Hpos|Hnot]; [reflexivity|].
  assert (HS : (0 <= sq)%R) by (unfold sq; nra).
  assert (H0 : sqrt sq = 0%R).
  { pose proof (sqrt_pos sq). lra. }
  apply sqrt_eq_0 in H0; [|exact HS].
  apply sum_squares_zero in H0. destruct H0 as (Hx & Hy & Hz).
  now rewrite Hx, Hy, Hz.
Qed.

Lemma SFsub_diag (x : float64) :
  is_finite x = true -> SFsub 53 1024 x x = S754_zero false.
Proof.
  destruct x as [s|s| |s m e]; try discriminate; intros _.
  - now destruct s.
  - unfold SFsub. now rewrite Z.sub_diag.
Qed.

Lemma face_normal_degenerate_float (v : vec3 float64) :
  finite3 v = true -> face_normal v v v = (f64_zero, f64_zero, f64_zero).
Proof.
  destruct v as [[x y] z]. unfold finite3. rewrite !andb_true_iff.
  intros [[Hx Hy] Hz]. unfold face_normal.
  cbn [vsub s_sub float64_scalar].
  rewrite (SFsub_diag x Hx), (SFsub_diag y Hy), (SFsub_diag z Hz).
  reflexivity.
Qed.

Lemma face_normal_zero_cross (v0 v1 v2 : vec3 float64) :
  is_zero3 (cross (vsub v1 v0) (vsub v2 v0)) = true ->
  face_normal v0 v1 v2 = cross (vsub v1 v0) (vsub v2 v0).
Proof.
  unfold face_normal.
  destruct (cross (vsub v1 v0) (vsub v2 v0)) as [[n0 n1] n2].
  unfold is_zero3, is_zero.
  destruct n0 as [s0| | |]; try discriminate.
  destruct n1 as [s1| | |]; try discriminate.
  destruct n2 as [s2| | |]; try discriminate.
  intros _. now destruct s0, s1, s2.
Qed.

(** C3: the normal the writers compute. Over the reals it is, for every
    triangle, the vector of section 4.3: the right-hand cross product of
    [v1 - v0] and [v2 - v0] divided by its magnitude when that is positive,
    the zero vector otherwise. On binary64 values the same function divides
    exactly when the magnitude compares greater than zero and otherwise
    returns the cross product untouched, no division performed and nothing
    raised, so a cross product of zeros comes out as it is; it returns
    (0,0,1) on (0,0,0), (1,0,0), (0,1,0) and the zero vector, not NaN, on
    three equal vertices with finite coordinates. *)
Theorem face_normal_correct :
  (forall v0 v1 v2 : vec3 R, face_normal v0 v1 v2 = NormalComputer v0 v1 v2)
  /\ (forall v : vec3 R, face_normal v v v = (0, 0, 0)%R)
  /\ face_normal (0, 0, 0)%R (1, 0, 0)%R (0, 1, 0)%R = (0, 0, 1)%R
  /\ (forall v0 v1 v2 : vec3 float64,
        let n := cross (vsub v1 v0) (vsub v2 v0) in
        face_normal v0 v1 v2
        = if s_ltb s_zero (linalg_norm n) then NormalComputer v0 v1 v2 else n)
  /\ (forall v0 v1 v2 : vec3 float64,
        is_zero3 (cross (vsub v1 v0) (vsub v2 v0)) = true ->
        face_normal v0 v1 v2 = cross (vsub v1 v0) (vsub v2 v0))
  /\ face_normal (f64_zero, f64_zero, f64_zero) (f64_one, f64_zero, f64_zero)
       (f64_zero, f64_one, f64_zero)
     = (f64_zero, f64_zero, f64_one)
  /\ (forall v : vec3 float64,
        finite3 v = true ->
        face_normal v v v = (f64_zero, f64_zero, f64_zero)).
Proof.
  split; [exact face_normal_real|].
  split.
  { intros [[x y] z]. rewrite face_normal_real. unfold NormalComputer.
    cbn [vsub s_sub s_mul s_add s_sqrt s_ltb s_zero s_div real_scalar].
    replace (x - x)%R with 0%R by lra.
    replace (y - y)%R with 0%R by lra.
    replace (z - z)%R with 0%R by lra.
    replace (0 * 0 - 0 * 0)%R with 0%R by lra.
    replace (0 * 0 + 0 * 0 + 0 * 0)%R with 0%R by lra.
    rewrite sqrt_0. destruct (Rlt_dec 0 0) as [H|H]; [lra|reflexivity]. }
  split.
  { unfold face_normal.
    cbn [vsub cross linalg_norm vdiv s_sub s_mul s_add s_sqrt s_ltb s_zero s_div
         real_scalar].
    replace ((0 - 0) * (0 - 0) - (0 - 0) * (1 - 0))%R with 0%R by lra.
    replace ((0 - 0) * (0 - 0) - (1 - 0) * (0 - 0))%R with 0%R by lra.
    replace ((1 - 0) * (1 - 0) - (0 - 0) * (0 - 0))%R with 1%R by lra.
    replace (0 * 0 + 0 * 0 + 1 * 1)%R with 1%R by lra.
    rewrite sqrt_1. destruct (Rlt_dec 0 1) as [H|H]; [|lra].
    f_equal; [f_equal|]; lra. }
  split.
  { intros [[x0 y0] z0] [[x1 y1] z1] [[x2 y2] z2]. cbv zeta.
    unfold face_normal, NormalComputer.
    cbn [vsub cross linalg_norm vdiv].
    now destruct (s_ltb _ _). }
  split; [exact face_normal_zero_cross|].
  split; [vm_compute; reflexivity|].
  exact face_normal_degenerate_float.
Qed.

Lemma face_normal_correct_witness :
  face_normal (f64_of_Z 1, f64_of_Z 2, f64_of_Z 3) (f64_of_Z 1, f64_of_Z 2, f64_of_Z 3)
    (f64_of_Z 1, f64_of_Z 2, f64_of_Z 3)
  = (f64_zero, f64_zero, f64_zero).
Proof.
  apply (proj2 (proj2 (proj2 (proj2 (proj2 (proj2 face_normal_correct)))))).
  reflexivity.
Defined.

(* ================================================================= *)
(** ** Binary32 values survive the trip through [struct] *)

Lemma dyadic_roundtrip (s : bool) (m e : Z) :
  0 < m < 2 ^ 24 -> -149 <= e <= 104 -> e = -149 \/ 2 ^ 23 <= m ->
  bits32_of_float (f64_of_dyadic s m e)
  = Ok (sign_bit s + (e + 149) * 2 ^ 23 + m).
Proof.
  intros Hm He Hcanon. unfold f64_of_dyadic.
  assert (HL : 0 <= Z.log2 m < 24).
  { split; [apply Z.log2_nonneg|]. apply Z.log2_lt_pow2; lia. }
  assert (HL' : e = -149 \/ Z.log2 m = 23).
  { destruct Hcanon as [?|H]; [now left|right].
    apply Z.log2_le_mono in H. rewrite Z.log2_pow2 in H; lia. }
  set (k := 53 - (Z.log2 m + 1)).
  assert (Hk : 0 < k) by (unfold k; lia).
  assert (Hp : 0 < m * 2 ^ k) by (apply Z.mul_pos_pos; [lia|apply Z.pow_pos_nonneg; lia]).
  destruct (m * 2 ^ k) as [|p|p] eqn:Ep; try lia.
  unfold bits32_of_float. rewrite <- Ep.
  rewrite Z.log2_mul_pow2 by lia.
  replace (Z.max (k + Z.log2 m + 1 + (e - k) - 24) (-149)) with e by (unfold k; lia).
  destruct (Z.leb_spec e (e - k)); [lia|].
  replace (e - (e - k)) with k by lia.
  unfold round_half_even.
  rewrite Z.div_mul, Z.mod_mul by (apply Z.pow_nonzero; lia).
  assert (H2k : 0 < 2 ^ k) by (apply Z.pow_pos_nonneg; lia).
  destruct (Z.ltb_spec (2 * 0) (2 ^ k)); [|lia].
  destruct (Z.eqb_spec m (2 ^ 24)); [lia|].
  destruct (Z.ltb_spec 104 e); [lia|reflexivity].
Qed.

Lemma float_of_bits32_fits (w : Z) :
  0 <= w -> fits_binary32 (float_of_bits32 w) = true.
Proof.
  intros Hw. unfold fits_binary32, float_of_bits32.
  assert (HE : 0 <= (w / 2 ^ 23) mod 256 < 256) by (apply Z.mod_pos_bound; lia).
  assert (HM : 0 <= w mod 2 ^ 23 < 2 ^ 23) by (apply Z.mod_pos_bound; lia).
  set (E := (w / 2 ^ 23) mod 256) in *. set (M := w mod 2 ^ 23) in *.
  destruct (Z.eqb_spec E 255).
  - now destruct (M =? 0).
  - destruct (Z.eqb_spec E 0).
    + destruct (Z.eqb_spec M 0); [reflexivity|].
      rewrite dyadic_roundtrip; [reflexivity|lia|lia|now left].
    + rewrite dyadic_roundtrip; [reflexivity|lia|lia|right; lia].
Qed.

(** Decoding a binary32 pattern and encoding the value again gives the
    pattern back, the NaNs all becoming the quiet NaN. *)
Lemma bits32_roundtrip (w : Z) :
  0 <= w < 2 ^ 32 ->
  bits32_of_float (float_of_bits32 w)
  = Ok (if nan_bits w then 255 * 2 ^ 23 + 2 ^ 22 else w).
Proof.
  intros Hw. unfold float_of_bits32, nan_bits.
  assert (HE : 0 <= (w / 2 ^ 23) mod 256 < 256) by (apply Z.mod_pos_bound; lia).
  assert (HM : 0 <= w mod 2 ^ 23 < 2 ^ 23) by (apply Z.mod_pos_bound; lia).
  assert (Hs : sign_bit (Z.testbit w 31) = 2 ^ 31 * (w / 2 ^ 31)).
  { pose proof (Z.testbit_spec' w 31 ltac:(lia)) as Hb.
    assert (Hq : 0 <= w / 2 ^ 31 < 2).
    { split; [apply Z.div_pos; lia|apply Z.div_lt_upper_bound; lia]. }
    rewrite Z.mod_small in Hb by exact Hq.
    unfold sign_bit. destruct (Z.testbit w 31); cbn [Z.b2z] in Hb; lia. }
  assert (Hw' : w = 2 ^ 31 * (w / 2 ^ 31) + (w / 2 ^ 23) mod 256 * 2 ^ 23 + w mod 2 ^ 23).
  { pose proof (Z.div_mod w (2 ^ 23) ltac:(lia)) as H1.
    pose proof (Z.div_mod (w / 2 ^ 23) 256 ltac:(lia)) as H2.
    rewrite Z.div_div in H2 by lia.
    change (2 ^ 23 * 256) with (2 ^ 31) in H2. lia. }
  set (E := (w / 2 ^ 23) mod 256) in *. set (M := w mod 2 ^ 23) in *.
  destruct (Z.eqb_spec E 255) as [HE255|HE255].
  - destruct (Z.eqb_spec M 0) as [HM0|HM0]; cbn [negb andb bits32_of_float].
    + f_equal. lia.
    + reflexivity.
  - cbn [andb]. destruct (Z.eqb_spec E 0) as [HE0|HE0].
    + destruct (Z.eqb_spec M 0) as [HM0|HM0].
      * cbn [bits32_of_float]. f_equal. lia.
      * rewrite dyadic_roundtrip; [f_equal; lia|lia|lia|now left].
    + rewrite dyadic_roundtrip; [f_equal; lia|lia|lia|right; lia].
Qed.

Lemma le_decode_nonneg (b : bytes) : 0 <= le_decode b.
Proof.
  induction b as [|x b IH]; cbn [le_decode]; [lia|].
  unfold Z_of_byte. lia.
Qed.

Lemma unpack_f_fits (b : bytes) : fits_binary32 (unpack_f b) = true.
Proof. apply float_of_bits32_fits, le_decode_nonneg. Qed.

Lemma pseudo_vertex_fits (data : bytes) (k : nat) :
  vec_fits (pseudo_vertex data k) = true.
Proof.
  unfold pseudo_vertex, vec_fits, float_at. now rewrite !unpack_f_fits.
Qed.

(* ================================================================= *)
(** ** The fallback extractor *)

Lemma unpack_floats_length (n : nat) (b : bytes) :
  List.length (unpack_floats n b) = n.
Proof.
  revert b; induction n as [|n IH]; intros b; cbn [unpack_floats List.length];
    [reflexivity|now rewrite IH].
Qed.

Lemma unpack_floats_nth (n : nat) (b : bytes) (j : nat) :
  (j < n)%nat ->
  nth_error (unpack_floats n b) j = Some (unpack_f (firstn 4 (skipn (4 * j) b))).
Proof.
  revert b j; induction n as [|n IH]; intros b j Hj; [lia|].
  destruct j as [|j]; cbn [unpack_floats nth_error].
  - reflexivity.
  - rewrite IH by lia. rewrite skipn_skipn. do 4 f_equal. lia.
Qed.

(** Float [j] of the file, read back from the tuple [struct.unpack] made of
    the bytes before the last whole word. *)
Lemma fallback_floats_nth (data : bytes) (n j : nat) :
  (j < n)%nat ->
  nth_error (unpack_floats n (firstn (4 * n) data)) j = Some (float_at data j).
Proof.
  intros Hj. rewrite unpack_floats_nth by exact Hj. unfold float_at.
  rewrite skipn_firstn_comm, firstn_firstn. do 3 f_equal. lia.
Qed.

Lemma fallback_slice (data : bytes) :
  py_slice data 0 (len data - len data mod 4)
  = firstn (4 * (List.length data / 4)) data.
Proof.
  unfold py_slice, slice_bound, len.
  set (n := Z.of_nat (List.length data)).
  assert (Hn : 0 <= n) by (unfold n; lia).
  pose proof (Z.mod_pos_bound n 4 ltac:(lia)) as Hmod.
  pose proof (Z.div_mod n 4 ltac:(lia)) as Hdiv.
  destruct (Z.ltb_spec 0 0); [lia|].
  destruct (Z.ltb_spec (n - n mod 4) 0); [lia|].
  rewrite Z.min_l by lia. rewrite Z.min_l by lia.
  cbn [Z.to_nat skipn]. f_equal.
  unfold n. rewrite Z.sub_0_r.
  replace (Z.of_nat (List.length data) - Z.of_nat (List.length data) mod 4)
    with (Z.of_nat (4 * (List.length data / 4))).
  - apply Nat2Z.id.
  - rewrite Nat2Z.inj_mul, Nat2Z.inj_div. fold n. cbn [Z.of_nat Pos.of_succ_nat Pos.succ]. lia.
Qed.

Lemma for_each_map_ok {A B C} (body : B -> result C) (h : A -> B) (g : A -> C)
    (xs : list A) :
  (forall x, In x xs -> body (h x) = Ok (g x)) ->
  for_each body (map h xs) = Ok (map g xs).
Proof.
  induction xs as [|x xs IH]; intros H; cbn [map for_each bind result_monad ret];
    [reflexivity|].
  rewrite H by now left. rewrite IH; [reflexivity|].
  intros y Hy. apply H. now right.
Qed.

Lemma py_index_nth {A} (xs : list A) (j : nat) (x : A) :
  nth_error xs j = Some x -> py_index xs (Z.of_nat j) = Ok x.
Proof.
  intros E. assert (Hj : (j < List.length xs)%nat).
  { apply nth_error_Some. congruence. }
  unfold py_index.
  destruct (Z.ltb_spec (Z.of_nat j) 0); [lia|].
  destruct (Z.leb_spec 0 (Z.of_nat j)); [|lia].
  destruct (Z.ltb_spec (Z.of_nat j) (Z.of_nat (List.length xs))); [|lia].
  cbn [andb]. now rewrite Nat2Z.id, E.
Qed.

(** Lines 215-232 in closed form: the pseudo-vertices, then the fan over
    them clamped to 100 vertices and 98 triangles, or nothing. *)
Lemma fallback_mesh_spec (data : bytes) :
  fallback_mesh data
  = Ok (if len (pseudo_vertices data) <? 3 then None
        else Some (firstn 100 (pseudo_vertices data),
                   firstn 98 (fan (len (pseudo_vertices data))))).
Proof.
  unfold fallback_mesh. rewrite fallback_slice.
  set (n := (List.length data / 4)%nat).
  assert (Hlen4 : len data / 4 = Z.of_nat n).
  { unfold len, n. now rewrite Nat2Z.inj_div. }
  assert (Hcut : (4 * n <= List.length data)%nat).
  { unfold n. pose proof (Nat.Div0.mul_div_le (List.length data) 4). lia. }
  unfold unpack_f_times. rewrite Hlen4, length_firstn, Nat2Z.id.
  destruct (Z.eqb_spec (Z.of_nat (Nat.min (4 * n) (List.length data)))
              (4 * Z.of_nat n)); [|lia].
  cbn [bind result_monad].
  set (floats := unpack_floats n (firstn (4 * n) data)).
  assert (Hfl : len floats = Z.of_nat n).
  { unfold len, floats. now rewrite unpack_floats_length. }
  assert (Hrange : py_range 0 (len floats - 2) 3
                   = map (fun k => Z.of_nat (3 * k)) (seq 0 (List.length data / 12))).
  { unfold py_range. rewrite Hfl.
    replace (Z.of_nat n - 2 - 0 + 3 - 1) with (Z.of_nat n) by lia.
    replace (Z.to_nat (Z.of_nat n / 3)) with (List.length data / 12)%nat.
    - apply map_ext. intros k. lia.
    - change 3 with (Z.of_nat 3). rewrite <- Nat2Z.inj_div, Nat2Z.id.
      unfold n. now rewrite Nat.Div0.div_div. }
  rewrite Hrange.
  rewrite for_each_map_ok with (g := pseudo_vertex data).
  - cbn [bind result_monad]. unfold pseudo_vertices, fan, len.
    rewrite !length_map.
    destruct (Z.of_nat (List.length (seq 0 (List.length data / 12))) <? 3);
      reflexivity.
  - intros k Hk. apply in_seq in Hk.
    assert (Hk3 : (3 * k + 2 < n)%nat).
    { unfold n.
      pose proof (Nat.Div0.div_div (List.length data) 4 3) as Hdd.
      change (4 * 3)%nat with 12%nat in Hdd.
      pose proof (Nat.Div0.mul_div_le (List.length data / 4) 3). lia. }
    rewrite (py_index_nth floats (3 * k) (float_at data (3 * k)))
      by (apply fallback_floats_nth; lia).
    replace (Z.of_nat (3 * k) + 1) with (Z.of_nat (3 * k + 1)) by lia.
    replace (Z.of_nat (3 * k) + 2) with (Z.of_nat (3 * k + 2)) by lia.
    rewrite (py_index_nth floats (3 * k + 1) (float_at data (3 * k + 1)))
      by (apply fallback_floats_nth; lia).
    rewrite (py_index_nth floats (3 * k + 2) (float_at data (3 * k + 2)))
      by (apply fallback_floats_nth; lia).
    reflexivity.
Qed.

Lemma firstn_seq (a start m : nat) :
  firstn a (seq start m) = seq start (Nat.min a m).
Proof.
  revert start m; induction a as [|a IH]; intros start m; [reflexivity|].
  destruct m as [|m]; [reflexivity|].
  cbn [seq firstn Nat.min]. now rewrite IH.
Qed.

(** Every triangle kept of the fan stays within the vertices kept. *)
Lemma fan_clamped (n : Z) (f : face) :
  3 <= n -> In f (firstn 98 (fan n)) ->
  exists i, f = (0, i, i + 1) /\ 1 <= i /\ i + 1 < Z.min n 100.
Proof.
  intros Hn. unfold fan, py_range. rewrite !firstn_map, firstn_seq.
  intros H. apply in_map_iff in H. destruct H as (i & <- & Hi).
  apply in_map_iff in Hi. destruct Hi as (k & <- & Hk).
  apply in_seq in Hk. rewrite Z.div_1_r in Hk.
  exists (1 + 1 * Z.of_nat k). split; [reflexivity|]. lia.
Qed.

Lemma fan_length (n : Z) : 2 <= n -> len (fan n) = n - 2.
Proof.
  intros Hn. unfold fan, py_range, len.
  rewrite !length_map, length_seq, Z.div_1_r. lia.
Qed.

Lemma write_vertex_appends (vertices : list vertex) (i : Z) (buf : bytes) :
  exists r rest, write_vertex vertices i buf = (r, buf ++ rest).
Proof.
  unfold write_vertex. cbn [bind stateful_monad lift].
  destruct (py_index vertices i) as [v|e].
  - destruct (pack_fff v) as [p|e]; [exists (Ok tt), p|exists (Raise e), []];
      unfold write; now rewrite ?app_nil_r.
  - exists (Raise e), []. now rewrite app_nil_r.
Qed.

Lemma for_each_write_vertex_appends (vertices : list vertex) (idx : list Z)
    (buf : bytes) :
  exists r rest, for_each (write_vertex vertices) idx buf = (r, buf ++ rest).
Proof.
  revert buf; induction idx as [|i idx IH]; intros buf;
    cbn [for_each bind stateful_monad ret].
  - exists (Ok []), []. now rewrite app_nil_r.
  - destruct (write_vertex_appends vertices i buf) as (r & rest & E). rewrite E.
    destruct r as [[]|e]; [|eauto].
    destruct (IH (buf ++ rest)) as (r' & rest' & E'). rewrite E'.
    destruct r' as [us|e]; rewrite <- app_assoc; eauto.
Qed.

(** The fallback writes twelve zero bytes for the normal of every face
    before it looks at any vertex. *)
Lemma write_face_fallback_zero_normal (vertices : list vertex) (f : face)
    (buf : bytes) :
  exists r rest,
    write_face_fallback vertices f buf = (r, buf ++ zeros 12 ++ rest).
Proof.
  destruct f as [[a b] c]. unfold write_face_fallback.
  change (pack_fff (f64_of_Z 0, f64_of_Z 0, f64_of_Z 0)) with (Ok (zeros 12)).
  cbn [bind stateful_monad lift]. unfold write at 1.
  destruct (for_each_write_vertex_appends vertices [a; b; c] (buf ++ zeros 12))
    as (r & rest & E).
  rewrite E. destruct r as [us|e].
  - change (pack_H 0) with (Ok (le_encode 2 0)). unfold write.
    exists (Ok tt), (rest ++ le_encode 2 0). now rewrite <- !app_assoc.
  - exists (Raise e), rest. now rewrite <- !app_assoc.
Qed.

Lemma vertex_at_fits (vertices : list vertex) (i : Z) :
  Forall (fun v => vec_fits v = true) vertices -> in_range vertices i ->
  vec_fits (vertex_at vertices i) = true.
Proof.
  intros Hall [H0 H1]. rewrite Forall_forall in Hall. apply Hall.
  unfold vertex_at. apply nth_In. unfold len in H1. lia.
Qed.

Lemma write_face_fallback_ok (vertices : list vertex) (f : face) :
  Forall (fun v => vec_fits v = true) vertices ->
  face_in_range vertices f ->
  exists rec, fallback_record vertices f rec
    /\ forall buf, write_face_fallback vertices f buf = (Ok tt, buf ++ rec).
Proof.
  destruct f as [[a b] c]. intros Hfit (Ha & Hb & Hc).
  destruct (vec_fits_pack _ (vertex_at_fits _ _ Hfit Ha)) as (p0 & E0 & L0).
  destruct (vec_fits_pack _ (vertex_at_fits _ _ Hfit Hb)) as (p1 & E1 & L1).
  destruct (vec_fits_pack _ (vertex_at_fits _ _ Hfit Hc)) as (p2 & E2 & L2).
  apply py_index_in_range in Ha, Hb, Hc.
  exists (zeros 12 ++ (p0 ++ p1 ++ p2) ++ le_encode 2 0). split.
  - exists (vertex_at vertices a), (vertex_at vertices b), (vertex_at vertices c),
      (zeros 12), p0, p1, p2.
    do 8 (split; [assumption || reflexivity|]).
    split; [reflexivity|]. split; [|reflexivity].
    rewrite !length_app. lia.
  - intros buf. unfold write_face_fallback.
    change (pack_fff (f64_of_Z 0, f64_of_Z 0, f64_of_Z 0)) with (Ok (zeros 12)).
    cbn [bind stateful_monad lift]. unfold write at 1.
    rewrite (write_vertices_ok vertices a b c _ _ _ p0 p1 p2 _ Ha Hb Hc E0 E1 E2).
    change (pack_H 0) with (Ok (le_encode 2 0)). unfold write.
    now rewrite <- !app_assoc.
Qed.

Lemma write_fallback_ok (vertices : list vertex) (faces : list face) :
  len faces < 2 ^ 32 ->
  Forall (fun v => vec_fits v = true) vertices ->
  Forall (face_in_range vertices) faces ->
  exists records,
    write_fallback vertices faces []
    = (Ok tt, fallback_header ++ le_encode 4 (len faces) ++ List.concat records)
    /\ Forall2 (fallback_record vertices) faces records.
Proof.
  intros HT Hfit Hfaces.
  assert (H0 : 0 <= len faces) by (unfold len; lia).
  destruct (for_each_appends (write_face_fallback vertices)
              (fallback_record vertices) faces) as (records & HR & Hloop).
  { eapply Forall_impl; [|exact Hfaces]. intros f. now apply write_face_fallback_ok. }
  exists records. split; [|exact HR].
  unfold write_fallback. cbn [bind stateful_monad write lift app].
  rewrite pack_I_ok by lia. unfold write.
  destruct (Hloop (fallback_header ++ le_encode 4 (len faces))) as (us & E).
  rewrite E. cbn [ret]. now rewrite <- app_assoc.
Qed.

Lemma pseudo_vertices_fit (data : bytes) (n : nat) :
  Forall (fun v => vec_fits v = true) (firstn n (pseudo_vertices data)).
Proof.
  apply Forall_forall. intros v Hv.
  assert (Hv' : In v (pseudo_vertices data)).
  { rewrite <- (firstn_skipn n (pseudo_vertices data)). apply in_or_app. now left. }
  clear Hv. rename Hv' into Hv.
  unfold pseudo_vertices in Hv. apply in_map_iff in Hv.
  destruct Hv as (k & <- & _). apply pseudo_vertex_fits.
Qed.

Lemma simple_extraction_unfold (input_file output_file : string)
    (fs : filesystem) (data : bytes) :
  fs input_file = Some data ->
  simple_extraction input_file output_file fs
  = if len (pseudo_vertices data) <? 3 then (Ok tt, fs)
    else with_open_w output_file
           (write_fallback (firstn 100 (pseudo_vertices data))
              (firstn 98 (fan (len (pseudo_vertices data))))) fs.
Proof.
  intros Hfs. unfold simple_extraction, read_file.
  cbn [bind stateful_monad]. rewrite Hfs. cbn [lift].
  rewrite fallback_mesh_spec.
  now destruct (len (pseudo_vertices data) <? 3).
Qed.

(** C8: when fewer than three pseudo-vertices come out of the input bytes,
    [simple_extraction] returns normally and leaves the file system as it
    found it: no output file is created or changed, nothing is raised. *)
Theorem fallback_too_few_vertices
    (input_file output_file : string) (fs : filesystem) (data : bytes) :
  fs input_file = Some data ->
  len (pseudo_vertices data) < 3 ->
  fallback_mesh data = Ok None
  /\ simple_extraction input_file output_file fs = (Ok tt, fs).
Proof.
  intros Hfs Hfew. split.
  - rewrite fallback_mesh_spec.
    destruct (Z.ltb_spec (len (pseudo_vertices data)) 3); [reflexivity|lia].
  - rewrite (simple_extraction_unfold _ _ _ _ Hfs).
    destruct (Z.ltb_spec (len (pseudo_vertices data)) 3); [reflexivity|lia].
Qed.

Lemma fallback_too_few_vertices_witness :
  fallback_mesh (firstn 35 (sample_glb (sample_payload [0; 1; 2]))) = Ok None
  /\ simple_extraction "model.glb" "model.stl"
       (sample_fs (firstn 35 (sample_glb (sample_payload [0; 1; 2]))))
     = (Ok tt, sample_fs (firstn 35 (sample_glb (sample_payload [0; 1; 2])))).
Proof.
  apply (fallback_too_few_vertices "model.glb" "model.stl"
           (sample_fs (firstn 35 (sample_glb (sample_payload [0; 1; 2]))))
           (firstn 35 (sample_glb (sample_payload [0; 1; 2])))).
  - reflexivity.
  - vm_compute. reflexivity.
Defined.

Lemma pseudo_vertices_length (data : bytes) :
  List.length (pseudo_vertices data) = (List.length data / 12)%nat.
Proof. unfold pseudo_vertices. now rewrite length_map, length_seq. Qed.

(** The clamped fallback mesh is one the fallback writer encodes. *)
Lemma fallback_mesh_writes (data : bytes) :
  3 <= len (pseudo_vertices data) ->
  let vertices := firstn 100 (pseudo_vertices data) in
  let faces := firstn 98 (fan (len (pseudo_vertices data))) in
  len vertices = Z.min (len (pseudo_vertices data)) 100
  /\ Forall (fun f => exists i, f = (0, i, i + 1) /\ 1 <= i /\ i + 1 < len vertices)
       faces
  /\ exists records,
       write_fallback vertices faces []
       = (Ok tt, fallback_header ++ le_encode 4 (len faces) ++ List.concat records)
       /\ Forall2 (fallback_record vertices) faces records.
Proof.
  intros Hn vertices faces.
  assert (Hlen : len vertices = Z.min (len (pseudo_vertices data)) 100).
  { unfold vertices, len. rewrite length_firstn. lia. }
  assert (Hfan : Forall (fun f => exists i, f = (0, i, i + 1) /\ 1 <= i
                                            /\ i + 1 < len vertices) faces).
  { apply Forall_forall. intros f Hf. rewrite Hlen. now apply fan_clamped. }
  split; [exact Hlen|]. split; [exact Hfan|].
  apply write_fallback_ok.
  - unfold faces, len. rewrite length_firstn.
    assert (Nat.min 98 (List.length (fan (len (pseudo_vertices data)))) <= 98)%nat
      by apply Nat.le_min_l.
    unfold len in *. lia.
  - apply pseudo_vertices_fit.
  - eapply Forall_impl; [|exact Hfan].
    intros f (i & -> & Hi1 & Hi2). unfold face_in_range, in_range. lia.
Qed.

(** C10: whenever the input yields at least three pseudo-vertices, the mesh
    the fallback keeps (the first 100 vertices, the first 98 triangles of
    the fan) has only triangles (0, i, i+1) with [i + 1] below the number
    of vertices kept, so each lookup of the write loop is within bounds and
    the loop completes. *)
Theorem fallback_lookups_in_bounds (data : bytes) :
  3 <= len (pseudo_vertices data) ->
  exists vertices faces,
    fallback_mesh data = Ok (Some (vertices, faces))
    /\ vertices = firstn 100 (pseudo_vertices data)
    /\ faces = firstn 98 (fan (len (pseudo_vertices data)))
    /\ Forall (fun f => exists i, f = (0, i, i + 1) /\ 1 <= i
                                  /\ i + 1 < len vertices) faces
    /\ (forall a b c idx,
          In (a, b, c) faces -> In idx [a; b; c] ->
          py_index vertices idx = Ok (vertex_at vertices idx))
    /\ exists out, write_fallback vertices faces [] = (Ok tt, out).
Proof.
  intros Hn.
  destruct (fallback_mesh_writes data Hn) as (Hlen & Hfan & records & Hw & _).
  exists (firstn 100 (pseudo_vertices data)),
         (firstn 98 (fan (len (pseudo_vertices data)))).
  split.
  { rewrite fallback_mesh_spec.
    destruct (Z.ltb_spec (len (pseudo_vertices data)) 3); [lia|reflexivity]. }
  do 2 (split; [reflexivity|]). split; [exact Hfan|]. split.
  - intros a b c idx Hin Hidx. rewrite Forall_forall in Hfan.
    destruct (Hfan _ Hin) as (i & [= -> -> ->] & Hi1 & Hi2).
    apply py_index_in_range. unfold in_range.
    destruct Hidx as [<-|[<-|[<-|[]]]]; lia.
  - eauto.
Qed.

Lemma fallback_lookups_in_bounds_witness :
  exists vertices faces,
    fallback_mesh (sample_payload [0; 1; 2]) = Ok (Some (vertices, faces))
    /\ vertices = firstn 100 (pseudo_vertices (sample_payload [0; 1; 2]))
    /\ faces = firstn 98 (fan (len (pseudo_vertices (sample_payload [0; 1; 2]))))
    /\ Forall (fun f => exists i, f = (0, i, i + 1) /\ 1 <= i
                                  /\ i + 1 < len vertices) faces
    /\ (forall a b c idx,
          In (a, b, c) faces -> In idx [a; b; c] ->
          py_index vertices idx = Ok (vertex_at vertices idx))
    /\ exists out, write_fallback vertices faces [] = (Ok tt, out).
Proof.
  apply (fallback_lookups_in_bounds (sample_payload [0; 1; 2])).
  vm_compute. discriminate.
Defined.

(** C5: on an input of twelve floats the fallback derives four
    pseudo-vertices and writes the 80-byte header, the count 2, then the
    records of the triangles (0,1,2) and (0,2,3), each beginning with the
    twelve zero bytes of a zero normal; and whatever the mesh, the record
    of a face starts with those twelve zero bytes, written before any
    vertex is looked at. *)
Theorem fallback_fan_of_four
    (input_file output_file : string) (fs : filesystem) (data : bytes) :
  fs input_file = Some data ->
  len data / 4 = 12 ->
  List.length (pseudo_vertices data) = 4%nat
  /\ (exists rec1 rec2,
        simple_extraction input_file output_file fs
        = (Ok tt, store output_file
                    (fallback_header ++ le_encode 4 2 ++ rec1 ++ rec2) fs)
        /\ fallback_record (pseudo_vertices data) (0, 1, 2) rec1
        /\ fallback_record (pseudo_vertices data) (0, 2, 3) rec2)
  /\ pack_fff zero_vector = Ok (zeros 12)
  /\ (forall vertices f buf, exists r rest,
        write_face_fallback vertices f buf = (r, buf ++ zeros 12 ++ rest)).
Proof.
  intros Hfs H12.
  assert (H4 : List.length (pseudo_vertices data) = 4%nat).
  { rewrite pseudo_vertices_length. unfold len in H12.
    pose proof (Nat2Z.inj_div (List.length data) 4) as H4. cbn [Z.of_nat Pos.of_succ_nat Pos.succ] in H4.
    change (Z.pos 4) with 4 in H4. rewrite H12 in H4.
    assert (Hd : (List.length data / 4 = 12)%nat) by lia.
    replace (List.length data / 12)%nat with (List.length data / 4 / 3)%nat
      by (now rewrite Nat.Div0.div_div).
    now rewrite Hd. }
  assert (Hlen : len (pseudo_vertices data) = 4) by (unfold len; now rewrite H4).
  split; [exact H4|]. split; [|split; [reflexivity|]].
  - rewrite (simple_extraction_unfold _ _ _ _ Hfs).
    destruct (fallback_mesh_writes data ltac:(lia)) as (_ & _ & records & Hw & HR).
    rewrite Hlen in *. cbn [Z.ltb Z.compare Pos.compare Pos.compare_cont].
    rewrite firstn_all2 in * by lia.
    change (firstn 98 (fan 4)) with [(0, 1, 2); (0, 2, 3)] in *.
    inversion HR as [|f1 rec1 fs1 recs1 Hrec1 HR1]; subst.
    inversion HR1 as [|f2 rec2 fs2 recs2 Hrec2 HR2]; subst.
    inversion HR2; subst.
    exists rec1, rec2. split; [|split; assumption].
    unfold with_open_w. rewrite Hw. cbn [List.concat]. now rewrite app_nil_r.
  - intros vertices f buf. apply write_face_fallback_zero_normal.
Qed.

Lemma fallback_fan_of_four_witness :
  List.length (pseudo_vertices (words [1; 2; 3; 4; 5; 6; 7; 8; 9; 10; 11; 12])) = 4%nat
  /\ (exists rec1 rec2,
        simple_extraction "model.glb" "model.stl"
          (sample_fs (words [1; 2; 3; 4; 5; 6; 7; 8; 9; 10; 11; 12]))
        = (Ok tt, store "model.stl"
                    (fallback_header ++ le_encode 4 2 ++ rec1 ++ rec2)
                    (sample_fs (words [1; 2; 3; 4; 5; 6; 7; 8; 9; 10; 11; 12])))
        /\ fallback_record
             (pseudo_vertices (words [1; 2; 3; 4; 5; 6; 7; 8; 9; 10; 11; 12]))
             (0, 1, 2) rec1
        /\ fallback_record
             (pseudo_vertices (words [1; 2; 3; 4; 5; 6; 7; 8; 9; 10; 11; 12]))
             (0, 2, 3) rec2)
  /\ pack_fff zero_vector = Ok (zeros 12)
  /\ (forall vertices f buf, exists r rest,
        write_face_fallback vertices f buf = (r, buf ++ zeros 12 ++ rest)).
Proof.
  apply (fallback_fan_of_four "model.glb" "model.stl"
           (sample_fs (words [1; 2; 3; 4; 5; 6; 7; 8; 9; 10; 11; 12]))
           (words [1; 2; 3; 4; 5; 6; 7; 8; 9; 10; 11; 12])).
  - reflexivity.
  - vm_compute. reflexivity.
Defined.

(* ================================================================= *)
(** ** The text writer *)

Lemma digit_char_is_digit (n : Z) : is_digit (digit_char (n mod 10)) = true.
Proof.
  pose proof (Z.mod_pos_bound n 10 ltac:(lia)) as H.
  assert (Hd : n mod 10 = 0 \/ n mod 10 = 1 \/ n mod 10 = 2 \/ n mod 10 = 3
               \/ n mod 10 = 4 \/ n mod 10 = 5 \/ n mod 10 = 6 \/ n mod 10 = 7
               \/ n mod 10 = 8 \/ n mod 10 = 9) by lia.
  repeat (destruct Hd as [-> | Hd]; [reflexivity|]). now rewrite Hd.
Qed.

Lemma all_digits_app (s t : string) :
  all_digits (s ++ t) = all_digits s && all_digits t.
Proof.
  induction s as [|c s IH]; cbn [String.append all_digits]; [reflexivity|].
  now rewrite IH, andb_assoc.
Qed.

Lemma append_assoc (s t u : string) : ((s ++ t) ++ u = s ++ (t ++ u))%string.
Proof.
  induction s as [|c s IH]; cbn [String.append]; [reflexivity|now rewrite IH].
Qed.

Lemma append_nil_r (s : string) : (s ++ "")%string = s.
Proof.
  induction s as [|c s IH]; cbn [String.append]; [reflexivity|now rewrite IH].
Qed.

Lemma length_append (s t : string) :
  String.length (s ++ t) = (String.length s + String.length t)%nat.
Proof.
  induction s as [|c s IH]; cbn [String.append String.length]; [reflexivity|].
  now rewrite IH.
Qed.

Lemma decimal_digits_shape (fuel : nat) (n : Z) (acc : string) :
  exists ds, decimal_digits fuel n acc = (ds ++ acc)%string
             /\ all_digits ds = true
             /\ (fuel <> O -> ds <> EmptyString).
Proof.
  revert n acc; induction fuel as [|fuel IH]; intros n acc.
  - exists EmptyString. repeat split. congruence.
  - cbn [decimal_digits].
    destruct (n <? 10).
    + exists (String (digit_char (n mod 10)) EmptyString). repeat split.
      * cbn [all_digits]. now rewrite digit_char_is_digit.
      * discriminate.
    + destruct (IH (n / 10) (String (digit_char (n mod 10)) acc))
        as (ds & E & Hd & _).
      exists (ds ++ String (digit_char (n mod 10)) EmptyString)%string.
      repeat split.
      * rewrite E. now rewrite append_assoc.
      * rewrite all_digits_app, Hd. cbn [all_digits].
        now rewrite digit_char_is_digit.
      * destruct ds; discriminate.
Qed.

Lemma fixed_digits_shape (k : nat) (n : Z) (acc : string) :
  exists ds, fixed_digits k n acc = (ds ++ acc)%string
             /\ all_digits ds = true /\ String.length ds = k.
Proof.
  revert n acc; induction k as [|k IH]; intros n acc.
  - exists EmptyString. repeat split.
  - cbn [fixed_digits].
    destruct (IH (n / 10) (String (digit_char (n mod 10)) acc)) as (ds & E & Hd & Hl).
    exists (ds ++ String (digit_char (n mod 10)) EmptyString)%string.
    repeat split.
    + rewrite E. now rewrite append_assoc.
    + rewrite all_digits_app, Hd. cbn [all_digits].
      now rewrite digit_char_is_digit.
    + rewrite length_append, Hl. cbn [String.length]. lia.
Qed.

Lemma digits_value_app (s t : string) (acc : Z) :
  digits_value (s ++ t) acc = digits_value t (digits_value s acc).
Proof.
  revert acc; induction s as [|c s IH]; intros acc;
    cbn [String.append digits_value]; [reflexivity|apply IH].
Qed.

Lemma digit_char_value (n : Z) :
  Z.of_nat (nat_of_ascii (digit_char (n mod 10))) - 48 = n mod 10.
Proof.
  pose proof (Z.mod_pos_bound n 10 ltac:(lia)) as H.
  assert (Hd : n mod 10 = 0 \/ n mod 10 = 1 \/ n mod 10 = 2 \/ n mod 10 = 3
               \/ n mod 10 = 4 \/ n mod 10 = 5 \/ n mod 10 = 6 \/ n mod 10 = 7
               \/ n mod 10 = 8 \/ n mod 10 = 9) by lia.
  repeat (destruct Hd as [-> | Hd]; [reflexivity|]). now rewrite Hd.
Qed.

Lemma decimal_digits_value (fuel : nat) (n : Z) (acc : string) :
  0 <= n < 10 ^ Z.of_nat fuel ->
  exists ds, decimal_digits fuel n acc = (ds ++ acc)%string
             /\ digits_value ds 0 = n.
Proof.
  revert n acc; induction fuel as [|fuel IH]; intros n acc Hn.
  - exists EmptyString. split; [reflexivity|]. cbn in *. lia.
  - cbn [decimal_digits].
    destruct (Z.ltb_spec n 10) as [Hlt|Hge].
    + exists (String (digit_char (n mod 10)) EmptyString). split; [reflexivity|].
      cbn [digits_value]. rewrite digit_char_value. rewrite Z.mod_small; lia.
    + destruct (IH (n / 10) (String (digit_char (n mod 10)) acc)) as (ds & E & Hv).
      { rewrite Nat2Z.inj_succ, Z.pow_succ_r in Hn by lia.
        split; [apply Z.div_pos; lia|apply Z.div_lt_upper_bound; lia]. }
      exists (ds ++ String (digit_char (n mod 10)) EmptyString)%string. split.
      * rewrite E. now rewrite append_assoc.
      * rewrite digits_value_app, Hv. cbn [digits_value].
        rewrite digit_char_value. pose proof (Z.div_mod n 10 ltac:(lia)). lia.
Qed.

(** [decimal] writes every digit of its argument. *)
Lemma decimal_value (n : Z) : 0 <= n -> digits_value (decimal n) 0 = n.
Proof.
  intros Hn. unfold decimal.
  destruct (decimal_digits_value (S (Z.to_nat (Z.log2 n))) n EmptyString)
    as (ds & E & Hv).
  - split; [exact Hn|].
    rewrite Nat2Z.inj_succ, Z2Nat.id by apply Z.log2_nonneg.
    destruct (Z.eq_dec n 0) as [->|Hnz]; [reflexivity|].
    pose proof (Z.log2_spec n ltac:(lia)) as [_ Hup].
    eapply Z.lt_le_trans; [exact Hup|].
    apply Z.pow_le_mono_l. pose proof (Z.log2_nonneg n). lia.
  - now rewrite E, append_nil_r.
Qed.

Lemma split_at_point_digits (ds rest : string) :
  all_digits ds = true ->
  split_at_point (ds ++ String "." rest) = Some (ds, rest).
Proof.
  induction ds as [|c ds IH]; cbn [String.append split_at_point all_digits].
  - reflexivity.
  - rewrite andb_true_iff. intros [Hc Hds].
    destruct (Ascii.eqb_spec c ".") as [->|_]; [discriminate|].
    now rewrite IH.
Qed.

Lemma strip_minus_digits (ds rest : string) :
  all_digits ds = true -> ds <> EmptyString ->
  strip_minus (ds ++ rest) = (ds ++ rest)%string.
Proof.
  destruct ds as [|c ds]; [congruence|].
  cbn [all_digits String.append strip_minus]. rewrite andb_true_iff.
  intros [Hc _] _. destruct (Ascii.eqb_spec c "-") as [->|_]; [discriminate|].
  reflexivity.
Qed.

(** A numeral built of a sign, digits, a point and six digits is in the
    fixed six-decimal notation. *)
Lemma is_fixed6_intro (negative : bool) (ip fp : string) :
  all_digits ip = true -> ip <> EmptyString ->
  all_digits fp = true -> String.length fp = 6%nat ->
  is_fixed6 ((if negative then "-" else "") ++ ip ++ "." ++ fp) = true.
Proof.
  intros Hip Hne Hfp Hlen. unfold is_fixed6.
  assert (E : strip_minus ((if negative then "-" else "") ++ ip ++ "." ++ fp)
              = (ip ++ String "." fp)%string).
  { destruct negative; cbn [String.append strip_minus].
    - reflexivity.
    - now apply strip_minus_digits. }
  rewrite E, split_at_point_digits by exact Hip.
  rewrite Hip, Hfp, Hlen.
  destruct (String.eqb_spec ip EmptyString); [contradiction|reflexivity].
Qed.

Lemma format_6f_fixed (x : float64) :
  is_finite x = true -> is_fixed6 (format_6f x) = true.
Proof.
  destruct x as [s|s| |s m e]; try discriminate; intros _.
  - now destruct s.
  - unfold format_6f.
    set (scaled := if 0 <=? e then Z.pos m * 2 ^ e * 10 ^ 6
                   else round_half_even (Z.pos m * 10 ^ 6) (2 ^ (- e))).
    unfold decimal.
    destruct (decimal_digits_shape (S (Z.to_nat (Z.log2 (scaled / 10 ^ 6))))
                (scaled / 10 ^ 6) EmptyString) as (ip & Eip & Hip & Hne).
    destruct (fixed_digits_shape 6 (scaled mod 10 ^ 6) EmptyString)
      as (fp & Efp & Hfp & Hlen).
    rewrite Eip, Efp, !append_nil_r.
    apply is_fixed6_intro; auto.
Qed.

Lemma b_app (s t : string) : b_ (s ++ t) = b_ s ++ b_ t.
Proof.
  unfold b_, list_byte_of_string.
  induction s as [|c s IH]; cbn [String.append list_ascii_of_string map app];
    [reflexivity|now rewrite IH].
Qed.

Lemma write_face_ascii_ok (vertices : list vertex) (f : face) (buf : bytes) :
  face_in_range vertices f ->
  write_face_ascii vertices f buf = (Ok tt, buf ++ b_ (facet_text vertices f)).
Proof.
  destruct f as [[a b] c]. intros (Ha & Hb & Hc).
  unfold write_face_ascii, facet_text.
  cbn [bind stateful_monad lift for_each ret].
  rewrite (py_index_in_range _ _ Ha), (py_index_in_range _ _ Hb),
    (py_index_in_range _ _ Hc).
  unfold write_text, write. rewrite !b_app. f_equal.
  repeat rewrite <- app_assoc. reflexivity.
Qed.

Lemma write_faces_ascii_ok (vertices : list vertex) (faces : list face) :
  Forall (face_in_range vertices) faces ->
  forall buf, exists us,
    for_each (write_face_ascii vertices) faces buf
    = (Ok us, buf ++ b_ (join (map (facet_text vertices) faces))).
Proof.
  induction 1 as [|f faces Hf _ IH]; intros buf.
  - exists []. cbn. now rewrite app_nil_r.
  - cbn [for_each bind stateful_monad ret map join fold_right].
    rewrite (write_face_ascii_ok _ _ _ Hf).
    destruct (IH (buf ++ b_ (facet_text vertices f))) as (us & E). rewrite E.
    exists (tt :: us). fold (join (map (facet_text vertices) faces)).
    now rewrite b_app, app_assoc.
Qed.

(** C9: in the text output every normal component and every coordinate is
    written by the six-decimal conversion: each facet is its normal line
    and its three vertex lines, whose numbers are [format_6f] of the
    values.  [format_6f] of a finite value is an optional minus sign,
    digits, a point and exactly six digits, whatever its magnitude: 1.0
    gives "1.000000" and 0.000001 gives "0.000001".  A value that is not
    finite is written by its name, "inf", "-inf" or "nan", which is no
    fixed-point numeral. *)
Theorem ascii_six_decimals :
  (forall x, is_finite x = true -> is_fixed6 (format_6f x) = true)
  /\ format_6f f64_one = "1.000000"%string
  /\ format_6f f64_millionth = "0.000001"%string
  /\ (forall n0 n1 n2,
        normal_line (n0, n1, n2)
        = ("facet normal " ++ format_6f n0 ++ " " ++ format_6f n1 ++ " "
             ++ format_6f n2 ++ nl)%string)
  /\ (forall x y z,
        vertex_line (x, y, z)
        = ("    vertex " ++ format_6f x ++ " " ++ format_6f y ++ " "
             ++ format_6f z ++ nl)%string)
  /\ (forall vertices faces,
        Forall (face_in_range vertices) faces ->
        write_stl_ascii vertices faces []
        = (Ok tt, b_ (ascii_text vertices faces)))
  /\ (forall x, is_finite x = false ->
        is_fixed6 (format_6f x) = false
        /\ In (format_6f x) ["inf"; "-inf"; "nan"]%string).
Proof.
  split; [exact format_6f_fixed|].
  split; [vm_compute; reflexivity|].
  split; [vm_compute; reflexivity|].
  split; [reflexivity|]. split; [reflexivity|].
  split.
  - intros vertices faces Hfaces.
    unfold write_stl_ascii, ascii_text. cbn [bind stateful_monad].
    unfold write_text at 1. unfold write at 1. cbn [app].
    destruct (write_faces_ascii_ok vertices faces Hfaces (b_ ("solid glTF_converted" ++ nl)))
      as (us & E).
    rewrite E. unfold write_text, write. rewrite !b_app. f_equal.
    repeat rewrite <- app_assoc. reflexivity.
  - intros x Hx. destruct x as [s|s| |s m e]; try discriminate Hx.
    + destruct s; (split; [reflexivity|cbn; auto]).
    + split; [reflexivity|cbn; auto].
Qed.

Lemma ascii_six_decimals_witness :
  is_fixed6 (format_6f (SFdiv 53 1024 (f64_of_Z (-2)) (f64_of_Z 3))) = true
  /\ write_stl_ascii
       [(f64_zero, f64_zero, f64_zero); (f64_one, f64_zero, f64_zero);
        (f64_zero, f64_one, f64_zero)] [(0, 1, 2)] []
     = (Ok tt,
        b_ (ascii_text
              [(f64_zero, f64_zero, f64_zero); (f64_one, f64_zero, f64_zero);
               (f64_zero, f64_one, f64_zero)] [(0, 1, 2)]))
  /\ is_fixed6 (format_6f (S754_infinity true)) = false.
Proof.
  split; [|split].
  - apply (proj1 ascii_six_decimals). reflexivity.
  - apply (proj1 (proj2 (proj2 (proj2 (proj2 (proj2 ascii_six_decimals)))))).
    repeat constructor; unfold len; simpl; lia.
  - apply (proj2 (proj2 (proj2 (proj2 (proj2 (proj2 ascii_six_decimals)))))).
    reflexivity.
Defined.

(** C9, the claim as worded fails: the payload can hold the binary32
    infinity as a coordinate; the extractor returns it, the ASCII writer
    returns normally, and the facet it writes has the normal line
    "facet normal 0.000000 nan inf" and the vertex line
    "    vertex inf 0.000000 0.000000", whose "nan" and "inf" have no six
    decimals. *)
Lemma ascii_non_finite_by_name :
  extract_mesh_from_glb (sample_scene 3 36 3) inf_payload
  = Ok (inf_vertices, [(0, 1, 2)])
  /\ write_stl_ascii inf_vertices [(0, 1, 2)] []
     = (Ok tt, b_ (ascii_text inf_vertices [(0, 1, 2)]))
  /\ facet_text inf_vertices (0, 1, 2)
     = ("facet normal 0.000000 nan inf" ++ nl
        ++ "  outer loop" ++ nl
        ++ "    vertex 0.000000 0.000000 0.000000" ++ nl
        ++ "    vertex inf 0.000000 0.000000" ++ nl
        ++ "    vertex 0.000000 1.000000 0.000000" ++ nl
        ++ "  endloop" ++ nl
        ++ "endfacet" ++ nl)%string
  /\ is_fixed6 "inf" = false
  /\ is_fixed6 "nan" = false.
Proof.
  split; [vm_compute; reflexivity|].
  split; [vm_compute; reflexivity|].
  split; [vm_compute; reflexivity|].
  split; reflexivity.
Qed.

(* ================================================================= *)
(** * Further properties of the code *)

(** ** The chunk parser on whole files *)

Lemma bytes_eqb_true (a b : bytes) : bytes_eqb a b = true -> a = b.
Proof. unfold bytes_eqb. now destruct (list_eq_dec Byte.byte_eq_dec a b). Qed.

Lemma bytes_eqb_refl (a : bytes) : bytes_eqb a a = true.
Proof. unfold bytes_eqb. now destruct (list_eq_dec Byte.byte_eq_dec a a). Qed.

Lemma unpack_I_length (b : bytes) (n : Z) :
  unpack_I b = Ok n -> List.length b = 4%nat.
Proof.
  unfold unpack_I. destruct (Nat.eqb_spec (List.length b) 4); [auto|discriminate].
Qed.

Lemma unpack_I_encode (n : Z) :
  0 <= n < 2 ^ 32 -> unpack_I (le_encode 4 n) = Ok n.
Proof.
  intros Hn. unfold unpack_I. rewrite le_encode_length, le_decode_encode.
  cbn [Nat.eqb]. f_equal. apply Z.mod_small. simpl. lia.
Qed.

(** The read position plays no part in the result: the parser reads each
    field at a fixed offset of the file. *)
Lemma parse_glb_stream_bytes (json_loads : bytes -> result json) (data : bytes) :
  fst (parse_glb_stream json_loads (open_rb data)) = parse_glb_bytes json_loads data.
Proof.
  unfold parse_glb_stream, parse_glb_bytes, open_rb.
  cbn [bind stateful_monad result_monad read content pos Z.to_nat lift].
  change (Pos.to_nat 4) with 4%nat. change (skipn 0 data) with data.
  destruct (bytes_eqb (firstn 4 data) (b_ "glTF")) eqn:Emagic; cbn [negb]; [|reflexivity].
  apply bytes_eqb_true in Emagic. rewrite Emagic.
  change (0 + List.length (b_ "glTF"))%nat with 4%nat. cbn [pos content].
  destruct (unpack_I (firstn 4 (skipn 4 data))) as [version|e] eqn:Ev; [|reflexivity].
  rewrite (unpack_I_length _ _ Ev). change (4 + 4)%nat with 8%nat. cbn [pos content].
  destruct (unpack_I (firstn 4 (skipn 8 data))) as [total|e] eqn:Et; [|reflexivity].
  rewrite (unpack_I_length _ _ Et). change (8 + 4)%nat with 12%nat. cbn [pos content].
  destruct (unpack_I (firstn 4 (skipn 12 data))) as [n|e] eqn:En; [|reflexivity].
  rewrite (unpack_I_length _ _ En). change (12 + 4)%nat with 16%nat. cbn [pos content].
  destruct (bytes_eqb (firstn 4 (skipn 16 data)) (b_ "JSON")) eqn:Etag; cbn [negb];
    [|reflexivity].
  apply bytes_eqb_true in Etag. rewrite Etag.
  change (16 + List.length (b_ "JSON"))%nat with 20%nat. cbn [pos content].
  destruct (json_loads (firstn (Z.to_nat n) (skipn 20 data))) as [scene|e] eqn:Ej;
    [|reflexivity].
  set (after := (20 + List.length (firstn (Z.to_nat n) (skipn 20 data)))%nat).
  destruct (unpack_I (firstn 4 (skipn after data))) as [m|e] eqn:Em; [|reflexivity].
  rewrite (unpack_I_length _ _ Em). cbn [pos content].
  destruct (bytes_eqb (firstn 4 (skipn (after + 4) data)) (b_ "BIN" ++ [x00])) eqn:Eb;
    cbn [negb]; [|reflexivity].
  apply bytes_eqb_true in Eb. rewrite Eb. cbn [fst ret stateful_monad pos content].
  change (List.length (b_ "BIN" ++ [x00])) with 4%nat.
  replace (after + 4 + 4)%nat with (after + 8)%nat by lia. reflexivity.
Qed.

Lemma skipn_chunk (a tail : bytes) (k : nat) :
  List.length a = k -> skipn k (a ++ tail) = tail.
Proof.
  intros <-. rewrite skipn_app, skipn_all, Nat.sub_diag. reflexivity.
Qed.

Lemma firstn_chunk (a tail : bytes) (k : nat) :
  List.length a = k -> firstn k (a ++ tail) = a.
Proof.
  intros <-. rewrite firstn_app, firstn_all, Nat.sub_diag. cbn. apply app_nil_r.
Qed.

(** The fields of a header followed by [tail]. *)
Lemma glb_header_fields (version total : Z) (tail : bytes) :
  firstn 4 (glb_header version total ++ tail) = b_ "glTF"
  /\ List.length (firstn 4 (skipn 4 (glb_header version total ++ tail))) = 4%nat
  /\ List.length (firstn 4 (skipn 8 (glb_header version total ++ tail))) = 4%nat
  /\ skipn 12 (glb_header version total ++ tail) = tail.
Proof.
  unfold glb_header. repeat split.
Qed.

Lemma unpack_I_of_length (b : bytes) :
  List.length b = 4%nat -> unpack_I b = Ok (le_decode b).
Proof. intros H. unfold unpack_I. now rewrite H. Qed.

Lemma skipn_more (k j : nat) (data tail : bytes) :
  skipn k data = tail -> skipn (j + k) data = skipn j tail.
Proof. intros <-. now rewrite skipn_skipn. Qed.

(** Parsing a file whose JSON chunk is well framed comes down to decoding
    that chunk and reading the second chunk header from what follows. *)
Lemma parse_json_part (json_loads : bytes -> result json) (version total : Z)
    (json_data tail : bytes) :
  len json_data < 2 ^ 32 ->
  parse_glb_bytes json_loads (glb_json_part version total json_data ++ tail)
  = (scene <- json_loads json_data ;;
     chunk_length <- unpack_I (firstn 4 tail) ;;
     if negb (bytes_eqb (firstn 4 (skipn 4 tail)) (b_ "BIN" ++ [x00]))
     then Raise (ValueError "Expected BIN chunk")
     else Ok (scene, firstn (Z.to_nat chunk_length) (skipn 8 tail))).
Proof.
  intros Hlen.
  assert (H0 : 0 <= len json_data) by (unfold len; lia).
  set (t16 := b_ "JSON" ++ json_data ++ tail).
  set (t12 := le_encode 4 (len json_data) ++ t16).
  assert (Edata : glb_json_part version total json_data ++ tail
                  = glb_header version total ++ t12).
  { unfold glb_json_part, t12, t16. now rewrite <- !app_assoc. }
  rewrite Edata. set (data := glb_header version total ++ t12).
  destruct (glb_header_fields version total t12) as (Hmagic & L4 & L8 & S12).
  fold data in Hmagic, L4, L8, S12.
  assert (S16 : skipn 16 data = t16).
  { change (skipn 16 data) with (skipn (4 + 12) data).
    rewrite (skipn_more 12 4 data t12 S12). apply skipn_chunk, le_encode_length. }
  assert (S20 : skipn 20 data = json_data ++ tail).
  { change (skipn 20 data) with (skipn (4 + 16) data).
    rewrite (skipn_more 16 4 data t16 S16). now apply skipn_chunk. }
  unfold parse_glb_bytes.
  rewrite Hmagic, bytes_eqb_refl. cbn [negb bind result_monad].
  rewrite (unpack_I_of_length _ L4), (unpack_I_of_length _ L8).
  rewrite S12. unfold t12 at 1. rewrite (firstn_chunk _ _ 4) by apply le_encode_length.
  rewrite unpack_I_encode by lia.
  rewrite S16. unfold t16 at 1. rewrite (firstn_chunk _ _ 4) by reflexivity.
  rewrite bytes_eqb_refl. cbn [negb].
  rewrite S20.
  rewrite (firstn_chunk json_data tail) by (unfold len; lia).
  cbv zeta.
  rewrite (Nat.add_comm 20 (List.length json_data)).
  rewrite (skipn_more 20 (List.length json_data) data _ S20).
  rewrite (skipn_chunk json_data tail) by reflexivity.
  replace (List.length json_data + 20 + 4)%nat
    with (4 + (List.length json_data + 20))%nat by lia.
  replace (List.length json_data + 20 + 8)%nat
    with (8 + (List.length json_data + 20))%nat by lia.
  rewrite <- !skipn_skipn. rewrite S20.
  rewrite (skipn_chunk json_data tail) by reflexivity.
  reflexivity.
Qed.

Lemma parse_container_bytes
    (json_loads : bytes -> result json) (version total : Z)
    (json_data : bytes) (bin_length : Z) (rest : bytes) :
  len json_data < 2 ^ 32 ->
  0 <= bin_length < 2 ^ 32 ->
  parse_glb_bytes json_loads (glb_container version total json_data bin_length rest)
  = match json_loads json_data with
    | Ok scene => Ok (scene, firstn (Z.to_nat bin_length) rest)
    | Raise e => Raise e
    end.
Proof.
  intros Hjs Hbin. unfold glb_container.
  rewrite parse_json_part by exact Hjs.
  destruct (json_loads json_data) as [scene|e]; cbn [bind result_monad]; [|reflexivity].
  rewrite (firstn_chunk _ _ 4) by apply le_encode_length.
  rewrite unpack_I_encode by exact Hbin. cbn [bind result_monad].
  rewrite (skipn_chunk _ _ 4) by apply le_encode_length.
  rewrite (firstn_chunk (b_ "BIN" ++ [x00]) rest 4) by reflexivity.
  rewrite bytes_eqb_refl. cbn [negb].
  replace (skipn 8 (le_encode 4 bin_length ++ (b_ "BIN" ++ [x00]) ++ rest)) with rest.
  - reflexivity.
  - symmetry. rewrite app_assoc. apply skipn_chunk.
    rewrite length_app, le_encode_length. reflexivity.
Qed.

(** X1: on a container (the magic tag, any version and total-length
    fields, a JSON chunk, a binary chunk header declaring [bin_length]
    bytes, then [rest]) the parser returns the decoded JSON chunk and the
    first [bin_length] bytes of [rest] as they are, fewer when the file ends
    before; the version and total-length fields are not checked, whatever
    follows the declared payload is not read, and a JSON chunk the decoder
    rejects makes the parser raise the decoder's error. *)
Theorem parse_glb_container
    (json_loads : bytes -> result json) (version total : Z)
    (json_data : bytes) (bin_length : Z) (rest : bytes) :
  len json_data < 2 ^ 32 ->
  0 <= bin_length < 2 ^ 32 ->
  fst (parse_glb_stream json_loads
         (open_rb (glb_container version total json_data bin_length rest)))
  = match json_loads json_data with
    | Ok scene => Ok (scene, firstn (Z.to_nat bin_length) rest)
    | Raise e => Raise e
    end.
Proof.
  intros Hjs Hbin. rewrite parse_glb_stream_bytes.
  now apply parse_container_bytes.
Qed.

Lemma parse_glb_container_witness :
  fst (parse_glb_stream (fun _ => Ok JNull)
         (open_rb (glb_container 2 0 (b_ "{}") 3 (b_ "abcdef"))))
  = Ok (JNull, b_ "abc").
Proof.
  apply (parse_glb_container (fun _ => Ok JNull) 2 0 (b_ "{}") 3 (b_ "abcdef")).
  - reflexivity.
  - split; [discriminate|reflexivity].
Defined.

(** X2: a file whose first chunk is not tagged JSON is refused with the
    format error of that tag, whatever the chunk holds: the JSON decoder is
    not called. *)
Theorem parse_glb_first_chunk_not_json
    (json_loads : bytes -> result json) (version total chunk_length : Z)
    (tail : bytes) :
  firstn 4 tail <> b_ "JSON" ->
  fst (parse_glb_stream json_loads
         (open_rb (glb_header version total ++ le_encode 4 chunk_length ++ tail)))
  = Raise (ValueError "Expected JSON chunk first").
Proof.
  intros Htag. rewrite parse_glb_stream_bytes.
  set (t12 := le_encode 4 chunk_length ++ tail).
  destruct (glb_header_fields version total t12) as (Hmagic & L4 & L8 & S12).
  set (data := glb_header version total ++ t12) in *.
  assert (S16 : skipn 16 data = tail).
  { change (skipn 16 data) with (skipn (4 + 12) data).
    rewrite (skipn_more 12 4 data t12 S12). apply skipn_chunk, le_encode_length. }
  unfold parse_glb_bytes.
  rewrite Hmagic, bytes_eqb_refl. cbn [negb bind result_monad].
  rewrite (unpack_I_of_length _ L4), (unpack_I_of_length _ L8).
  rewrite S12. unfold t12 at 1. rewrite (firstn_chunk _ _ 4) by apply le_encode_length.
  rewrite (unpack_I_of_length (le_encode 4 chunk_length)) by apply le_encode_length.
  rewrite S16, (bytes_eqb_false _ _ Htag). reflexivity.
Qed.

Lemma parse_glb_first_chunk_not_json_witness :
  fst (parse_glb_stream (fun _ => Ok JNull)
         (open_rb (glb_header 2 0 ++ le_encode 4 2 ++ b_ "BIN.{}")))
  = Raise (ValueError "Expected JSON chunk first").
Proof.
  apply (parse_glb_first_chunk_not_json (fun _ => Ok JNull) 2 0 2 (b_ "BIN.{}")).
  vm_compute. discriminate.
Defined.

(** X3: a file that is well formed up to the end of its JSON chunk and
    then goes on with a chunk not tagged BIN is refused with the format
    error of that tag, after the JSON chunk was decoded. *)
Theorem parse_glb_second_chunk_not_bin
    (json_loads : bytes -> result json) (version total : Z)
    (json_data : bytes) (scene : json) (chunk_length : Z) (tail : bytes) :
  len json_data < 2 ^ 32 ->
  json_loads json_data = Ok scene ->
  firstn 4 tail <> b_ "BIN" ++ [x00] ->
  fst (parse_glb_stream json_loads
         (open_rb (glb_json_part version total json_data
                   ++ le_encode 4 chunk_length ++ tail)))
  = Raise (ValueError "Expected BIN chunk").
Proof.
  intros Hjs Hscene Htag. rewrite parse_glb_stream_bytes.
  rewrite parse_json_part by exact Hjs. rewrite Hscene. cbn [bind result_monad].
  rewrite (firstn_chunk _ _ 4) by apply le_encode_length.
  rewrite (unpack_I_of_length (le_encode 4 chunk_length)) by apply le_encode_length.
  cbn [bind result_monad].
  rewrite (skipn_chunk _ _ 4) by apply le_encode_length.
  now rewrite (bytes_eqb_false _ _ Htag).
Qed.

Lemma parse_glb_second_chunk_not_bin_witness :
  fst (parse_glb_stream (fun _ => Ok JNull)
         (open_rb (glb_json_part 2 0 (b_ "{}") ++ le_encode 4 4 ++ b_ "JSON{}{}")))
  = Raise (ValueError "Expected BIN chunk").
Proof.
  apply (parse_glb_second_chunk_not_bin (fun _ => Ok JNull) 2 0 (b_ "{}") JNull 4
           (b_ "JSON{}{}")).
  - reflexivity.
  - reflexivity.
  - vm_compute. discriminate.
Defined.

(** X4: a file that ends with its JSON chunk, or less than four bytes
    after it, has no second chunk header to unpack: the parser raises
    [struct.error], so a container without a binary chunk is not
    converted. *)
Theorem parse_glb_without_binary_chunk
    (json_loads : bytes -> result json) (version total : Z)
    (json_data : bytes) (scene : json) (tail : bytes) :
  len json_data < 2 ^ 32 ->
  json_loads json_data = Ok scene ->
  (List.length tail < 4)%nat ->
  fst (parse_glb_stream json_loads
         (open_rb (glb_json_part version total json_data ++ tail)))
  = Raise StructError.
Proof.
  intros Hjs Hscene Hshort. rewrite parse_glb_stream_bytes.
  rewrite parse_json_part by exact Hjs. rewrite Hscene. cbn [bind result_monad].
  unfold unpack_I. rewrite length_firstn.
  destruct (Nat.eqb_spec (Nat.min 4 (List.length tail)) 4); [lia|reflexivity].
Qed.

Lemma parse_glb_without_binary_chunk_witness :
  fst (parse_glb_stream (fun _ => Ok (sample_scene 3 36 3))
         (open_rb (glb_json_part 2 0 (b_ "{}") ++ [])))
  = Raise StructError.
Proof.
  apply (parse_glb_without_binary_chunk (fun _ => Ok (sample_scene 3 36 3)) 2 0
           (b_ "{}") (sample_scene 3 36 3) []).
  - reflexivity.
  - reflexivity.
  - simpl. lia.
Defined.

(** X5: a file that starts with the magic tag and is shorter than the
    sixteen bytes of the header and the first chunk length makes the
    parser raise [struct.error]: one of the three integer fields is cut. *)
Theorem parse_glb_truncated_header
    (json_loads : bytes -> result json) (data : bytes) :
  firstn 4 data = b_ "glTF" ->
  (List.length data < 16)%nat ->
  fst (parse_glb_stream json_loads (open_rb data)) = Raise StructError.
Proof.
  intros Hmagic Hshort. rewrite parse_glb_stream_bytes. unfold parse_glb_bytes.
  rewrite Hmagic, bytes_eqb_refl. cbn [negb bind result_monad].
  unfold unpack_I. rewrite !length_firstn, !length_skipn.
  destruct (Nat.eqb_spec (Nat.min 4 (List.length data - 4)) 4); [|reflexivity].
  destruct (Nat.eqb_spec (Nat.min 4 (List.length data - 8)) 4); [|reflexivity].
  destruct (Nat.eqb_spec (Nat.min 4 (List.length data - 12)) 4); [lia|reflexivity].
Qed.

Lemma parse_glb_truncated_header_witness :
  fst (parse_glb_stream (fun _ => Ok JNull) (open_rb (b_ "glTF...."))) = Raise StructError.
Proof.
  apply (parse_glb_truncated_header (fun _ => Ok JNull) (b_ "glTF....")).
  - reflexivity.
  - simpl. lia.
Defined.

(* ================================================================= *)
(** ** The mesh extractor on well-formed and ill-formed scenes *)

Lemma py_slice_chunk (bin_data : bytes) (offset : Z) :
  0 <= offset -> offset + 12 <= len bin_data ->
  py_slice bin_data offset (offset + 12) = chunk12 bin_data offset
  /\ List.length (chunk12 bin_data offset) = 12%nat.
Proof.
  unfold py_slice, slice_bound, chunk12, len. intros H0 H1.
  destruct (Z.ltb_spec offset 0); [lia|].
  destruct (Z.ltb_spec (offset + 12) 0); [lia|].
  rewrite !Z.min_l by lia.
  replace (Z.to_nat (offset + 12 - offset)) with 12%nat by lia.
  split; [reflexivity|].
  rewrite length_firstn, length_skipn. lia.
Qed.

Lemma unpack_fff_chunk (b : bytes) :
  List.length b = 12%nat -> unpack_fff b = Ok (floats3 b).
Proof. intros H. unfold unpack_fff. now rewrite H. Qed.

Lemma unpack_III_chunk (b : bytes) :
  List.length b = 12%nat -> unpack_III b = Ok (words3 b).
Proof. intros H. unfold unpack_III. now rewrite H. Qed.

Lemma read_vertices_ok (bin_data : bytes) (offset count : Z) :
  0 <= offset -> 0 <= count -> offset + 12 * count <= len bin_data ->
  read_vertices bin_data (JInt offset) (JInt count)
  = Ok (decoded_vertices bin_data offset count).
Proof.
  intros Ho Hc Hlen. unfold read_vertices, decoded_vertices, py_range.
  cbn [as_index bind result_monad].
  replace (Z.to_nat ((count - 0 + 1 - 1) / 1)) with (Z.to_nat count)
    by (rewrite Z.div_1_r; lia).
  apply for_each_map_ok. intros k Hk. apply in_seq in Hk.
  cbn [offset_plus as_index bind result_monad ret].
  replace (offset + (0 + 1 * Z.of_nat k) * 12) with (offset + 12 * Z.of_nat k) by lia.
  destruct (py_slice_chunk bin_data (offset + 12 * Z.of_nat k)) as [-> L]; [lia|lia|].
  now apply unpack_fff_chunk.
Qed.

Lemma read_faces_ok (bin_data : bytes) (offset triangles : Z) :
  0 <= offset -> 0 <= triangles -> offset + 12 * triangles <= len bin_data ->
  read_faces bin_data (JInt offset) (JInt (3 * triangles))
  = Ok (decoded_faces bin_data offset triangles).
Proof.
  intros Ho Hc Hlen. unfold read_faces, decoded_faces, py_range.
  cbn [as_index bind result_monad].
  replace (Z.to_nat ((3 * triangles - 0 + 3 - 1) / 3)) with (Z.to_nat triangles).
  - apply for_each_map_ok. intros k Hk. apply in_seq in Hk.
    cbn [offset_plus as_index bind result_monad ret].
    replace (offset + (0 + 3 * Z.of_nat k) * 4) with (offset + 12 * Z.of_nat k) by lia.
    destruct (py_slice_chunk bin_data (offset + 12 * Z.of_nat k)) as [-> L]; [lia|lia|].
    now apply unpack_III_chunk.
  - f_equal. replace (3 * triangles - 0 + 3 - 1) with (2 + triangles * 3) by lia.
    rewrite Z.div_add by lia. reflexivity.
Qed.

Lemma decoded_vertices_length (bin_data : bytes) (offset count : Z) :
  0 <= count -> len (decoded_vertices bin_data offset count) = count.
Proof.
  intros H. unfold decoded_vertices, len. rewrite length_map, length_seq. lia.
Qed.

Lemma decoded_faces_length (bin_data : bytes) (offset count : Z) :
  0 <= count -> len (decoded_faces bin_data offset count) = count.
Proof.
  intros H. unfold decoded_faces, len. rewrite length_map, length_seq. lia.
Qed.

(** X6: when the [count] positions declared from a non-negative byte
    offset all lie within the payload, the vertex loop returns exactly
    [count] vertices, in order, vertex [k] being the three little-endian
    binary32 floats at bytes [offset + 12 k .. offset + 12 k + 12]. *)
Theorem read_vertices_decodes (bin_data : bytes) (offset count : Z) :
  0 <= offset -> 0 <= count -> offset + 12 * count <= len bin_data ->
  read_vertices bin_data (JInt offset) (JInt count)
  = Ok (decoded_vertices bin_data offset count)
  /\ len (decoded_vertices bin_data offset count) = count.
Proof.
  intros Ho Hc Hlen. split.
  - now apply read_vertices_ok.
  - now apply decoded_vertices_length.
Qed.

Lemma read_vertices_decodes_witness :
  read_vertices (sample_payload [0; 1; 2]) (JInt 0) (JInt 3)
  = Ok (decoded_vertices (sample_payload [0; 1; 2]) 0 3)
  /\ len (decoded_vertices (sample_payload [0; 1; 2]) 0 3) = 3.
Proof.
  apply (read_vertices_decodes (sample_payload [0; 1; 2]) 0 3).
  - lia.
  - lia.
  - vm_compute. discriminate.
Defined.

(** X7: when the declared index count is a multiple of three, [3 T], and
    the [3 T] indices from a non-negative byte offset lie within the
    payload, the face loop returns exactly [T] triangles, in order,
    triangle [k] being the three little-endian unsigned 32-bit integers at
    bytes [offset + 12 k .. offset + 12 k + 12]: no byte past the declared
    indices is read. *)
Theorem read_faces_decodes (bin_data : bytes) (offset triangles : Z) :
  0 <= offset -> 0 <= triangles -> offset + 12 * triangles <= len bin_data ->
  read_faces bin_data (JInt offset) (JInt (3 * triangles))
  = Ok (decoded_faces bin_data offset triangles)
  /\ len (decoded_faces bin_data offset triangles) = triangles.
Proof.
  intros Ho Hc Hlen. split.
  - now apply read_faces_ok.
  - now apply decoded_faces_length.
Qed.

Lemma read_faces_decodes_witness :
  read_faces (sample_payload [0; 1; 2; 2; 1; 0]) (JInt 36) (JInt (3 * 2))
  = Ok (decoded_faces (sample_payload [0; 1; 2; 2; 1; 0]) 36 2)
  /\ len (decoded_faces (sample_payload [0; 1; 2; 2; 1; 0]) 36 2) = 2.
Proof.
  apply (read_faces_decodes (sample_payload [0; 1; 2; 2; 1; 0]) 36 2).
  - lia.
  - lia.
  - vm_compute. discriminate.
Defined.

(** X8: for a scene whose first primitive resolves to a POSITION accessor
    of [pos_count] elements and an indices accessor of [3 T] elements, with
    non-negative byte offsets and both ranges within the payload, the
    extractor returns the [pos_count] vertices and the [T] triangles stored
    there, each array in buffer order. *)
Theorem extract_mesh_decodes
    (scene : json) (bin_data : bytes)
    (positions_accessor indices_accessor positions_view indices_view : json)
    (pos_offset pos_count idx_offset triangles : Z) :
  find_mesh_data scene
    = Ok (positions_accessor, indices_accessor, positions_view, indices_view) ->
  dict_get positions_view "byteOffset" (JInt 0) = Ok (JInt pos_offset) ->
  getitem positions_accessor (JStr "count") = Ok (JInt pos_count) ->
  dict_get indices_view "byteOffset" (JInt 0) = Ok (JInt idx_offset) ->
  getitem indices_accessor (JStr "count") = Ok (JInt (3 * triangles)) ->
  0 <= pos_offset -> 0 <= pos_count -> pos_offset + 12 * pos_count <= len bin_data ->
  0 <= idx_offset -> 0 <= triangles -> idx_offset + 12 * triangles <= len bin_data ->
  extract_mesh_from_glb scene bin_data
  = Ok (decoded_vertices bin_data pos_offset pos_count,
        decoded_faces bin_data idx_offset triangles)
  /\ len (decoded_vertices bin_data pos_offset pos_count) = pos_count
  /\ len (decoded_faces bin_data idx_offset triangles) = triangles.
Proof.
  intros Hfind Hpo Hpc Hio Hic Hp0 Hp1 Hp2 Hi0 Hi1 Hi2.
  split; [|split; [now apply decoded_vertices_length|now apply decoded_faces_length]].
  unfold extract_mesh_from_glb. rewrite Hfind. cbn [bind result_monad].
  rewrite Hpo. cbn [bind result_monad]. rewrite Hpc. cbn [bind result_monad].
  rewrite read_vertices_ok by assumption. cbn [bind result_monad].
  rewrite Hio. cbn [bind result_monad]. rewrite Hic. cbn [bind result_monad].
  rewrite read_faces_ok by assumption. reflexivity.
Qed.

Lemma extract_mesh_decodes_witness :
  extract_mesh_from_glb (sample_scene 3 36 (3 * 2))
    (sample_payload [0; 1; 2; 2; 1; 0])
  = Ok (decoded_vertices (sample_payload [0; 1; 2; 2; 1; 0]) 0 3,
        decoded_faces (sample_payload [0; 1; 2; 2; 1; 0]) 36 2)
  /\ len (decoded_vertices (sample_payload [0; 1; 2; 2; 1; 0]) 0 3) = 3
  /\ len (decoded_faces (sample_payload [0; 1; 2; 2; 1; 0]) 36 2) = 2.
Proof.
  apply (extract_mesh_decodes (sample_scene 3 36 (3 * 2))
           (sample_payload [0; 1; 2; 2; 1; 0])
           (JObj [member "bufferView" (JInt 0); member "count" (JInt 3)])
           (JObj [member "bufferView" (JInt 1); member "count" (JInt (3 * 2))])
           (JObj [])
           (JObj [member "byteOffset" (JInt 36)])
           0 3 36 2); try reflexivity; try lia; vm_compute; discriminate.
Defined.

Lemma find_mesh_data_first_primitive (scene : json) (e : exn) :
  first_primitive scene = Raise e -> find_mesh_data scene = Raise e.
Proof.
  unfold first_primitive, find_mesh_data. cbn [bind result_monad].
  destruct (getitem scene (JStr "meshes")) as [meshes|e1];
    [|now intros [= ->]].
  destruct (getitem meshes (JInt 0)) as [mesh|e2]; [|now intros [= ->]].
  destruct (getitem mesh (JStr "primitives")) as [prims|e3];
    [|now intros [= ->]].
  destruct (getitem prims (JInt 0)) as [prim|e4];
    [discriminate|now intros [= ->]].
Qed.

(** X9: a scene object without a "meshes" key makes the extractor raise
    [KeyError], and one whose "meshes" list is empty makes it raise
    [IndexError], whatever the payload. *)
Theorem extract_mesh_without_mesh
    (members : list (string * json)) (bin_data : bytes) :
  (assoc "meshes" members = None ->
   extract_mesh_from_glb (JObj members) bin_data = Raise KeyError)
  /\ (assoc "meshes" members = Some (JArr []) ->
      extract_mesh_from_glb (JObj members) bin_data = Raise IndexError).
Proof.
  split; intros H; unfold extract_mesh_from_glb.
  - rewrite (find_mesh_data_first_primitive (JObj members) KeyError);
      [reflexivity|].
    unfold first_primitive. cbn [getitem bind result_monad]. now rewrite H.
  - rewrite (find_mesh_data_first_primitive (JObj members) IndexError);
      [reflexivity|].
    unfold first_primitive. cbn [getitem bind result_monad]. now rewrite H.
Qed.

Lemma extract_mesh_without_mesh_witness :
  extract_mesh_from_glb (JObj [member "asset" JNull]) [] = Raise KeyError
  /\ extract_mesh_from_glb (JObj [member "meshes" (JArr [])]) [] = Raise IndexError.
Proof.
  split.
  - apply (proj1 (extract_mesh_without_mesh [member "asset" JNull] [])). reflexivity.
  - apply (proj2 (extract_mesh_without_mesh [member "meshes" (JArr [])] [])).
    reflexivity.
Defined.

(** X10: a first primitive that has no "indices" key (non-indexed
    geometry) is never extracted: the extractor raises, whatever its
    positions and the payload are. *)
Theorem extract_mesh_without_indices
    (scene : json) (primitive : list (string * json)) (bin_data : bytes) :
  first_primitive scene = Ok (JObj primitive) ->
  assoc "indices" primitive = None ->
  exists e, extract_mesh_from_glb scene bin_data = Raise e.
Proof.
  intros Hprim Hnone. unfold extract_mesh_from_glb.
  assert (Hfind : exists e, find_mesh_data scene = Raise e).
  { revert Hprim. unfold first_primitive, find_mesh_data. cbn [bind result_monad].
    destruct (getitem scene (JStr "meshes")) as [meshes|e1]; [|discriminate].
    destruct (getitem meshes (JInt 0)) as [mesh|e2]; [|discriminate].
    destruct (getitem mesh (JStr "primitives")) as [prims|e3]; [|discriminate].
    intros ->.
    destruct (getitem scene (JStr "accessors")) as [accessors|e5]; [|now eexists].
    destruct (getitem (JObj primitive) (JStr "attributes")) as [attrs|e6]; [|now eexists].
    destruct (getitem attrs (JStr "POSITION")) as [position|e7]; [|now eexists].
    destruct (getitem accessors position) as [pa|e8]; [|now eexists].
    cbn [getitem]. rewrite Hnone. now eexists. }
  destruct Hfind as (e & ->). now exists e.
Qed.

Lemma extract_mesh_without_indices_witness :
  exists e,
    extract_mesh_from_glb
      (JObj [member "meshes" (JArr [JObj [member "primitives" (JArr [JObj
               [member "attributes" (JObj [member "POSITION" (JInt 0)])]])]]);
             member "accessors" (JArr
               [JObj [member "bufferView" (JInt 0); member "count" (JInt 3)]]);
             member "bufferViews" (JArr [JObj []])])
      (sample_payload []) = Raise e.
Proof.
  apply (extract_mesh_without_indices _
           [member "attributes" (JObj [member "POSITION" (JInt 0)])]).
  - reflexivity.
  - reflexivity.
Defined.

(* ================================================================= *)
(** ** The binary32 fields: what is read is what is written *)

Lemma byte_of_Z_of_byte (x : byte) : byte_of_Z (Z_of_byte x) = x.
Proof.
  unfold byte_of_Z, Z_of_byte.
  pose proof (Byte.to_N_bounded x) as Hb.
  rewrite Z.mod_small by lia. rewrite N2Z.id, Byte.of_to_N. reflexivity.
Qed.

Lemma Z_of_byte_bound (x : byte) : 0 <= Z_of_byte x < 256.
Proof.
  unfold Z_of_byte. pose proof (Byte.to_N_bounded x). lia.
Qed.

Lemma le_encode_decode (b : bytes) :
  le_encode (List.length b) (le_decode b) = b.
Proof.
  induction b as [|x b IH]; [reflexivity|].
  cbn [List.length le_encode le_decode].
  pose proof (Z_of_byte_bound x) as Hx. f_equal.
  - rewrite <- (byte_of_Z_of_byte x) at 2. unfold byte_of_Z.
    replace ((Z_of_byte x + 256 * le_decode b) mod 256)
      with (Z_of_byte x mod 256); [reflexivity|].
    replace (Z_of_byte x + 256 * le_decode b)
      with (Z_of_byte x + le_decode b * 256) by lia.
    now rewrite Z.mod_add by lia.
  - replace ((Z_of_byte x + 256 * le_decode b) / 256) with (le_decode b);
      [exact IH|].
    replace (Z_of_byte x + 256 * le_decode b)
      with (Z_of_byte x + le_decode b * 256) by lia.
    rewrite Z.div_add by lia. rewrite Z.div_small by lia. lia.
Qed.

Lemma le_decode_bound (b : bytes) :
  le_decode b < 256 ^ Z.of_nat (List.length b).
Proof.
  induction b as [|x b IH]; [cbn; lia|].
  cbn [List.length le_decode]. pose proof (Z_of_byte_bound x).
  rewrite Nat2Z.inj_succ, Z.pow_succ_r by lia. lia.
Qed.

Lemma pack_unpack_f (b : bytes) :
  List.length b = 4%nat -> nan_bits (le_decode b) = false ->
  pack_f (unpack_f b) = Ok b.
Proof.
  intros L Hn. unfold pack_f, unpack_f.
  pose proof (le_decode_bound b) as Hb. rewrite L in Hb.
  pose proof (le_decode_nonneg b) as H0.
  rewrite bits32_roundtrip by (change (2 ^ 32) with (256 ^ Z.of_nat 4); lia).
  rewrite Hn. cbn [bind result_monad ret]. f_equal.
  rewrite <- L. apply le_encode_decode.
Qed.

Lemma firstn_4_of_12 (l : bytes) : firstn 4 (firstn 12 l) = firstn 4 l.
Proof. now rewrite firstn_firstn. Qed.

Lemma firstn_4_skipn_4_of_12 (l : bytes) :
  firstn 4 (skipn 4 (firstn 12 l)) = firstn 4 (skipn 4 l).
Proof.
  rewrite skipn_firstn_comm. now rewrite firstn_firstn.
Qed.

Lemma firstn_4_skipn_8_of_12 (l : bytes) :
  firstn 4 (skipn 8 (firstn 12 l)) = firstn 4 (skipn 8 l).
Proof.
  rewrite skipn_firstn_comm. now rewrite firstn_firstn.
Qed.

Lemma three_words (b : bytes) :
  List.length b = 12%nat ->
  firstn 4 b ++ firstn 4 (skipn 4 b) ++ firstn 4 (skipn 8 b) = b.
Proof.
  intros L.
  do 13 (destruct b as [|? b]; try discriminate L). reflexivity.
Qed.

Lemma pack_unpack_fff_ok (b : bytes) :
  List.length b = 12%nat -> no_nan3 b = true -> pack_fff (floats3 b) = Ok b.
Proof.
  intros L Hn. unfold no_nan3 in Hn.
  apply andb_prop in Hn. destruct Hn as [Hn H3].
  apply andb_prop in Hn. destruct Hn as [H1 H2].
  apply negb_true_iff in H1, H2, H3.
  unfold pack_fff, floats3.
  rewrite !pack_unpack_f; try assumption.
  - cbn [bind result_monad ret]. now rewrite three_words.
  - rewrite length_firstn, length_skipn. lia.
  - rewrite length_firstn, length_skipn. lia.
  - rewrite length_firstn. lia.
Qed.

(** X11: a binary32 field survives the trip through the program: twelve
    bytes none of whose three words is a NaN pattern unpack (['<fff']) to
    three floats that pack (['<fff']) to the same twelve bytes, so
    infinities, signed zeros and subnormals included. *)
Theorem pack_unpack_fff_roundtrip (b : bytes) :
  List.length b = 12%nat -> no_nan3 b = true ->
  unpack_fff b = Ok (floats3 b) /\ pack_fff (floats3 b) = Ok b.
Proof.
  intros L Hn. split.
  - now apply unpack_fff_chunk.
  - now apply pack_unpack_fff_ok.
Qed.

Lemma pack_unpack_fff_roundtrip_witness :
  unpack_fff (words [f32_one; 2 ^ 31; 255 * 2 ^ 23])
  = Ok (floats3 (words [f32_one; 2 ^ 31; 255 * 2 ^ 23]))
  /\ pack_fff (floats3 (words [f32_one; 2 ^ 31; 255 * 2 ^ 23]))
     = Ok (words [f32_one; 2 ^ 31; 255 * 2 ^ 23]).
Proof.
  apply (pack_unpack_fff_roundtrip (words [f32_one; 2 ^ 31; 255 * 2 ^ 23])).
  - reflexivity.
  - vm_compute. reflexivity.
Defined.

Lemma chunk12_length (bin_data : bytes) (offset : Z) :
  0 <= offset -> offset + 12 <= len bin_data ->
  List.length (chunk12 bin_data offset) = 12%nat.
Proof.
  intros H0 H1. unfold chunk12. unfold len in H1.
  rewrite length_firstn, length_skipn. lia.
Qed.

Lemma decoded_vertices_index (bin_data : bytes) (offset count k : Z) :
  0 <= k < count ->
  py_index (decoded_vertices bin_data offset count) k
  = Ok (floats3 (chunk12 bin_data (offset + 12 * k))).
Proof.
  intros Hk. rewrite <- (Z2Nat.id k) at 1 by lia.
  apply py_index_nth. unfold decoded_vertices.
  rewrite nth_error_map, nth_error_seq.
  destruct (Nat.ltb_spec (Z.to_nat k) (Z.to_nat count)); [|lia].
  cbn [option_map Nat.add]. now rewrite Z2Nat.id by lia.
Qed.

(** X12: a vertex is copied, not recomputed: when the declared positions
    lie within the payload, writing vertex [k] of the extracted array
    appends exactly the twelve payload bytes
    [offset + 12 k .. offset + 12 k + 12] it was read from, provided none of
    its three words is a NaN pattern. *)
Theorem extracted_vertex_written_verbatim
    (bin_data : bytes) (offset count k : Z) (buf : bytes) :
  0 <= offset -> offset + 12 * count <= len bin_data ->
  0 <= k < count ->
  no_nan3 (chunk12 bin_data (offset + 12 * k)) = true ->
  exists vertices,
    read_vertices bin_data (JInt offset) (JInt count) = Ok vertices
    /\ write_vertex vertices k buf
       = (Ok tt, buf ++ chunk12 bin_data (offset + 12 * k)).
Proof.
  intros Ho Hlen Hk Hn. exists (decoded_vertices bin_data offset count). split.
  - apply read_vertices_ok; lia.
  - apply write_vertex_ok with (v := floats3 (chunk12 bin_data (offset + 12 * k))).
    + now apply decoded_vertices_index.
    + apply pack_unpack_fff_ok; [|exact Hn]. apply chunk12_length; lia.
Qed.

Lemma extracted_vertex_written_verbatim_witness :
  exists vertices,
    read_vertices (sample_payload [0; 1; 2]) (JInt 0) (JInt 3) = Ok vertices
    /\ write_vertex vertices 1 []
       = (Ok tt, [] ++ chunk12 (sample_payload [0; 1; 2]) (0 + 12 * 1)).
Proof.
  apply (extracted_vertex_written_verbatim (sample_payload [0; 1; 2]) 0 3 1 []).
  - lia.
  - vm_compute. discriminate.
  - lia.
  - vm_compute. reflexivity.
Defined.

(* ================================================================= *)
(** ** The binary writer stopped by a bad face *)

Lemma py_index_raises {A} (xs : list A) (i : Z) (e : exn) :
  py_index xs i = Raise e -> e = IndexError.
Proof.
  unfold py_index.
  destruct ((0 <=? _) && _); [|congruence].
  destruct (nth_error xs _); congruence.
Qed.

Lemma write_face_binary_bad (vertices : list vertex) (a b c : Z) (buf : bytes) :
  len vertices <= a \/ len vertices <= b \/ len vertices <= c ->
  write_face_binary vertices (a, b, c) buf = (Raise IndexError, buf).
Proof.
  intros Hbeyond. unfold write_face_binary. cbn [bind stateful_monad lift].
  destruct (lookups_raise vertices a b c Hbeyond)
    as [(e & Ea)|[(v0 & e & Ea & Eb)|(v0 & v1 & e & Ea & Eb & Ec)]].
  - rewrite Ea. now rewrite (py_index_raises _ _ _ Ea).
  - rewrite Ea, Eb. now rewrite (py_index_raises _ _ _ Eb).
  - rewrite Ea, Eb, Ec. now rewrite (py_index_raises _ _ _ Ec).
Qed.

(** A loop stops at the first element whose body raises, keeping what the
    elements before it appended. *)
Lemma for_each_stops {A} (body : A -> stateful bytes unit)
    (R : A -> bytes -> Prop) (good : list A) (bad : A) (rest : list A) (e : exn) :
  Forall (fun x => exists rec, R x rec /\ forall buf, body x buf = (Ok tt, buf ++ rec))
    good ->
  (forall buf, body bad buf = (Raise e, buf)) ->
  exists recs,
    Forall2 R good recs
    /\ forall buf,
         for_each body (good ++ bad :: rest) buf = (Raise e, buf ++ List.concat recs).
Proof.
  intros Hgood Hbad.
  induction Hgood as [|x xs (rec & HR & Hbody) _ (recs & HF & Hloop)].
  - exists []. split; [constructor|]. intros buf.
    cbn [app for_each bind stateful_monad List.concat]. rewrite Hbad.
    now rewrite app_nil_r.
  - exists (rec :: recs). split; [now constructor|]. intros buf.
    cbn [app for_each bind stateful_monad]. rewrite Hbody, Hloop.
    cbn [List.concat]. now rewrite app_assoc.
Qed.

(** X13: the binary writer checks nothing in advance.  When the faces
    before the first one with an index beyond the vertex array are
    writable, the writer raises [IndexError] at that face, having written
    the header, the count of ALL the faces and the records of the faces
    before it only: the file left behind announces more triangles than its
    [84 + 50 * len good] bytes hold. *)
Theorem binary_writer_stops_at_bad_face
    (vertices : list vertex) (good : list face) (a b c : Z) (rest : list face) :
  Forall (writable vertices) good ->
  len vertices <= a \/ len vertices <= b \/ len vertices <= c ->
  len (good ++ (a, b, c) :: rest) < 2 ^ 32 ->
  exists records,
    write_stl_binary vertices (good ++ (a, b, c) :: rest) []
    = (Raise IndexError,
       binary_header ++ le_encode 4 (len (good ++ (a, b, c) :: rest))
         ++ List.concat records)
    /\ Forall2 (binary_record vertices) good records
    /\ len (binary_header ++ le_encode 4 (len (good ++ (a, b, c) :: rest))
              ++ List.concat records)
       = 84 + 50 * len good
    /\ len good < len (good ++ (a, b, c) :: rest).
Proof.
  intros Hgood Hbeyond HT.
  destruct (for_each_stops (write_face_binary vertices) (binary_record vertices)
              good (a, b, c) rest IndexError) as (records & HR & Hloop).
  { eapply Forall_impl; [|exact Hgood]. intros f. apply write_face_binary_ok. }
  { intros buf. now apply write_face_binary_bad. }
  exists records.
  assert (H0 : 0 <= len (good ++ (a, b, c) :: rest)) by (unfold len; lia).
  split; [|split; [exact HR|split]].
  - unfold write_stl_binary. cbn [bind stateful_monad write lift app].
    rewrite pack_I_ok by lia. unfold write. rewrite Hloop.
    now rewrite <- app_assoc.
  - pose proof (stl_records_length _ _ _ _ HR) as H50.
    unfold len. rewrite !length_app, le_encode_length.
    rewrite (concat_length_const records 50 H50).
    rewrite (Forall2_length HR).
    change (List.length binary_header) with 80%nat. lia.
  - unfold len. rewrite length_app. cbn [List.length]. lia.
Qed.

Lemma binary_writer_stops_at_bad_face_witness :
  exists records,
    write_stl_binary sample_vertices ([(0, 1, 2)] ++ (0, 1, 3) :: [(2, 1, 0)]) []
    = (Raise IndexError,
       binary_header ++ le_encode 4 (len ([(0, 1, 2)] ++ (0, 1, 3) :: [(2, 1, 0)]))
         ++ List.concat records)
    /\ Forall2 (binary_record sample_vertices) [(0, 1, 2)] records
    /\ len (binary_header
              ++ le_encode 4 (len ([(0, 1, 2)] ++ (0, 1, 3) :: [(2, 1, 0)]))
              ++ List.concat records)
       = 84 + 50 * len [(0, 1, 2)]
    /\ len [(0, 1, 2)] < len ([(0, 1, 2)] ++ (0, 1, 3) :: [(2, 1, 0)]).
Proof.
  apply (binary_writer_stops_at_bad_face sample_vertices [(0, 1, 2)] 0 1 3
           [(2, 1, 0)]).
  - repeat constructor; vm_compute; congruence.
  - right. right. vm_compute. discriminate.
  - reflexivity.
Defined.

(* ================================================================= *)
(** ** [main]: which path runs, and what it leaves behind *)

Lemma parse_glb_file (json_loads : bytes -> result json) (input_file : string)
    (fs : filesystem) (data : bytes) :
  fs input_file = Some data ->
  parse_glb json_loads input_file fs
  = (fst (parse_glb_stream json_loads (open_rb data)), fs).
Proof.
  intros Hfs. unfold parse_glb. cbn [bind stateful_monad]. unfold read_file.
  now rewrite Hfs.
Qed.

(** A scene the extractor accepts has a "meshes" list the report of line 179
    can measure. *)
Lemma find_mesh_data_len_meshes (scene : json) (r : json * json * json * json) :
  find_mesh_data scene = Ok r ->
  exists meshes n,
    dict_get scene "meshes" (JArr []) = Ok meshes /\ py_len meshes = Ok n.
Proof.
  unfold find_mesh_data. cbn [bind result_monad].
  destruct scene as [| | | | |xs|ms]; try discriminate.
  cbn [getitem dict_get].
  destruct (assoc "meshes" ms) as [meshes|]; [|discriminate].
  destruct meshes as [| | | |s|xs|ms']; try discriminate;
    intros _; eexists _, _; split; reflexivity.
Qed.

Lemma convert_decode_raise (json_loads : bytes -> result json)
    (input_file output_file : string) (use_ascii : bool) (fs : filesystem)
    (data : bytes) (e : exn) :
  fs input_file = Some data ->
  decode_glb json_loads data = Raise e ->
  exists e', convert json_loads input_file output_file use_ascii fs = (Raise e', fs).
Proof.
  intros Hfs. unfold decode_glb.
  pose proof (parse_glb_file json_loads input_file fs data Hfs) as Hp.
  destruct (fst (parse_glb_stream json_loads (open_rb data)))
    as [[scene bin_data]|e0] eqn:P; cbn [bind result_monad].
  - intros Hx. now apply convert_extract_raise with scene bin_data e.
  - intros _. exists e0. unfold convert. cbn [bind stateful_monad].
    now rewrite Hp.
Qed.

Lemma convert_decode_ok (json_loads : bytes -> result json)
    (input_file output_file : string) (use_ascii : bool) (fs : filesystem)
    (data : bytes) (vertices : list vertex) (faces : list face) :
  fs input_file = Some data ->
  decode_glb json_loads data = Ok (vertices, faces) ->
  convert json_loads input_file output_file use_ascii fs
  = match vertex_bounds vertices with
    | Ok _ =>
        if use_ascii
        then with_open_w output_file (write_stl_ascii vertices faces) fs
        else with_open_w output_file (write_stl_binary vertices faces) fs
    | Raise e => (Raise e, fs)
    end.
Proof.
  intros Hfs. unfold decode_glb.
  pose proof (parse_glb_file json_loads input_file fs data Hfs) as Hp.
  destruct (fst (parse_glb_stream json_loads (open_rb data)))
    as [[scene bin_data]|e0] eqn:P; cbn [bind result_monad]; [|discriminate].
  intros Hx.
  assert (Hm : exists meshes n,
             dict_get scene "meshes" (JArr []) = Ok meshes /\ py_len meshes = Ok n).
  { revert Hx. unfold extract_mesh_from_glb. cbn [bind result_monad].
    destruct (find_mesh_data scene) as [r|] eqn:F; [|discriminate].
    intros _. now apply find_mesh_data_len_meshes with r. }
  destruct Hm as (meshes & n & Hd & Hl).
  unfold convert. cbn [bind stateful_monad]. rewrite Hp. cbn [lift].
  rewrite Hd, Hl, Hx.
  destruct (vertex_bounds vertices) as [[]|e3]; [|reflexivity].
  now destruct use_ascii.
Qed.

(** X14: whenever the parser or the extractor raises on the input file,
    whatever the exception, [main] hands over to [simple_extraction] with
    the same two paths and a file system the failed conversion has not
    touched. *)
Theorem main_falls_back_on_decode_failure
    (json_loads : bytes -> result json) (input_file output_file : string)
    (use_ascii : bool) (fs : filesystem) (data : bytes) (e : exn) :
  fs input_file = Some data ->
  decode_glb json_loads data = Raise e ->
  main json_loads input_file output_file use_ascii fs
  = simple_extraction input_file output_file fs.
Proof.
  intros Hfs Hd.
  destruct (convert_decode_raise json_loads input_file output_file use_ascii
              fs data e Hfs Hd) as (e' & E).
  now apply main_fallback with e'.
Qed.

Lemma main_falls_back_on_decode_failure_witness :
  main (fun _ => Raise JSONDecodeError) "model.glb" "model.stl" false
    (sample_fs (sample_glb (sample_payload [0; 1; 2])))
  = simple_extraction "model.glb" "model.stl"
      (sample_fs (sample_glb (sample_payload [0; 1; 2]))).
Proof.
  apply (main_falls_back_on_decode_failure (fun _ => Raise JSONDecodeError)
           "model.glb" "model.stl" false
           (sample_fs (sample_glb (sample_payload [0; 1; 2])))
           (sample_glb (sample_payload [0; 1; 2])) JSONDecodeError).
  - reflexivity.
  - vm_compute. reflexivity.
Defined.

(** X15: a mesh that decodes to no vertices is never written by the
    primary path: the bounds report of line 184 raises on the empty array,
    and [main] runs [simple_extraction] on the untouched file system, also
    when every face list came out well. *)
Theorem main_empty_mesh_falls_back
    (json_loads : bytes -> result json) (input_file output_file : string)
    (use_ascii : bool) (fs : filesystem) (data : bytes) (faces : list face) :
  fs input_file = Some data ->
  decode_glb json_loads data = Ok ([], faces) ->
  main json_loads input_file output_file use_ascii fs
  = simple_extraction input_file output_file fs.
Proof.
  intros Hfs Hd.
  apply main_fallback with IndexError.
  now rewrite (convert_decode_ok json_loads input_file output_file use_ascii
                 fs data [] faces Hfs Hd).
Qed.

Lemma main_empty_mesh_falls_back_witness :
  main (fun _ => Ok (sample_scene 0 0 0)) "model.glb" "model.stl" false
    (sample_fs (sample_glb (sample_payload [])))
  = simple_extraction "model.glb" "model.stl"
      (sample_fs (sample_glb (sample_payload []))).
Proof.
  apply (main_empty_mesh_falls_back (fun _ => Ok (sample_scene 0 0 0))
           "model.glb" "model.stl" false
           (sample_fs (sample_glb (sample_payload [])))
           (sample_glb (sample_payload [])) []).
  - reflexivity.
  - vm_compute. reflexivity.
Defined.

(** X16: when the input file does not exist, the conversion fails on
    opening it, the fallback opens it again, and its [FileNotFoundError]
    leaves [main]: nothing is written. *)
Theorem main_missing_input
    (json_loads : bytes -> result json) (input_file output_file : string)
    (use_ascii : bool) (fs : filesystem) :
  fs input_file = None ->
  main json_loads input_file output_file use_ascii fs
  = (Raise FileNotFoundError, fs).
Proof.
  intros Hfs.
  assert (Hc : convert json_loads input_file output_file use_ascii fs
               = (Raise FileNotFoundError, fs)).
  { unfold convert, parse_glb. cbn [bind stateful_monad]. unfold read_file.
    now rewrite Hfs. }
  rewrite (main_fallback _ _ _ _ _ _ _ Hc).
  unfold simple_extraction. cbn [bind stateful_monad]. unfold read_file.
  now rewrite Hfs.
Qed.

Lemma main_missing_input_witness :
  main (fun _ => Ok JNull) "model.glb" "model.stl" false (fun _ => None)
  = (Raise FileNotFoundError, fun _ => None).
Proof.
  apply (main_missing_input (fun _ => Ok JNull) "model.glb" "model.stl" false
           (fun _ => None)).
  reflexivity.
Defined.

Lemma write_stl_binary_ok (vertices : list vertex) (faces : list face) :
  len faces < 2 ^ 32 ->
  Forall (writable vertices) faces ->
  exists records,
    write_stl_binary vertices faces []
    = (Ok tt, binary_header ++ le_encode 4 (len faces) ++ List.concat records)
    /\ Forall2 (binary_record vertices) faces records.
Proof.
  intros HT Hfaces.
  assert (H0 : 0 <= len faces) by (unfold len; lia).
  destruct (for_each_appends (write_face_binary vertices)
              (binary_record vertices) faces) as (records & HR & Hloop).
  { eapply Forall_impl; [|exact Hfaces]. intros f. apply write_face_binary_ok. }
  exists records. split; [|exact HR].
  unfold write_stl_binary. cbn [bind stateful_monad write lift app].
  rewrite pack_I_ok by lia. unfold write.
  destruct (Hloop (binary_header ++ le_encode 4 (len faces))) as (us & E).
  rewrite E. cbn [ret]. now rewrite <- app_assoc.
Qed.

Lemma write_stl_ascii_text (vertices : list vertex) (faces : list face) :
  Forall (face_in_range vertices) faces ->
  write_stl_ascii vertices faces [] = (Ok tt, b_ (ascii_text vertices faces)).
Proof.
  intros Hfaces.
  unfold write_stl_ascii, ascii_text. cbn [bind stateful_monad].
  unfold write_text at 1. unfold write at 1. cbn [app].
  destruct (write_faces_ascii_ok vertices faces Hfaces (b_ ("solid glTF_converted" ++ nl)))
    as (us & E).
  rewrite E. unfold write_text, write. rewrite !b_app. f_equal.
  repeat rewrite <- app_assoc. reflexivity.
Qed.

(** X17: a file that decodes to a non-empty vertex array and fewer than
    [2^32] writable faces is converted by the primary path alone: [main]
    returns normally, the output path holds the 80-byte header, the face
    count and one 50-byte record per face in order, every other path is as
    before, and [simple_extraction] does not run. *)
Theorem main_writes_binary
    (json_loads : bytes -> result json) (input_file output_file : string)
    (fs : filesystem) (data : bytes) (vertices : list vertex) (faces : list face) :
  fs input_file = Some data ->
  decode_glb json_loads data = Ok (vertices, faces) ->
  vertices <> [] ->
  len faces < 2 ^ 32 ->
  Forall (writable vertices) faces ->
  exists records,
    main json_loads input_file output_file false fs
    = (Ok tt,
       store output_file
         (binary_header ++ le_encode 4 (len faces) ++ List.concat records) fs)
    /\ Forall2 (binary_record vertices) faces records
    /\ len (binary_header ++ le_encode 4 (len faces) ++ List.concat records)
       = 84 + 50 * len faces.
Proof.
  intros Hfs Hd Hne HT Hfaces.
  destruct (write_stl_binary_ok vertices faces HT Hfaces) as (records & E & HR).
  exists records. split; [|split; [exact HR|]].
  - unfold main.
    rewrite (convert_decode_ok json_loads input_file output_file false
               fs data vertices faces Hfs Hd).
    destruct vertices as [|v vs]; [contradiction|].
    cbn [vertex_bounds]. unfold with_open_w. now rewrite E.
  - pose proof (stl_records_length _ _ _ _ HR) as H50.
    unfold len. rewrite !length_app, le_encode_length.
    rewrite (concat_length_const records 50 H50).
    rewrite (Forall2_length HR).
    change (List.length binary_header) with 80%nat. lia.
Qed.

Lemma main_writes_binary_witness :
  exists records,
    main (fun _ => Ok (sample_scene 3 36 3)) "model.glb" "model.stl" false
      (sample_fs (sample_glb (sample_payload [0; 1; 2])))
    = (Ok tt,
       store "model.stl"
         (binary_header ++ le_encode 4 (len [(0, 1, 2)]) ++ List.concat records)
         (sample_fs (sample_glb (sample_payload [0; 1; 2]))))
    /\ Forall2 (binary_record sample_vertices) [(0, 1, 2)] records
    /\ len (binary_header ++ le_encode 4 (len [(0, 1, 2)]) ++ List.concat records)
       = 84 + 50 * len [(0, 1, 2)].
Proof.
  apply (main_writes_binary (fun _ => Ok (sample_scene 3 36 3))
           "model.glb" "model.stl"
           (sample_fs (sample_glb (sample_payload [0; 1; 2])))
           (sample_glb (sample_payload [0; 1; 2]))
           sample_vertices [(0, 1, 2)]).
  - reflexivity.
  - vm_compute. reflexivity.
  - discriminate.
  - reflexivity.
  - repeat constructor; vm_compute; congruence.
Defined.

(** X18: with [--ascii], a file that decodes to a non-empty vertex array
    and faces whose indices lie within it is converted by the primary path
    alone: the output path holds the "solid" line, the seven lines of each
    facet in order and the "endsolid" line, every other path is as before. *)
Theorem main_writes_ascii
    (json_loads : bytes -> result json) (input_file output_file : string)
    (fs : filesystem) (data : bytes) (vertices : list vertex) (faces : list face) :
  fs input_file = Some data ->
  decode_glb json_loads data = Ok (vertices, faces) ->
  vertices <> [] ->
  Forall (face_in_range vertices) faces ->
  main json_loads input_file output_file true fs
  = (Ok tt, store output_file (b_ (ascii_text vertices faces)) fs).
Proof.
  intros Hfs Hd Hne Hfaces. unfold main.
  rewrite (convert_decode_ok json_loads input_file output_file true
             fs data vertices faces Hfs Hd).
  destruct vertices as [|v vs]; [contradiction|].
  cbn [vertex_bounds]. unfold with_open_w.
  now rewrite (write_stl_ascii_text (v :: vs) faces Hfaces).
Qed.

Lemma main_writes_ascii_witness :
  main (fun _ => Ok (sample_scene 3 36 3)) "model.glb" "model.stl" true
    (sample_fs (sample_glb (sample_payload [0; 1; 2])))
  = (Ok tt,
     store "model.stl" (b_ (ascii_text sample_vertices [(0, 1, 2)]))
       (sample_fs (sample_glb (sample_payload [0; 1; 2])))).
Proof.
  apply (main_writes_ascii (fun _ => Ok (sample_scene 3 36 3))
           "model.glb" "model.stl"
           (sample_fs (sample_glb (sample_payload [0; 1; 2])))
           (sample_glb (sample_payload [0; 1; 2]))
           sample_vertices [(0, 1, 2)]).
  - reflexivity.
  - vm_compute. reflexivity.
  - discriminate.
  - repeat constructor; unfold len; simpl; lia.
Defined.

Lemma convert_keeps_input (json_loads : bytes -> result json)
    (input_file output_file : string) (use_ascii : bool)
    (fs fs' : filesystem) (data : bytes) (r : result unit) :
  fs input_file = Some data ->
  convert json_loads input_file output_file use_ascii fs = (r, fs') ->
  exists data', fs' input_file = Some data'.
Proof.
  intros Hfs. unfold convert. cbn [bind stateful_monad].
  rewrite (parse_glb_file json_loads input_file fs data Hfs).
  destruct (fst (parse_glb_stream json_loads (open_rb data)))
    as [[scene bin_data]|e0]; [|intros [= _ <-]; eauto].
  cbn [lift].
  destruct (dict_get scene "meshes" (JArr [])) as [meshes|e1];
    [|intros [= _ <-]; eauto].
  destruct (py_len meshes) as [n|e2]; [|intros [= _ <-]; eauto].
  destruct (extract_mesh_from_glb scene bin_data) as [[vertices faces]|e3];
    [|intros [= _ <-]; eauto].
  destruct (vertex_bounds vertices) as [[]|e4]; [|intros [= _ <-]; eauto].
  assert (Hstore : forall buf, exists data',
             store output_file buf fs input_file = Some data').
  { intros buf. unfold store. destruct (String.eqb input_file output_file); eauto. }
  destruct use_ascii; unfold with_open_w.
  - destruct (write_stl_ascii vertices faces []) as [r0 buf].
    intros [= _ <-]. apply Hstore.
  - destruct (write_stl_binary vertices faces []) as [r0 buf].
    intros [= _ <-]. apply Hstore.
Qed.

Lemma simple_extraction_returns (input_file output_file : string)
    (fs : filesystem) (data : bytes) :
  fs input_file = Some data ->
  fst (simple_extraction input_file output_file fs) = Ok tt.
Proof.
  intros Hfs. rewrite (simple_extraction_unfold _ _ _ _ Hfs).
  destruct (Z.ltb_spec (len (pseudo_vertices data)) 3) as [|H3]; [reflexivity|].
  destruct (fallback_mesh_writes data H3) as (_ & _ & records & E & _).
  unfold with_open_w. now rewrite E.
Qed.

(** With every write taken as succeeding, [main] returns normally once
    the input file exists. *)
Lemma main_returns_when_written
    (json_loads : bytes -> result json) (input_file output_file : string)
    (use_ascii : bool) (fs : filesystem) (data : bytes) :
  fs input_file = Some data ->
  fst (main json_loads input_file output_file use_ascii fs) = Ok tt.
Proof.
  intros Hfs. unfold main.
  destruct (convert json_loads input_file output_file use_ascii fs)
    as [[[]|e] fs'] eqn:C; [reflexivity|].
  destruct (convert_keeps_input _ _ _ _ _ _ _ _ Hfs C) as (data' & Hfs').
  now apply simple_extraction_returns with data'.
Qed.

Lemma convert_io_opens (open_error : string -> option exn)
    (json_loads : bytes -> result json) (input_file output_file : string)
    (use_ascii : bool) (fs : filesystem) :
  open_error output_file = None ->
  convert_io open_error json_loads input_file output_file use_ascii fs
  = convert json_loads input_file output_file use_ascii fs.
Proof.
  intros Hopen. unfold convert_io, convert. cbn [bind stateful_monad].
  destruct (parse_glb json_loads input_file fs) as [[[scene bin_data]|e0] fs1];
    [|reflexivity].
  cbn [lift].
  destruct (dict_get scene "meshes" (JArr [])) as [meshes|e1]; [|reflexivity].
  destruct (py_len meshes) as [n|e2]; [|reflexivity].
  destruct (extract_mesh_from_glb scene bin_data) as [[vertices faces]|e3];
    [|reflexivity].
  destruct (vertex_bounds vertices) as [[]|e4]; [|reflexivity].
  destruct use_ascii; unfold open_w; now rewrite Hopen.
Qed.

Lemma simple_extraction_io_opens (open_error : string -> option exn)
    (input_file output_file : string) (fs : filesystem) :
  open_error output_file = None ->
  simple_extraction_io open_error input_file output_file fs
  = simple_extraction input_file output_file fs.
Proof.
  intros Hopen. unfold simple_extraction_io, simple_extraction.
  cbn [bind stateful_monad].
  destruct (read_file input_file fs) as [[data|e0] fs1]; [|reflexivity].
  cbn [lift].
  destruct (fallback_mesh data) as [[[vertices faces]|]|e1]; try reflexivity.
  unfold open_w. now rewrite Hopen.
Qed.

(** Where the output path opens, [main_io] is [main]. *)
Lemma main_io_opens (open_error : string -> option exn)
    (json_loads : bytes -> result json) (input_file output_file : string)
    (use_ascii : bool) (fs : filesystem) :
  open_error output_file = None ->
  main_io open_error json_loads input_file output_file use_ascii fs
  = main json_loads input_file output_file use_ascii fs.
Proof.
  intros Hopen. unfold main_io, main.
  rewrite (convert_io_opens _ _ _ _ _ _ Hopen).
  destruct (convert json_loads input_file output_file use_ascii fs)
    as [[[]|e] fs']; [reflexivity|].
  now apply simple_extraction_io_opens.
Qed.

(** Where the output path does not open, the conversion fails before it
    writes anything. *)
Lemma convert_io_fails (open_error : string -> option exn)
    (json_loads : bytes -> result json) (input_file output_file : string)
    (use_ascii : bool) (fs : filesystem) (data : bytes) (e : exn) :
  open_error output_file = Some e ->
  fs input_file = Some data ->
  exists e',
    convert_io open_error json_loads input_file output_file use_ascii fs
    = (Raise e', fs).
Proof.
  intros Hopen Hfs. unfold convert_io. cbn [bind stateful_monad].
  rewrite (parse_glb_file json_loads input_file fs data Hfs).
  destruct (fst (parse_glb_stream json_loads (open_rb data)))
    as [[scene bin_data]|e0]; [|now eexists].
  cbn [lift].
  destruct (dict_get scene "meshes" (JArr [])) as [meshes|e1]; [|now eexists].
  destruct (py_len meshes) as [n|e2]; [|now eexists].
  destruct (extract_mesh_from_glb scene bin_data) as [[vertices faces]|e3];
    [|now eexists].
  destruct (vertex_bounds vertices) as [[]|e4]; [|now eexists].
  destruct use_ascii; unfold open_w; rewrite Hopen; now eexists.
Qed.

Lemma simple_extraction_io_fails (open_error : string -> option exn)
    (input_file output_file : string) (fs : filesystem) (data : bytes) (e : exn) :
  open_error output_file = Some e ->
  fs input_file = Some data ->
  simple_extraction_io open_error input_file output_file fs
  = (if len data <? 36 then Ok tt else Raise e, fs).
Proof.
  intros Hopen Hfs. unfold simple_extraction_io, read_file.
  cbn [bind stateful_monad]. rewrite Hfs. cbn [lift].
  rewrite fallback_mesh_spec.
  replace (len (pseudo_vertices data)) with (len data / 12)
    by (unfold len; now rewrite pseudo_vertices_length, Nat2Z.inj_div).
  assert (H0 : 0 <= len data) by (unfold len; lia).
  destruct (Z.ltb_spec (len data / 12) 3) as [Hlt|Hge];
    destruct (Z.ltb_spec (len data) 36) as [Hlt'|Hge']; try reflexivity.
  - exfalso. assert (3 <= len data / 12) by (apply Z.div_le_lower_bound; lia). lia.
  - exfalso. assert (len data / 12 < 3) by (apply Z.div_lt_upper_bound; lia). lia.
  - unfold open_w. now rewrite Hopen.
Qed.

(** X19: [main] with the failure of [open] kept, on an input file that
    exists.  When the output path opens for writing, [main] returns
    normally whatever the input holds and whichever format is asked for:
    every exception of the conversion is caught and the fallback raises
    none.  When the output path does not open, nothing is written, and the
    exception of [open] leaves [main] from the fallback, which no handler
    covers, unless the input has fewer than 36 bytes, where the fallback
    returns before it opens anything. *)
Theorem main_returns_when_output_opens
    (open_error : string -> option exn) (json_loads : bytes -> result json)
    (input_file output_file : string) (use_ascii : bool)
    (fs : filesystem) (data : bytes) :
  fs input_file = Some data ->
  (open_error output_file = None ->
   fst (main_io open_error json_loads input_file output_file use_ascii fs)
   = Ok tt)
  /\ (forall e, open_error output_file = Some e ->
       main_io open_error json_loads input_file output_file use_ascii fs
       = (if len data <? 36 then Ok tt else Raise e, fs)).
Proof.
  intros Hfs. split.
  - intros Hopen. rewrite (main_io_opens _ _ _ _ _ _ Hopen).
    now apply main_returns_when_written with data.
  - intros e Hopen.
    destruct (convert_io_fails open_error json_loads input_file output_file
                use_ascii fs data e Hopen Hfs) as (e' & C).
    unfold main_io. rewrite C.
    now apply simple_extraction_io_fails.
Qed.

Lemma main_returns_when_output_opens_witness :
  fst (main_io missing_directory (fun _ => Ok (sample_scene 3 36 3))
         "model.glb" "model.glb" false
         (sample_fs (sample_glb (sample_payload [0; 1; 5]))))
  = Ok tt
  /\ main_io missing_directory (fun _ => Ok (sample_scene 3 36 3))
       "model.glb" "missing/model.stl" false
       (sample_fs (sample_glb (sample_payload [0; 1; 2])))
     = (Raise FileNotFoundError,
        sample_fs (sample_glb (sample_payload [0; 1; 2]))).
Proof.
  split.
  - apply (proj1 (main_returns_when_output_opens missing_directory
                    (fun _ => Ok (sample_scene 3 36 3))
                    "model.glb" "model.glb" false
                    (sample_fs (sample_glb (sample_payload [0; 1; 5])))
                    (sample_glb (sample_payload [0; 1; 5])) eq_refl)).
    reflexivity.
  - apply (proj2 (main_returns_when_output_opens missing_directory
                    (fun _ => Ok (sample_scene 3 36 3))
                    "model.glb" "missing/model.stl" false
                    (sample_fs (sample_glb (sample_payload [0; 1; 2])))
                    (sample_glb (sample_payload [0; 1; 2])) eq_refl)
             FileNotFoundError).
    reflexivity.
Defined.

(* ================================================================= *)
(** ** The fallback on any file *)

Lemma pseudo_vertices_len (data : bytes) :
  len (pseudo_vertices data) = len data / 12.
Proof.
  unfold len. rewrite pseudo_vertices_length. now rewrite Nat2Z.inj_div.
Qed.

(** X20: on a file of 36 bytes or more, that is of [n >= 3] whole groups
    of twelve bytes, the fallback returns normally and leaves at the output
    path its 80-byte header, the count [min (n - 2) 98] and as many 50-byte
    records: [84 + 50 * min (n - 2) 98] bytes, so never more than 4984,
    every other path being as before. *)
Theorem fallback_output_size
    (input_file output_file : string) (fs : filesystem) (data : bytes) :
  fs input_file = Some data ->
  36 <= len data ->
  exists records,
    simple_extraction input_file output_file fs
    = (Ok tt,
       store output_file
         (fallback_header ++ le_encode 4 (Z.min (len data / 12 - 2) 98)
            ++ List.concat records) fs)
    /\ len records = Z.min (len data / 12 - 2) 98
    /\ Forall (fun rec => List.length rec = 50%nat) records
    /\ len (fallback_header ++ le_encode 4 (Z.min (len data / 12 - 2) 98)
              ++ List.concat records)
       = 84 + 50 * Z.min (len data / 12 - 2) 98.
Proof.
  intros Hfs H36.
  assert (Hn : 3 <= len (pseudo_vertices data)).
  { rewrite pseudo_vertices_len. apply Z.div_le_lower_bound; lia. }
  destruct (fallback_mesh_writes data Hn) as (_ & _ & records & E & HR).
  assert (HF : len (firstn 98 (fan (len (pseudo_vertices data))))
               = Z.min (len data / 12 - 2) 98).
  { rewrite <- pseudo_vertices_len.
    set (n := len (pseudo_vertices data)) in *.
    assert (HL : len (fan n) = n - 2) by (apply fan_length; lia).
    unfold len in HL |- *. rewrite length_firstn. lia. }
  rewrite HF in E.
  pose proof (stl_records_length _ _ _ _ HR) as H50.
  pose proof (Forall2_length HR) as HRL.
  exists records. split; [|split; [|split; [exact H50|]]].
  - rewrite (simple_extraction_unfold _ _ _ _ Hfs).
    destruct (Z.ltb_spec (len (pseudo_vertices data)) 3); [lia|].
    unfold with_open_w. now rewrite E.
  - unfold len, bytes in HF, HRL |- *. lia.
  - unfold len. rewrite !length_app, le_encode_length.
    rewrite (concat_length_const records 50 H50).
    change (List.length fallback_header) with 80%nat.
    unfold len, bytes in HF, HRL |- *. lia.
Qed.

Lemma fallback_output_size_witness :
  exists records,
    simple_extraction "model.glb" "model.stl"
      (sample_fs (sample_payload [0; 1; 2]))
    = (Ok tt,
       store "model.stl"
         (fallback_header
            ++ le_encode 4 (Z.min (len (sample_payload [0; 1; 2]) / 12 - 2) 98)
            ++ List.concat records) (sample_fs (sample_payload [0; 1; 2])))
    /\ len records = Z.min (len (sample_payload [0; 1; 2]) / 12 - 2) 98
    /\ Forall (fun rec => List.length rec = 50%nat) records
    /\ len (fallback_header
              ++ le_encode 4 (Z.min (len (sample_payload [0; 1; 2]) / 12 - 2) 98)
              ++ List.concat records)
       = 84 + 50 * Z.min (len (sample_payload [0; 1; 2]) / 12 - 2) 98.
Proof.
  apply (fallback_output_size "model.glb" "model.stl"
           (sample_fs (sample_payload [0; 1; 2])) (sample_payload [0; 1; 2])).
  - reflexivity.
  - vm_compute. discriminate.
Defined.

Lemma pseudo_vertex_chunk (data : bytes) (k : nat) :
  pseudo_vertex data k = floats3 (chunk12 data (12 * Z.of_nat k)).
Proof.
  unfold pseudo_vertex, float_at, floats3, chunk12.
  replace (Z.to_nat (12 * Z.of_nat k)) with (12 * k)%nat by lia.
  rewrite firstn_4_of_12, firstn_4_skipn_4_of_12, firstn_4_skipn_8_of_12.
  rewrite !skipn_skipn.
  replace (4 * (3 * k))%nat with (12 * k)%nat by lia.
  replace (4 * (3 * k + 1))%nat with (4 + 12 * k)%nat by lia.
  replace (4 * (3 * k + 2))%nat with (8 + 12 * k)%nat by lia.
  reflexivity.
Qed.

(** X21: the fallback copies the input: vertex [k] of its array, for [k]
    below both the number of whole twelve-byte groups and 100, is written
    as exactly bytes [12 k .. 12 k + 12] of the input file, whatever they
    are (header, JSON text or geometry), provided none of the three words
    is a NaN pattern. *)
Theorem fallback_vertex_written_verbatim (data : bytes) (k : Z) (buf : bytes) :
  0 <= k < Z.min (len data / 12) 100 ->
  no_nan3 (chunk12 data (12 * k)) = true ->
  write_vertex (firstn 100 (pseudo_vertices data)) k buf
  = (Ok tt, buf ++ chunk12 data (12 * k)).
Proof.
  intros Hk Hn.
  assert (Hlen : 12 * k + 12 <= len data).
  { assert (H : 12 * (len data / 12) <= len data) by (apply Z.mul_div_le; lia).
    lia. }
  apply write_vertex_ok with (v := floats3 (chunk12 data (12 * k))).
  - rewrite <- (Z2Nat.id k) at 1 by lia. apply py_index_nth.
    rewrite nth_error_firstn.
    destruct (Nat.ltb_spec (Z.to_nat k) 100); [|lia].
    unfold pseudo_vertices. rewrite nth_error_map, nth_error_seq.
    destruct (Nat.ltb_spec (Z.to_nat k) (List.length data / 12)) as [|Hge].
    + cbn [option_map Nat.add]. rewrite pseudo_vertex_chunk.
      now rewrite Z2Nat.id by lia.
    + exfalso. apply Nat2Z.inj_le in Hge. rewrite Nat2Z.inj_div in Hge.
      unfold len in Hk. lia.
  - apply pack_unpack_fff_ok; [|exact Hn]. apply chunk12_length; lia.
Qed.

Lemma fallback_vertex_written_verbatim_witness :
  write_vertex (firstn 100 (pseudo_vertices (sample_payload [0; 1; 2]))) 1 []
  = (Ok tt, [] ++ chunk12 (sample_payload [0; 1; 2]) (12 * 1)).
Proof.
  apply (fallback_vertex_written_verbatim (sample_payload [0; 1; 2]) 1 []).
  - vm_compute. split; [discriminate|reflexivity].
  - vm_compute. reflexivity.
Defined.

(* ================================================================= *)
(** ** From the bytes of a container to the bytes of the STL file *)

Lemma decode_glb_container (json_loads : bytes -> result json) (version total : Z)
    (json_data bin_data : bytes) (scene : json) :
  len json_data < 2 ^ 32 -> len bin_data < 2 ^ 32 ->
  json_loads json_data = Ok scene ->
  decode_glb json_loads
    (glb_container version total json_data (len bin_data) bin_data)
  = extract_mesh_from_glb scene bin_data.
Proof.
  intros Hjs Hbin Hscene. unfold decode_glb.
  rewrite parse_glb_stream_bytes.
  rewrite parse_container_bytes by (unfold len in *; lia).
  rewrite Hscene. cbn [bind result_monad].
  unfold len. now rewrite Nat2Z.id, firstn_all.
Qed.

(** X22: the whole conversion.  The input file is a container whose JSON
    chunk decodes to a scene with a first primitive of [pos_count >= 1]
    positions and [3 T] indices, both ranges inside the binary chunk, and
    every decoded triangle is writable.  Then [main] returns normally,
    without the fallback, and the output path holds the header, the count
    [T] and the records of the [T] triangles decoded from the index bytes,
    over the vertices decoded from the position bytes: [84 + 50 T] bytes. *)
Theorem main_converts_container
    (json_loads : bytes -> result json) (input_file output_file : string)
    (fs : filesystem) (version total : Z) (json_data bin_data : bytes)
    (scene positions_accessor indices_accessor positions_view indices_view : json)
    (pos_offset pos_count idx_offset triangles : Z) :
  fs input_file
    = Some (glb_container version total json_data (len bin_data) bin_data) ->
  len json_data < 2 ^ 32 -> len bin_data < 2 ^ 32 ->
  json_loads json_data = Ok scene ->
  find_mesh_data scene
    = Ok (positions_accessor, indices_accessor, positions_view, indices_view) ->
  dict_get positions_view "byteOffset" (JInt 0) = Ok (JInt pos_offset) ->
  getitem positions_accessor (JStr "count") = Ok (JInt pos_count) ->
  dict_get indices_view "byteOffset" (JInt 0) = Ok (JInt idx_offset) ->
  getitem indices_accessor (JStr "count") = Ok (JInt (3 * triangles)) ->
  0 <= pos_offset -> 1 <= pos_count -> pos_offset + 12 * pos_count <= len bin_data ->
  0 <= idx_offset -> 0 <= triangles -> idx_offset + 12 * triangles <= len bin_data ->
  Forall (writable (decoded_vertices bin_data pos_offset pos_count))
    (decoded_faces bin_data idx_offset triangles) ->
  exists records,
    main json_loads input_file output_file false fs
    = (Ok tt,
       store output_file
         (binary_header ++ le_encode 4 triangles ++ List.concat records) fs)
    /\ Forall2 (binary_record (decoded_vertices bin_data pos_offset pos_count))
         (decoded_faces bin_data idx_offset triangles) records
    /\ len (binary_header ++ le_encode 4 triangles ++ List.concat records)
       = 84 + 50 * triangles.
Proof.
  intros Hfs Hjs Hbin Hscene Hfind Hpo Hpc Hio Hic Hp0 Hp1 Hp2 Hi0 Hi1 Hi2 Hw.
  set (vertices := decoded_vertices bin_data pos_offset pos_count) in *.
  set (faces := decoded_faces bin_data idx_offset triangles) in *.
  assert (HV : len vertices = pos_count)
    by (apply decoded_vertices_length; lia).
  assert (HF : len faces = triangles) by now apply decoded_faces_length.
  assert (Hd : decode_glb json_loads
                 (glb_container version total json_data (len bin_data) bin_data)
               = Ok (vertices, faces)).
  { rewrite (decode_glb_container _ _ _ _ _ scene) by assumption.
    unfold extract_mesh_from_glb. rewrite Hfind. cbn [bind result_monad].
    rewrite Hpo. cbn [bind result_monad]. rewrite Hpc. cbn [bind result_monad].
    rewrite read_vertices_ok by lia. cbn [bind result_monad].
    rewrite Hio. cbn [bind result_monad]. rewrite Hic. cbn [bind result_monad].
    rewrite read_faces_ok by assumption. reflexivity. }
  destruct (write_stl_binary_ok vertices faces) as (records & E & HR);
    [lia|exact Hw|].
  rewrite HF in E.
  exists records. split; [|split; [exact HR|]].
  - unfold main.
    rewrite (convert_decode_ok json_loads input_file output_file false
               fs _ vertices faces Hfs Hd).
    destruct vertices as [|v vs] eqn:EV; [unfold len in HV; cbn in HV; lia|].
    cbn [vertex_bounds]. unfold with_open_w. now rewrite E.
  - pose proof (stl_records_length _ _ _ _ HR) as H50.
    pose proof (Forall2_length HR) as HRL.
    unfold len. rewrite !length_app, le_encode_length.
    rewrite (concat_length_const records 50 H50).
    change (List.length binary_header) with 80%nat.
    unfold len, bytes in HF, HRL |- *. lia.
Qed.

Lemma main_converts_container_witness :
  exists records,
    main (fun _ => Ok (sample_scene 3 36 (3 * 1))) "model.glb" "model.stl" false
      (sample_fs (glb_container 2 0 (b_ "{}") (len (sample_payload [0; 1; 2]))
                    (sample_payload [0; 1; 2])))
    = (Ok tt,
       store "model.stl"
         (binary_header ++ le_encode 4 1 ++ List.concat records)
         (sample_fs (glb_container 2 0 (b_ "{}") (len (sample_payload [0; 1; 2]))
                       (sample_payload [0; 1; 2]))))
    /\ Forall2 (binary_record (decoded_vertices (sample_payload [0; 1; 2]) 0 3))
         (decoded_faces (sample_payload [0; 1; 2]) 36 1) records
    /\ len (binary_header ++ le_encode 4 1 ++ List.concat records) = 84 + 50 * 1.
Proof.
  apply (main_converts_container (fun _ => Ok (sample_scene 3 36 (3 * 1)))
           "model.glb" "model.stl"
           (sample_fs (glb_container 2 0 (b_ "{}") (len (sample_payload [0; 1; 2]))
                         (sample_payload [0; 1; 2])))
           2 0 (b_ "{}") (sample_payload [0; 1; 2])
           (sample_scene 3 36 (3 * 1))
           (JObj [member "bufferView" (JInt 0); member "count" (JInt 3)])
           (JObj [member "bufferView" (JInt 1); member "count" (JInt (3 * 1))])
           (JObj [])
           (JObj [member "byteOffset" (JInt 36)])
           0 3 36 1).
  - reflexivity.
  - reflexivity.
  - reflexivity.
  - reflexivity.
  - reflexivity.
  - reflexivity.
  - reflexivity.
  - reflexivity.
  - reflexivity.
  - lia.
  - lia.
  - vm_compute. discriminate.
  - lia.
  - lia.
  - vm_compute. discriminate.
  - change (decoded_faces (sample_payload [0; 1; 2]) 36 1)
      with [words3 (chunk12 (sample_payload [0; 1; 2]) (36 + 12 * Z.of_nat 0))].
    constructor; [|constructor].
    vm_compute. repeat split; congruence.
Defined.

(* ================================================================= *)
(** ** The geometry of the normal, in exact arithmetic *)

Lemma cross_swap (u v : vec3 R) : cross v u = vneg (cross u v).
Proof.
  destruct u as [[u0 u1] u2], v as [[v0 v1] v2].
  cbn [cross vneg s_sub s_mul real_scalar].
  f_equal; [f_equal|]; ring.
Qed.

Lemma cross_cycle (v0 v1 v2 : vec3 R) :
  cross (vsub v2 v1) (vsub v0 v1) = cross (vsub v1 v0) (vsub v2 v0).
Proof.
  destruct v0 as [[x0 y0] z0], v1 as [[x1 y1] z1], v2 as [[x2 y2] z2].
  cbn [cross vsub s_sub s_mul real_scalar].
  f_equal; [f_equal|]; ring.
Qed.

Lemma linalg_norm_vneg (n : vec3 R) : linalg_norm (vneg n) = linalg_norm n.
Proof.
  destruct n as [[n0 n1] n2].
  cbn [linalg_norm vneg s_sqrt s_add s_mul real_scalar].
  f_equal. ring.
Qed.

Lemma vdiv_vneg (n : vec3 R) (d : R) : vdiv (vneg n) d = vneg (vdiv n d).
Proof.
  destruct n as [[n0 n1] n2].
  cbn [vdiv vneg s_div real_scalar]. unfold Rdiv.
  f_equal; [f_equal|]; ring.
Qed.

Lemma cross_perpendicular (u v : vec3 R) :
  dot (cross u v) u = 0%R /\ dot (cross u v) v = 0%R.
Proof.
  destruct u as [[u0 u1] u2], v as [[v0 v1] v2].
  cbn [cross dot s_sub s_mul real_scalar]. split; ring.
Qed.

Lemma dot_vdiv (n e : vec3 R) (d : R) : dot (vdiv n d) e = (dot n e / d)%R.
Proof.
  destruct n as [[n0 n1] n2], e as [[e0 e1] e2].
  cbn [vdiv dot s_div real_scalar]. unfold Rdiv. ring.
Qed.

Lemma linalg_norm_vdiv (n : vec3 R) :
  (0 < linalg_norm n)%R -> linalg_norm (vdiv n (linalg_norm n)) = 1%R.
Proof.
  destruct n as [[n0 n1] n2].
  cbn [linalg_norm vdiv s_sqrt s_add s_mul s_div real_scalar].
  set (sq := (n0 * n0 + n1 * n1 + n2 * n2)%R). intros Hpos.
  assert (HS : (0 <= sq)%R) by (unfold sq; nra).
  assert (Hm : (sqrt sq * sqrt sq = sq)%R) by now apply sqrt_sqrt.
  replace (n0 / sqrt sq * (n0 / sqrt sq) + n1 / sqrt sq * (n1 / sqrt sq)
           + n2 / sqrt sq * (n2 / sqrt sq))%R
    with (sq / (sqrt sq * sqrt sq))%R
    by (unfold sq; field; apply Rgt_not_eq; exact Hpos).
  rewrite Hm. replace (sq / sq)%R with 1%R by (field; nra).
  apply sqrt_1.
Qed.

(** X23: in exact arithmetic the normal the writers compute is
    perpendicular to both edges [v1 - v0] and [v2 - v0] of the triangle,
    and it is a unit vector unless the triangle is degenerate, where it is
    the zero vector. *)
Theorem face_normal_perpendicular_unit (v0 v1 v2 : vec3 R) :
  dot (face_normal v0 v1 v2) (vsub v1 v0) = 0%R
  /\ dot (face_normal v0 v1 v2) (vsub v2 v0) = 0%R
  /\ (linalg_norm (face_normal v0 v1 v2) = 1%R
      \/ face_normal v0 v1 v2 = (0, 0, 0)%R).
Proof.
  destruct (cross_perpendicular (vsub v1 v0) (vsub v2 v0)) as [P1 P2].
  pose proof (face_normal_real v0 v1 v2) as HN.
  unfold face_normal in *. cbv zeta in *.
  set (n := cross (vsub v1 v0) (vsub v2 v0)) in *.
  cbn [s_ltb s_zero real_scalar] in *.
  destruct (Rlt_dec 0 (linalg_norm n)) as [Hpos|Hnot].
  - split; [|split].
    + rewrite dot_vdiv, P1. unfold Rdiv. ring.
    + rewrite dot_vdiv, P2. unfold Rdiv. ring.
    + left. now apply linalg_norm_vdiv.
  - assert (Hz : n = (0, 0, 0)%R).
    { rewrite HN. unfold NormalComputer.
      destruct (vsub v1 v0) as [[e1x e1y] e1z], (vsub v2 v0) as [[e2x e2y] e2z].
      subst n. cbn [cross linalg_norm s_sub s_mul s_add s_sqrt real_scalar] in Hnot.
      cbn [s_ltb s_zero s_sub s_mul s_add s_sqrt real_scalar].
      destruct (Rlt_dec 0 _) as [H|_]; [contradiction|reflexivity]. }
    split; [exact P1|split; [exact P2|now right]].
Qed.

(** X24: in exact arithmetic the winding order decides the side the
    normal points to: exchanging the second and third vertex of a triangle
    gives the opposite normal, and rotating the three vertices leaves the
    normal as it is. *)
Theorem face_normal_winding (v0 v1 v2 : vec3 R) :
  face_normal v0 v2 v1 = vneg (face_normal v0 v1 v2)
  /\ face_normal v1 v2 v0 = face_normal v0 v1 v2.
Proof.
  unfold face_normal. cbv zeta. split.
  - rewrite (cross_swap (vsub v1 v0) (vsub v2 v0)), linalg_norm_vneg.
    destruct (s_ltb s_zero (linalg_norm (cross (vsub v1 v0) (vsub v2 v0))));
      [apply vdiv_vneg|reflexivity].
  - now rewrite cross_cycle.
Qed.

(* ================================================================= *)
(** ** The ASCII writer stopped by a bad face *)

Lemma write_face_ascii_bad (vertices : list vertex) (a b c : Z) (buf : bytes) :
  len vertices <= a \/ len vertices <= b \/ len vertices <= c ->
  write_face_ascii vertices (a, b, c) buf = (Raise IndexError, buf).
Proof.
  intros Hbeyond. unfold write_face_ascii. cbn [bind stateful_monad lift].
  destruct (lookups_raise vertices a b c Hbeyond)
    as [(e & Ea)|[(v0 & e & Ea & Eb)|(v0 & v1 & e & Ea & Eb & Ec)]].
  - rewrite Ea. now rewrite (py_index_raises _ _ _ Ea).
  - rewrite Ea, Eb. now rewrite (py_index_raises _ _ _ Eb).
  - rewrite Ea, Eb, Ec. now rewrite (py_index_raises _ _ _ Ec).
Qed.

Lemma facet_records_text (vertices : list vertex) (faces : list face)
    (recs : list bytes) :
  Forall2 (fun f rec => rec = b_ (facet_text vertices f)) faces recs ->
  List.concat recs = b_ (join (map (facet_text vertices) faces)).
Proof.
  induction 1 as [|f rec faces recs -> _ IH]; [reflexivity|].
  cbn [List.concat map join fold_right]. rewrite b_app. now rewrite IH.
Qed.

(** X25: the ASCII writer checks nothing in advance either.  When the
    faces before the first one with an index beyond the vertex array have
    their indices within it, the writer raises [IndexError] at that face,
    having written the "solid" line and the facets of the faces before it:
    the text left behind has no "endsolid" line. *)
Theorem ascii_writer_stops_at_bad_face
    (vertices : list vertex) (good : list face) (a b c : Z) (rest : list face) :
  Forall (face_in_range vertices) good ->
  len vertices <= a \/ len vertices <= b \/ len vertices <= c ->
  write_stl_ascii vertices (good ++ (a, b, c) :: rest) []
  = (Raise IndexError,
     b_ (("solid glTF_converted" ++ nl)
           ++ join (map (facet_text vertices) good))).
Proof.
  intros Hgood Hbeyond.
  destruct (for_each_stops (write_face_ascii vertices)
              (fun f rec => rec = b_ (facet_text vertices f))
              good (a, b, c) rest IndexError) as (records & HR & Hloop).
  { eapply Forall_impl; [|exact Hgood]. intros f Hf.
    exists (b_ (facet_text vertices f)). split; [reflexivity|].
    intros buf. now apply write_face_ascii_ok. }
  { intros buf. now apply write_face_ascii_bad. }
  unfold write_stl_ascii. cbn [bind stateful_monad].
  unfold write_text at 1. unfold write at 1. cbn [app].
  rewrite Hloop. rewrite (facet_records_text _ _ _ HR). now rewrite b_app.
Qed.

Lemma ascii_writer_stops_at_bad_face_witness :
  write_stl_ascii sample_vertices ([(0, 1, 2)] ++ (0, 1, 3) :: [(2, 1, 0)]) []
  = (Raise IndexError,
     b_ (("solid glTF_converted" ++ nl)
           ++ join (map (facet_text sample_vertices) [(0, 1, 2)]))).
Proof.
  apply (ascii_writer_stops_at_bad_face sample_vertices [(0, 1, 2)] 0 1 3
           [(2, 1, 0)]).
  - repeat constructor; unfold len; simpl; lia.
  - right. right. vm_compute. discriminate.
Defined.

(* ================================================================= *)
(** ** What an extracted mesh can hold *)

Lemma for_each_result_Forall {A B} (body : A -> result B) (P : B -> Prop)
    (xs : list A) :
  (forall x y, body x = Ok y -> P y) ->
  forall ys, for_each body xs = Ok ys -> Forall P ys.
Proof.
  intros Hbody. induction xs as [|x xs IH]; intros ys;
    cbn [for_each bind result_monad ret].
  - intros [= <-]. constructor.
  - destruct (body x) as [y|e] eqn:E1; [|discriminate].
    destruct (for_each body xs) as [ys'|e] eqn:E2; [|discriminate].
    intros [= <-]. constructor; [now apply Hbody with x|now apply IH].
Qed.

Lemma floats3_fits (b : bytes) : vec_fits (floats3 b) = true.
Proof.
  unfold vec_fits, floats3. now rewrite !unpack_f_fits.
Qed.

Lemma le_decode_word (b : bytes) : index_word (le_decode (firstn 4 b)).
Proof.
  split; [apply le_decode_nonneg|].
  eapply Z.lt_le_trans; [apply le_decode_bound|].
  change (2 ^ 32) with (256 ^ 4). apply Z.pow_le_mono_r; [lia|].
  rewrite length_firstn. lia.
Qed.

Lemma read_vertices_fit (bin_data : bytes) (pos_offset pos_count : json)
    (vertices : list vertex) :
  read_vertices bin_data pos_offset pos_count = Ok vertices ->
  Forall (fun v => vec_fits v = true) vertices.
Proof.
  unfold read_vertices. cbn [bind result_monad].
  destruct (as_index pos_count) as [stop|e]; [|discriminate].
  apply for_each_result_Forall. intros i v. cbn [bind result_monad].
  destruct (offset_plus pos_offset (i * 12)) as [offset|e]; [|discriminate].
  unfold unpack_fff. destruct (List.length _ =? 12)%nat; [|discriminate].
  intros [= <-]. apply (floats3_fits (py_slice bin_data offset (offset + 12))).
Qed.

Lemma read_faces_words (bin_data : bytes) (idx_offset idx_count : json)
    (faces : list face) :
  read_faces bin_data idx_offset idx_count = Ok faces ->
  Forall face_words faces.
Proof.
  unfold read_faces. cbn [bind result_monad].
  destruct (as_index idx_count) as [stop|e]; [|discriminate].
  apply for_each_result_Forall. intros i f. cbn [bind result_monad].
  destruct (offset_plus idx_offset (i * 4)) as [offset|e]; [|discriminate].
  unfold unpack_III. destruct (List.length _ =? 12)%nat; [|discriminate].
  intros [= <-]. repeat split; apply le_decode_word.
Qed.

(** X26: whatever the scene and the payload, a mesh the extractor returns
    holds only coordinates that [struct.pack('<fff', ...)] accepts, and only
    indices in [0, 2^32): no vertex of an extracted mesh can overflow the
    binary writer, and no decoded index is negative, so an index never
    counts from the end of the vertex array. *)
Theorem extract_mesh_value_ranges
    (scene : json) (bin_data : bytes) (vertices : list vertex) (faces : list face) :
  extract_mesh_from_glb scene bin_data = Ok (vertices, faces) ->
  Forall (fun v => vec_fits v = true) vertices /\ Forall face_words faces.
Proof.
  unfold extract_mesh_from_glb. cbn [bind result_monad].
  destruct (find_mesh_data scene) as [[[[pa ia] pv] iv]|e]; [|discriminate].
  destruct (dict_get pv "byteOffset" (JInt 0)) as [po|e]; [|discriminate].
  destruct (getitem pa (JStr "count")) as [pc|e]; [|discriminate].
  destruct (read_vertices bin_data po pc) as [vs|e] eqn:EV; [|discriminate].
  destruct (dict_get iv "byteOffset" (JInt 0)) as [io|e]; [|discriminate].
  destruct (getitem ia (JStr "count")) as [ic|e]; [|discriminate].
  destruct (read_faces bin_data io ic) as [fs|e] eqn:EF; [|discriminate].
  intros [= <- <-]. split.
  - now apply read_vertices_fit with bin_data po pc.
  - now apply read_faces_words with bin_data io ic.
Qed.

Lemma extract_mesh_value_ranges_witness :
  Forall (fun v => vec_fits v = true) sample_vertices
  /\ Forall face_words [(0, 1, 2)].
Proof.
  apply (extract_mesh_value_ranges (sample_scene 3 36 3)
           (sample_payload [0; 1; 2]) sample_vertices [(0, 1, 2)]).
  vm_compute. reflexivity.
Defined.
